(** * LexiBridge Intelligence: the document-analysis pipeline of [backend/main.py]

    A shallow embedding of [analyze_document_with_ai], [simulate_progress],
    [analyze_document] and [analyze_document_stream].  The collaborators
    they call are kept as oracles: the Groq client and the MongoDB driver
    answer as a function of everything that happened before, the [json]
    module, the web framework and pydantic are an interface, and the
    properties of the pipeline are proved for every behaviour of them. *)

From Stdlib Require Import ZArith NArith QArith Ascii String List Lia.
From Stdlib Require Import Floats.SpecFloat DecimalString.
From stdpp Require Import base option list gmap.

Set Warnings "-register-all,-abstract-large-number".

Local Open Scope N_scope.
Local Open Scope list_scope.

(** ** Python strings

    A [str] is a sequence of Unicode code points; [len], slicing and
    [strip] all count code points. *)

Definition str : Type := list N.

(** Literals of the source are written between double quotes in Rocq;
    [lit] turns one into a [str]. *)
Definition lit (s : string) : str :=
  List.map N_of_ascii (list_ascii_of_string s).

(** The same, for literals of the source that contain the double quote
    character: it is written [~] in the Rocq literal. *)
Definition requote (c : N) : N := if N.eqb c 126 then 34 else c.

Definition litq (s : string) : str := List.map requote (lit s).

(** [s.startswith(p)] *)
Fixpoint startswith (s p : str) {struct p} : bool :=
  match p, s with
  | [], _ => true
  | _ :: _, [] => false
  | c :: p', d :: s' => N.eqb c d && startswith s' p'
  end.

(** [s.endswith(p)] *)
Definition endswith (s p : str) : bool := startswith (rev s) (rev p).

(** [s[n:]] and [s[:n]] for [n >= 0] are [drop n s] and [take n s];
    [s[:-n]] drops the last [n] characters. *)
Definition drop_last (n : nat) (s : str) : str := take (length s - n)%nat s.

(** [c.isspace()] for one code point, as CPython decides it: the ASCII
    table of [_Py_ascii_whitespace] below 128, [_PyUnicode_IsWhitespace]
    above. *)
Definition isspace (c : N) : bool :=
  (N.leb 9 c && N.leb c 13) || (N.leb 28 c && N.leb c 32)
  || N.eqb c 133 || N.eqb c 160 || N.eqb c 5760
  || (N.leb 8192 c && N.leb c 8202)
  || N.eqb c 8232 || N.eqb c 8233 || N.eqb c 8239 || N.eqb c 8287
  || N.eqb c 12288.

Fixpoint lstrip (s : str) : str :=
  match s with
  | [] => []
  | c :: s' => if isspace c then lstrip s' else s
  end.

Definition rstrip (s : str) : str := rev (lstrip (rev s)).

(** [s.strip()] *)
Definition strip (s : str) : str := rstrip (lstrip s).

(** ** Python values and exceptions *)

(** What [json.loads] returns, and what the code builds from it. A [dict]
    keeps its items in insertion order; [dict_get] reads the first item
    with the key. *)
Inductive pyval : Type :=
| PNone
| PBool (b : bool)
| PInt (n : Z)
| PFloat (f : spec_float)
| PStr (s : str)
| PList (l : list pyval)
| PDict (d : list (str * pyval)).

Definition pydict : Type := list (str * pyval).

Fixpoint dict_get (d : pydict) (k : str) : option pyval :=
  match d with
  | [] => None
  | (k', v) :: d' => if decide (k' = k) then Some v else dict_get d' k
  end.

(** [type(v).__name__] *)
Definition type_name (v : pyval) : str :=
  match v with
  | PNone => lit "NoneType"
  | PBool _ => lit "bool"
  | PInt _ => lit "int"
  | PFloat _ => lit "float"
  | PStr _ => lit "str"
  | PList _ => lit "list"
  | PDict _ => lit "dict"
  end.

(** The exceptions the code tells apart: [json.JSONDecodeError], the
    framework's [HTTPException], and every other subclass of [Exception],
    kept as its class name and its [str()]. *)
Inductive exn : Type :=
| JSONDecodeError (msg : str)
| HTTPException (status_code : Z) (detail : str)
| Error (cls : str) (msg : str).

(** [v.get(k, default)]: only a [dict] has the method. *)
Definition py_get (v : pyval) (k : str) (dflt : pyval) : exn + pyval :=
  match v with
  | PDict d => inr (default dflt (dict_get d k))
  | _ => inl (Error (lit "AttributeError")
                (lit "'" ++ type_name v ++ lit "' object has no attribute 'get'"))
  end.

(** ** The libraries the code runs on

    [json.loads] returns a value or raises, [JSONDecodeError] when the
    text is not JSON; [json.dumps] renders a value; [http_str] is the
    [str()] of an [HTTPException], which the framework defines; the two
    validators are pydantic's for the annotations [List[str]] and [Dict],
    and [validation_error_str] is the [str()] of the [ValidationError]
    raised for the rejected field values. *)
Class Runtime : Type := {
  json_loads : str -> exn + pyval;
  json_dumps : pyval -> str;
  http_str : Z -> str -> str;
  validate_List_str : pyval -> option (list str);
  validate_Dict : pyval -> option pydict;
  validation_error_str : list pyval -> str;
}.

(** [str(e)] *)
Definition exn_str `{Runtime} (e : exn) : str :=
  match e with
  | JSONDecodeError msg => msg
  | HTTPException status_code detail => http_str status_code detail
  | Error _ msg => msg
  end.

(** ** Data of the application *)

(** A MongoDB [ObjectId]. *)
Definition oid : Type := N.

(** [class DocumentRequest(BaseModel)] *)
Record DocumentRequest : Type := {
  text : str;
  document_type : option str;
}.

(** [class LegalEntity(BaseModel)] *)
Record LegalEntity : Type := {
  survey_numbers : list str;
  ownership_details : pydict;
  land_extents : pydict;
  encumbrances : list str;
  risks : list str;
  missing_data : list str;
  notable_clauses : list str;
}.

(** [class DocumentResponse(BaseModel)] *)
Record DocumentResponse : Type := {
  document_id : oid;
  simplified_summary : list str;
  legal_entities : LegalEntity;
  processed_at : nat;
}.

(** The [document_record] that [analyze_document] stores. *)
Record document_record : Type := {
  rec_user_id : oid;
  rec_original_text : str;
  rec_document_type : option str;
  rec_analysis_result : pyval;
  rec_processed_at : nat;
  rec_simplified_summary : pyval;
  rec_legal_entities : pyval;
}.

(** A record of the [users] collection, as [register] creates it. *)
Record user : Type := {
  name : str;
  email : str;
  password : str;
  created_at : nat;
  phone : str;
  address : str;
  document_count : Z;
}.

(** The arguments of one [groq_client.chat.completions.create] call:
    the two messages, the model, the temperature, and whether
    [response_format={"type": "json_object"}] is passed. *)
Record chat_request : Type := {
  system_content : str;
  user_content : str;
  model : str;
  temperature : Q;
  json_object_format : bool;
}.

(** A chat completion, as far as the code reads it: the
    [message.content] of each of its [choices], which the client types
    as optional. *)
Definition chat_completion : Type := list (option str).

(** What the collaborators are seen to do, in order. *)
Inductive event : Type :=
| GroqCreate (req : chat_request)
| UsersUpdateOne (uid : oid) (inc : Z)
| DocumentsInsertOne (rec : document_record)
| Yield (frame : str)
| Sleep.

(** A failure of the driver or of a library that no handler of the code
    tells apart from another: the class and the [str()] of what is
    raised (the driver's [PyMongoError] family, transport errors). *)
Definition failure : Type := (str * str)%type.

(** ** The world

    The two collaborators answer a call as a function of everything that
    happened up to it, the call included: [groq] is given the trace that
    ends with a [GroqCreate] and returns the completion of the
    generation service, or the exception that the client's [create]
    raises, of whatever class (the handlers of lines 216 and 218 guard
    the two calls too, and tell a [json.JSONDecodeError] from the rest);
    [mongo_fault] is given the trace that ends with a call of the driver
    and says whether that call fails.  [users] and
    [documents] are the two collections, [clock] the time, and [trace]
    the events so far, oldest first. *)
Record world : Type := {
  groq : list event -> exn + chat_completion;
  mongo_fault : list event -> option failure;
  users : gmap oid user;
  documents : gmap oid document_record;
  clock : nat;
  trace : list event;
}.

Definition log (ev : event) (w : world) : world :=
  {| groq := groq w; mongo_fault := mongo_fault w; users := users w;
     documents := documents w; clock := clock w;
     trace := trace w ++ [ev] |}.

Definition set_users (u : gmap oid user) (w : world) : world :=
  {| groq := groq w; mongo_fault := mongo_fault w; users := u;
     documents := documents w; clock := clock w; trace := trace w |}.

Definition set_documents (d : gmap oid document_record) (w : world) : world :=
  {| groq := groq w; mongo_fault := mongo_fault w; users := users w;
     documents := d; clock := clock w; trace := trace w |}.

Definition tick (w : world) : world :=
  {| groq := groq w; mongo_fault := mongo_fault w; users := users w;
     documents := documents w; clock := S (clock w); trace := trace w |}.

(** ** Computations: a result or an exception, and the world after *)

Definition M (A : Type) : Type := world -> (exn + A) * world.

Definition ret {A} (a : A) : M A := fun w => (inr a, w).

Definition raise {A} (e : exn) : M A := fun w => (inl e, w).

Definition bind {A B} (m : M A) (k : A -> M B) : M B :=
  fun w =>
    match m w with
    | (inr a, w') => k a w'
    | (inl e, w') => (inl e, w')
    end.

(** [try: m  except Exception as e: h e] *)
Definition try_except {A} (m : M A) (h : exn -> M A) : M A :=
  fun w =>
    match m w with
    | (inr a, w') => (inr a, w')
    | (inl e, w') => h e w'
    end.

(** A step that touches no collaborator. *)
Definition lift {A} (r : exn + A) : M A := fun w => (r, w).

Declare Scope py_scope.
Delimit Scope py_scope with py.
Notation "x <- m ;; k" := (bind m (fun x => k))
  (at level 100, m at next level, right associativity) : py_scope.
Notation "m ;;; k" := (bind m (fun _ => k))
  (at level 100, right associativity) : py_scope.
Local Open Scope py_scope.

(** [for x in l: body x] *)
Fixpoint for_each {A} (l : list A) (body : A -> M unit) : M unit :=
  match l with
  | [] => ret tt
  | x :: l' => body x ;;; for_each l' body
  end.

(** *** The collaborators *)

(** [groq_client.chat.completions.create(...)] *)
Definition groq_create (req : chat_request) : M chat_completion :=
  fun w =>
    let w' := log (GroqCreate req) w in
    match groq w (trace w') with
    | inl e => (inl e, w')
    | inr completion => (inr completion, w')
    end.

Definition inc_document_count (n : Z) (u : user) : user :=
  {| name := name u; email := email u; password := password u;
     created_at := created_at u; phone := phone u; address := address u;
     document_count := (document_count u + n)%Z |}.

(** [db.users.update_one({"_id": uid}, {"$inc": {"document_count": n}})]:
    the record of [uid] is changed if there is one. *)
Definition users_update_one (uid : oid) (n : Z) : M unit :=
  fun w =>
    let w' := log (UsersUpdateOne uid n) w in
    match mongo_fault w (trace w') with
    | Some (cls, msg) => (inl (Error cls msg), w')
    | None => (inr tt, set_users (alter (inc_document_count n) uid (users w)) w')
    end.

(** [db.documents.insert_one(rec)]: the record is stored under a new
    identifier, which is [result.inserted_id]. *)
Definition documents_insert_one (rec : document_record) : M oid :=
  fun w =>
    let w' := log (DocumentsInsertOne rec) w in
    match mongo_fault w (trace w') with
    | Some (cls, msg) => (inl (Error cls msg), w')
    | None =>
        let inserted_id := fresh (dom (documents w)) in
        (inr inserted_id, set_documents (<[inserted_id := rec]> (documents w)) w')
    end.

(** [datetime.now(timezone.utc)] *)
Definition utcnow : M nat := fun w => (inr (clock w), tick w).

(** [yield frame] of a generator that is consumed to its end. *)
Definition yield (frame : str) : M unit := fun w => (inr tt, log (Yield frame) w).

(** [await asyncio.sleep(0.3)] *)
Definition sleep : M unit := fun w => (inr tt, log Sleep w).

(** ** [str.format]

    The template is scanned once: [{{] and [}}] stand for one brace, and
    [{name}] is a replacement field, which [format(text=...)] fills when
    its name is [text].  Conversions and format specifications, which the
    template of this program has none of, are not given a meaning: a field
    that has one is not found among the keyword arguments. *)
Inductive segment : Type :=
| Literal (s : str)
| Field (field_name : str).

Inductive format_state : Type :=
| InText
| AfterOpen
| InField (rev_name : str)
| AfterClose.

Definition push_char (c : N) (segs : list segment) : list segment :=
  match segs with
  | Literal s :: r => Literal (c :: s) :: r
  | _ => Literal [c] :: segs
  end.

Fixpoint parse_format (st : format_state) (tpl : str) : option (list segment) :=
  match tpl with
  | [] => match st with InText => Some [] | _ => None end
  | c :: tpl' =>
      match st with
      | InText =>
          if N.eqb c 123 then parse_format AfterOpen tpl'
          else if N.eqb c 125 then parse_format AfterClose tpl'
          else push_char c <$> parse_format InText tpl'
      | AfterOpen =>
          if N.eqb c 123 then push_char 123 <$> parse_format InText tpl'
          else if N.eqb c 125 then cons (Field []) <$> parse_format InText tpl'
          else parse_format (InField [c]) tpl'
      | InField n =>
          if N.eqb c 125 then cons (Field (rev n)) <$> parse_format InText tpl'
          else if N.eqb c 123 then None
          else parse_format (InField (c :: n)) tpl'
      | AfterClose =>
          if N.eqb c 125 then push_char 125 <$> parse_format InText tpl'
          else None
      end
  end.

Fixpoint render (segs : list segment) (text_arg : str) : option str :=
  match segs with
  | [] => Some []
  | Literal s :: r => app s <$> render r text_arg
  | Field n :: r =>
      if decide (n = lit "text") then app text_arg <$> render r text_arg
      else None
  end.

(** [tpl.format(text=text_arg)]; the two messages stand for the ones of
    CPython's [ValueError] and [KeyError]. *)
Definition str_format (tpl text_arg : str) : exn + str :=
  match parse_format InText tpl with
  | None => inl (Error (lit "ValueError") (lit "invalid format string"))
  | Some segs =>
      match render segs text_arg with
      | None => inl (Error (lit "KeyError") (lit "replacement field"))
      | Some s => inr s
      end
  end.

(** ** The analysis *)

Definition ANALYSIS_PROMPT : str := litq
"You are a legal document analysis AI specialized in land and property documents from Andhra Pradesh, India.

Analyze the following document text and extract key information. Provide your response in JSON format with the following structure:

{{
    ~simplified_summary~: [
        ~Bullet point 1: Key finding in simple language~,
        ~Bullet point 2: Another important point~,
        ...
    ],
    ~legal_entities~: {{
        ~survey_numbers~: [~survey number 1~, ~survey number 2~, ...],
        ~ownership_details~: {{
            ~owner_name~: ~name if found~,
            ~co_owners~: [~name1~, ~name2~, ...],
            ~ownership_type~: ~individual/joint/company/etc~,
            ~transfer_history~: ~brief description if mentioned~
        }},
        ~land_extents~: {{
            ~total_area~: ~area in acres/hectares~,
            ~area_breakdown~: ~detailed breakdown if available~,
            ~location~: ~village/mandal/district details~
        }},
        ~encumbrances~: [
            ~Any mortgages, liens, or legal claims mentioned~,
            ...
        ],
        ~risks~: [
            ~Potential legal risks or concerns identified~,
            ...
        ],
        ~missing_data~: [
        ~Important information that appears to be missing~,
        ...
        ],
        ~notable_clauses~: [
            ~Important clauses or conditions mentioned~,
            ...
        ]
    }}
}}

Document text to analyze:
{text}

IMPORTANT: 
- Respond ONLY with valid JSON, no additional text
- Use simple, non-legal language in simplified_summary
- If information is not found, use empty arrays or null values
- Focus on Andhra Pradesh land document formats
- Identify regional language terms and translate them to English".

(** The two requests of [analyze_document_with_ai]. *)
Definition json_mode_request (prompt : str) : chat_request :=
  {| system_content :=
       lit "You are a legal document analysis expert. Always respond with valid JSON only.";
     user_content := prompt;
     model := lit "llama-3.1-70b-versatile";
     temperature := 3 # 10;
     json_object_format := true |}.

Definition fallback_request (prompt : str) : chat_request :=
  {| system_content :=
       lit "You are a legal document analysis expert. Always respond with valid JSON only, no markdown, no code blocks.";
     user_content := prompt;
     model := lit "llama-3.1-70b-versatile";
     temperature := 3 # 10;
     json_object_format := false |}.

(** [chat_completion.choices[0].message.content], up to the call of its
    [strip] method. *)
Definition first_choice_content (c : chat_completion) : exn + str :=
  match c with
  | [] => inl (Error (lit "IndexError") (lit "list index out of range"))
  | None :: _ =>
      inl (Error (lit "AttributeError")
             (lit "'NoneType' object has no attribute 'strip'"))
  | Some content :: _ => inr content
  end.

(** Lines 204 to 213: the reply is trimmed, a leading [```json], then a
    leading [```], then a trailing [```] are removed, each if present,
    and the rest is trimmed again. *)
Definition clean_response_text (content : str) : str :=
  let response_text := strip content in
  let response_text :=
    if startswith response_text (lit "```json") then drop 7 response_text
    else response_text in
  let response_text :=
    if startswith response_text (lit "```") then drop 3 response_text
    else response_text in
  let response_text :=
    if endswith response_text (lit "```") then drop_last 3 response_text
    else response_text in
  strip response_text.

(** Line 168: [ANALYSIS_PROMPT.format(text=text[:8000])]. *)
Definition build_prompt (text : str) : exn + str :=
  str_format ANALYSIS_PROMPT (take 8000 text).

Section Pipeline.
Context `{Runtime}.

(** Lines 204 to 215: [json.loads] of the cleaned reply. *)
Definition loads_response (content : str) : exn + pyval :=
  json_loads (clean_response_text content).

(** The two handlers that close [analyze_document_with_ai]. *)
Definition ai_failure (e : exn) : exn :=
  match e with
  | JSONDecodeError _ =>
      HTTPException 500 (lit "Failed to parse AI response as JSON: " ++ exn_str e)
  | _ => HTTPException 500 (lit "AI analysis failed: " ++ exn_str e)
  end.

Definition analyze_document_with_ai (text : str) : M pyval :=
  try_except
    (prompt <- lift (build_prompt text) ;;
     chat_completion <-
       try_except (groq_create (json_mode_request prompt))
         (fun _ => groq_create (fallback_request prompt)) ;;
     content <- lift (first_choice_content chat_completion) ;;
     lift (loads_response content))
    (fun e => raise (ai_failure e)).

(** [progress_steps] of [simulate_progress] *)
Definition progress_step (step message : string) (progress : Z) : pyval :=
  PDict [(lit "step", PStr (lit step));
         (lit "message", PStr (lit message));
         (lit "progress", PInt progress)].

Definition progress_steps : list pyval :=
  [ progress_step "reading" "Reading document..." 10;
    progress_step "extracting" "Extracting legal entities..." 25;
    progress_step "analyzing" "Analyzing ownership details..." 40;
    progress_step "identifying" "Identifying survey numbers..." 55;
    progress_step "checking" "Checking for encumbrances..." 70;
    progress_step "assessing" "Assessing potential risks..." 85;
    progress_step "generating" "Generating simplified summary..." 95 ].

(** [f"data: {json.dumps(v)}\n\n"] *)
Definition sse_frame (v : pyval) : str :=
  lit "data: " ++ json_dumps v ++ [10; 10].

Definition simulate_progress : M unit :=
  for_each progress_steps (fun step_data =>
    yield (sse_frame step_data) ;;; sleep).

(** [LegalEntity(...)]: pydantic checks the seven values and raises one
    [ValidationError] when it rejects some of them. *)
Definition make_LegalEntity (sn od le en ri md nc : pyval) : exn + LegalEntity :=
  match validate_List_str sn, validate_Dict od, validate_Dict le,
        validate_List_str en, validate_List_str ri, validate_List_str md,
        validate_List_str nc with
  | Some sn', Some od', Some le', Some en', Some ri', Some md', Some nc' =>
      inr {| survey_numbers := sn'; ownership_details := od';
             land_extents := le'; encumbrances := en'; risks := ri';
             missing_data := md'; notable_clauses := nc' |}
  | _, _, _, _, _, _, _ =>
      inl (Error (lit "ValidationError")
             (validation_error_str [sn; od; le; en; ri; md; nc]))
  end.

(** [DocumentResponse(...)], whose other three fields are already of
    their types. *)
Definition make_DocumentResponse (id : oid) (summary : pyval)
    (entity : LegalEntity) (at_ : nat) : exn + DocumentResponse :=
  match validate_List_str summary with
  | Some summary' =>
      inr {| document_id := id; simplified_summary := summary';
             legal_entities := entity; processed_at := at_ |}
  | None =>
      inl (Error (lit "ValidationError") (validation_error_str [summary]))
  end.

(** [POST /api/analyze]; [current_user] is the [_id] of the user that
    [get_current_user] found. *)
Definition analyze_document (request : DocumentRequest) (current_user : oid)
    : M DocumentResponse :=
  try_except
    (analysis_result <- analyze_document_with_ai (text request) ;;
     now <- utcnow ;;
     summary <- lift (py_get analysis_result (lit "simplified_summary") (PList [])) ;;
     entities <- lift (py_get analysis_result (lit "legal_entities") (PDict [])) ;;
     let document_record :=
       {| rec_user_id := current_user;
          rec_original_text := text request;
          rec_document_type := document_type request;
          rec_analysis_result := analysis_result;
          rec_processed_at := now;
          rec_simplified_summary := summary;
          rec_legal_entities := entities |} in
     users_update_one current_user 1 ;;;
     document_id <- documents_insert_one document_record ;;
     legal_entities <- lift (py_get analysis_result (lit "legal_entities") (PDict [])) ;;
     summary <- lift (py_get analysis_result (lit "simplified_summary") (PList [])) ;;
     sn <- lift (py_get legal_entities (lit "survey_numbers") (PList [])) ;;
     od <- lift (py_get legal_entities (lit "ownership_details") (PDict [])) ;;
     le <- lift (py_get legal_entities (lit "land_extents") (PDict [])) ;;
     en <- lift (py_get legal_entities (lit "encumbrances") (PList [])) ;;
     ri <- lift (py_get legal_entities (lit "risks") (PList [])) ;;
     md <- lift (py_get legal_entities (lit "missing_data") (PList [])) ;;
     nc <- lift (py_get legal_entities (lit "notable_clauses") (PList [])) ;;
     entity <- lift (make_LegalEntity sn od le en ri md nc) ;;
     now <- utcnow ;;
     lift (make_DocumentResponse document_id summary entity now))
    (fun e =>
       raise (HTTPException 500 (lit "Document processing failed: " ++ exn_str e))).

(** The generator [generate] of [GET /api/analyze/stream], consumed to
    its end by the [StreamingResponse]. *)
Definition generate (text : str) : M unit :=
  simulate_progress ;;;
  try_except
    (analysis_result <- analyze_document_with_ai text ;;
     yield (sse_frame (PDict [(lit "step", PStr (lit "complete"));
                                (lit "result", analysis_result)])))
    (fun e =>
       yield (sse_frame (PDict [(lit "step", PStr (lit "error"));
                                  (lit "message", PStr (exn_str e))]))).

Definition analyze_document_stream (text : str) : M unit := generate text.

End Pipeline.

(** The frames a run has sent, in order. *)
Definition frames (t : list event) : list str :=
  omap (fun ev => match ev with Yield frame => Some frame | _ => None end) t.

Definition is_groq (ev : event) : bool :=
  match ev with GroqCreate _ => true | _ => false end.

(** The calls a run has made to the persistence collaborator. *)
Definition is_persistence (ev : event) : bool :=
  match ev with
  | UsersUpdateOne _ _ | DocumentsInsertOne _ => true
  | _ => false
  end.

(** ** A small runtime, to run the pipeline on concrete replies

    [MiniRuntime] reads and writes the part of JSON that uses no escape
    sequence and no fraction or exponent, with abbreviated diagnostics;
    on that part it returns what [json.loads] and [json.dumps] return,
    and it gives up on a text that is nested too deep with the
    [RecursionError] of CPython.
    Its [http_str] is the [__str__] of Starlette's [HTTPException], and
    its validators accept a [list] of [str] and a [dict]. *)
Module MiniRuntime.

Definition is_json_space (c : N) : bool :=
  N.eqb c 32 || N.eqb c 9 || N.eqb c 10 || N.eqb c 13.

Fixpoint skip_ws (s : str) : str :=
  match s with
  | c :: s' => if is_json_space c then skip_ws s' else s
  | [] => []
  end.

(** The characters of a string literal after its opening quote. *)
Fixpoint string_body (s : str) (acc : str) : option (str * str) :=
  match s with
  | [] => None
  | c :: s' =>
      if N.eqb c 34 then Some (rev acc, s')
      else if N.eqb c 92 || N.ltb c 32 then None
      else string_body s' (c :: acc)
  end.

Definition is_digit (c : N) : bool := N.leb 48 c && N.leb c 57.

Fixpoint digits (s : str) (acc : N) : N * str :=
  match s with
  | c :: s' => if is_digit c then digits s' (10 * acc + (c - 48)) else (acc, s)
  | [] => (acc, [])
  end.

(** An integer literal that is not followed by a fraction or exponent. *)
Definition number (s : str) : option (Z * str) :=
  let '(neg, s1) := match s with 45 :: r => (true, r) | _ => (false, s) end in
  match s1 with
  | c :: r =>
      if is_digit c then
        let '(n, rest) := if N.eqb c 48 then (0, r) else digits s1 0 in
        match rest with
        | d :: _ =>
            if N.eqb d 46 || N.eqb d 101 || N.eqb d 69 || is_digit d then None
            else Some (if neg then (- Z.of_N n)%Z else Z.of_N n, rest)
        | [] => Some (if neg then (- Z.of_N n)%Z else Z.of_N n, rest)
        end
      else None
  | [] => None
  end.

(** [d[k] = v] *)
Fixpoint dict_set (d : pydict) (k : str) (v : pyval) : pydict :=
  match d with
  | [] => [(k, v)]
  | (k', v') :: d' =>
      if decide (k' = k) then (k, v) :: d' else (k', v') :: dict_set d' k v
  end.

(** What the decoder makes of a text: a value and the rest of the text,
    a text that is not JSON, or arrays and objects nested deeper than the
    interpreter allows. *)
Inductive decoded : Type :=
| Decoded (v : pyval) (rest : str)
| Invalid
| TooDeep (what : str).

(** [sys.getrecursionlimit()], as the interpreter starts.  The decoder
    of CPython enters a recursive call at each array and object; the
    frames of its caller count as well, so it gives up no later than
    here. *)
Definition recursion_limit : nat := 1000.

Fixpoint value (fuel depth : nat) (s : str) : decoded :=
  match fuel with
  | O => Invalid
  | S fuel' =>
      match skip_ws s with
      | 110 :: 117 :: 108 :: 108 :: r => Decoded PNone r
      | 116 :: 114 :: 117 :: 101 :: r => Decoded (PBool true) r
      | 102 :: 97 :: 108 :: 115 :: 101 :: r => Decoded (PBool false) r
      | 34 :: r =>
          match string_body r [] with
          | Some (st, r') => Decoded (PStr st) r'
          | None => Invalid
          end
      | 91 :: r =>
          if Nat.leb recursion_limit (S depth) then TooDeep (lit "array")
          else
            match skip_ws r with
            | 93 :: r' => Decoded (PList []) r'
            | _ => elements fuel' (S depth) r []
            end
      | 123 :: r =>
          if Nat.leb recursion_limit (S depth) then TooDeep (lit "object")
          else
            match skip_ws r with
            | 125 :: r' => Decoded (PDict []) r'
            | _ => members fuel' (S depth) r []
            end
      | s' =>
          match number s' with
          | Some (n, r) => Decoded (PInt n) r
          | None => Invalid
          end
      end
  end
with elements (fuel depth : nat) (s : str) (acc : list pyval) : decoded :=
  match fuel with
  | O => Invalid
  | S fuel' =>
      match value fuel' depth s with
      | Decoded v r =>
          match skip_ws r with
          | 44 :: r' => elements fuel' depth r' (v :: acc)
          | 93 :: r' => Decoded (PList (rev (v :: acc))) r'
          | _ => Invalid
          end
      | failed => failed
      end
  end
with members (fuel depth : nat) (s : str) (acc : pydict) : decoded :=
  match fuel with
  | O => Invalid
  | S fuel' =>
      match skip_ws s with
      | 34 :: r =>
          match string_body r [] with
          | Some (k, r1) =>
              match skip_ws r1 with
              | 58 :: r2 =>
                  match value fuel' depth r2 with
                  | Decoded v r3 =>
                      match skip_ws r3 with
                      | 44 :: r4 => members fuel' depth r4 (dict_set acc k v)
                      | 125 :: r4 => Decoded (PDict (dict_set acc k v)) r4
                      | _ => Invalid
                      end
                  | failed => failed
                  end
              | _ => Invalid
              end
          | None => Invalid
          end
      | _ => Invalid
      end
  end.

Definition loads (s : str) : exn + pyval :=
  match value (2 * length s + 2) 0 s with
  | Decoded v r =>
      match skip_ws r with
      | [] => inr v
      | _ => inl (JSONDecodeError (lit "Extra data"))
      end
  | Invalid => inl (JSONDecodeError (lit "Expecting value"))
  | TooDeep what =>
      inl (Error (lit "RecursionError")
             (lit "maximum recursion depth exceeded while decoding a JSON "
              ++ what ++ lit " from a unicode string"))
  end.

Definition decimal (n : Z) : str :=
  lit (DecimalString.NilZero.string_of_int (Z.to_int n)).

Definition quoted (s : str) : str :=
  [34] ++ flat_map (fun c => if N.eqb c 34 || N.eqb c 92 then [92; c] else [c]) s ++ [34].

Fixpoint join (sep : str) (l : list str) : str :=
  match l with
  | [] => []
  | [x] => x
  | x :: l' => x ++ sep ++ join sep l'
  end.

Fixpoint dumps (v : pyval) : str :=
  match v with
  | PNone => lit "null"
  | PBool true => lit "true"
  | PBool false => lit "false"
  | PInt n => decimal n
  | PFloat _ => lit "NaN"
  | PStr s => quoted s
  | PList l => lit "[" ++ join (lit ", ") (List.map dumps l) ++ lit "]"
  | PDict d =>
      lit "{"
      ++ join (lit ", ")
           (List.map (fun kv => quoted (fst kv) ++ lit ": " ++ dumps (snd kv)) d)
      ++ lit "}"
  end.

Definition as_str (v : pyval) : option str :=
  match v with PStr s => Some s | _ => None end.

Definition list_str (v : pyval) : option (list str) :=
  match v with
  | PList l => mapM as_str l
  | _ => None
  end.

Definition dict (v : pyval) : option pydict :=
  match v with PDict d => Some d | _ => None end.

Definition runtime : Runtime := {|
  json_loads := loads;
  json_dumps := dumps;
  http_str := fun status_code detail => decimal status_code ++ lit ": " ++ detail;
  validate_List_str := list_str;
  validate_Dict := dict;
  validation_error_str := fun _ => lit "validation error";
|}.

End MiniRuntime.

(** ** Vocabulary of the statements *)

(** The template around its one replacement field. *)
Definition prompt_head : str :=
  Eval vm_compute in
    match parse_format InText ANALYSIS_PROMPT with
    | Some (Literal h :: _) => h
    | _ => []
    end.

Definition prompt_tail : str :=
  Eval vm_compute in
    match parse_format InText ANALYSIS_PROMPT with
    | Some [_; _; Literal t] => t
    | _ => []
    end.

Definition prompt_of (text : str) : str :=
  prompt_head ++ take 8000 text ++ prompt_tail.

(** The structured-output request and the fallback request for a text,
    and what the service answers to each when the run starts in [w]. *)
Definition first_request (text : str) : chat_request :=
  json_mode_request (prompt_of text).

Definition second_request (text : str) : chat_request :=
  fallback_request (prompt_of text).

Definition first_attempt (w : world) (text : str) : exn + chat_completion :=
  groq w (trace w ++ [GroqCreate (first_request text)]).

Definition second_attempt (w : world) (text : str) : exn + chat_completion :=
  groq w ((trace w ++ [GroqCreate (first_request text)])
          ++ [GroqCreate (second_request text)]).

(** The completion the analysis goes on with, if any: the first one, or
    the fallback's when the first attempt failed. *)
Definition service_reply (w : world) (text : str) : exn + chat_completion :=
  match first_attempt w text with
  | inr c => inr c
  | inl _ => second_attempt w text
  end.

(** The record that [analyze_document] builds for an analysis that
    returned the object [d], at time [now]. *)
Definition record_of (request : DocumentRequest) (current_user : oid)
    (d : pydict) (now : nat) : document_record :=
  {| rec_user_id := current_user;
     rec_original_text := text request;
     rec_document_type := document_type request;
     rec_analysis_result := PDict d;
     rec_processed_at := now;
     rec_simplified_summary :=
       default (PList []) (dict_get d (lit "simplified_summary"));
     rec_legal_entities :=
       default (PDict []) (dict_get d (lit "legal_entities")) |}.

(** [legal_entities.get(k, dflt)] for the object [l]. *)
Definition entity_field (l : pydict) (k : string) (dflt : pyval) : pyval :=
  default dflt (dict_get l (lit k)).

(** The number of records of the [documents] collection that belong to
    a user. *)
Definition stored_documents (uid : oid) (docs : gmap oid document_record) : nat :=
  size (filter (fun kv => rec_user_id kv.2 = uid) docs).

(** The events of the seven progress steps. *)
Definition progress_events `{Runtime} : list event :=
  flat_map (fun step_data => [Yield (sse_frame step_data); Sleep]) progress_steps.

(** The last frame of a stream, from the outcome of the analysis. *)
Definition terminal_frame `{Runtime} (r : exn + pyval) : str :=
  match r with
  | inr analysis_result =>
      sse_frame (PDict [(lit "step", PStr (lit "complete"));
                        (lit "result", analysis_result)])
  | inl e =>
      sse_frame (PDict [(lit "step", PStr (lit "error"));
                        (lit "message", PStr (exn_str e))])
  end.

(** The two wrappings of a payload in a fence. *)
Definition fence_json (payload : str) : str :=
  lit "```json" ++ payload ++ lit "```".

Definition fence_bare (payload : str) : str :=
  lit "```" ++ payload ++ lit "```".

(** What the analysis makes of a completion (lines 204 to 219). *)
Definition read_reply `{Runtime} (c : chat_completion) : exn + pyval :=
  match first_choice_content c with
  | inl e => inl (ai_failure e)
  | inr content =>
      match loads_response content with
      | inl e => inl (ai_failure e)
      | inr v => inr v
      end
  end.

(** ** Concrete worlds, to run the pipeline *)
Module Examples.

Definition ramaiah : user :=
  {| name := lit "Ramaiah"; email := lit "ramaiah@example.com";
     password := lit "$2b$12$hash"; created_at := 7;
     phone := []; address := []; document_count := 0 |}.

(** A world with one registered user, who has no document yet. *)
Definition start (service : list event -> exn + chat_completion)
    (driver : list event -> option failure) : world :=
  {| groq := service; mongo_fault := driver;
     users := {[ 1 := ramaiah ]}; documents := ∅;
     clock := 100; trace := [] |}.

(** The generation service: unreachable; answering every request with
    the same content; refusing the structured-output mode only. *)
Definition service_down : list event -> exn + chat_completion :=
  fun _ => inl (Error (lit "APIConnectionError") (lit "Connection error.")).

Definition answers (content : str) : list event -> exn + chat_completion :=
  fun _ => inr [Some content].


(** The driver: working; refusing every insert. *)
Definition driver_ok : list event -> option failure := fun _ => None.

Definition insert_fails : list event -> option failure :=
  fun t =>
    match last t with
    | Some (DocumentsInsertOne _) =>
        Some (lit "ServerSelectionTimeoutError", lit "No servers found yet")
    | _ => None
    end.

Definition survey_text : str := lit "Survey No. 123, owner Ramaiah, 2 acres".

Definition survey_request : DocumentRequest :=
  {| text := survey_text; document_type := Some (lit "land_document") |}.

(** A reply with a summary and nothing else. *)
Definition summary_only : str :=
  litq "{~simplified_summary~: [~Owner is Ramaiah~]}".

(** A reply with a summary and one of the seven entity fields. *)
Definition summary_and_survey : str :=
  litq "{~simplified_summary~: [~Owner is Ramaiah~], ~legal_entities~: {~survey_numbers~: [~123~]}}".

Definition garbage : str := lit "Sorry, I cannot analyze this document.".

(** A text of 8001 characters. *)
Definition long_text : str := replicate 8000 97 ++ [98].

End Examples.

(** ** Vocabulary of the further statements *)

(** [t] is a contiguous part of [s]. *)
Definition part_of (t s : str) : Prop := exists a b, s = a ++ t ++ b.

(** The length of the template outside its replacement field. *)
Definition template_length : nat :=
  Eval vm_compute in (length prompt_head + length prompt_tail)%nat.

(** The failure that [analyze_document] raises around the one it
    caught (line 285). *)
Definition processing_failure `{Runtime} (e : exn) : exn :=
  HTTPException 500 (lit "Document processing failed: " ++ exn_str e).

Definition and_then {A B} (r : exn + A) (k : A -> exn + B) : exn + B :=
  match r with
  | inl e => inl e
  | inr a => k a
  end.

(** Lines 268 to 283 without the clock: the response for an analysis
    result, a document identifier and the time of the response, or the
    exception that building it raises. *)
Definition response_of `{Runtime} (analysis_result : pyval) (id : oid)
    (now : nat) : exn + DocumentResponse :=
  and_then (py_get analysis_result (lit "legal_entities") (PDict [])) (fun legal_entities =>
  and_then (py_get analysis_result (lit "simplified_summary") (PList [])) (fun summary =>
  and_then (py_get legal_entities (lit "survey_numbers") (PList [])) (fun sn =>
  and_then (py_get legal_entities (lit "ownership_details") (PDict [])) (fun od =>
  and_then (py_get legal_entities (lit "land_extents") (PDict [])) (fun le =>
  and_then (py_get legal_entities (lit "encumbrances") (PList [])) (fun en =>
  and_then (py_get legal_entities (lit "risks") (PList [])) (fun ri =>
  and_then (py_get legal_entities (lit "missing_data") (PList [])) (fun md =>
  and_then (py_get legal_entities (lit "notable_clauses") (PList [])) (fun nc =>
  and_then (make_LegalEntity sn od le en ri md nc) (fun entity =>
  make_DocumentResponse id summary entity now)))))))))).

(** What [analyze_document] returns once the record is stored. *)
Definition outcome_of `{Runtime} (r : exn + DocumentResponse)
    : exn + DocumentResponse :=
  match r with
  | inl e => inl (processing_failure e)
  | inr response => inr response
  end.

(** The counter of every user is the number of the user's records. *)
Definition counters_consistent (w : world) : Prop :=
  forall uid u,
    users w !! uid = Some u ->
    document_count u = Z.of_nat (stored_documents uid (documents w)).

(** The two driver calls of [analyze_document] for an analysis that
    returned the object [d] in world [w1]. *)
Definition update_call (current_user : oid) : event :=
  UsersUpdateOne current_user 1.

Definition insert_call (request : DocumentRequest) (current_user : oid)
    (d : pydict) (w1 : world) : event :=
  DocumentsInsertOne (record_of request current_user d (clock w1)).

(** More concrete worlds. *)
Module Scenarios.


(** A service whose completion has no choice, and one whose first choice
    has no content. *)
Definition no_choice : list event -> exn + chat_completion :=
  fun _ => inr [].

Definition no_content : list event -> exn + chat_completion :=
  fun _ => inr [None; Some Examples.summary_only].

(** A client that cannot decode the body of what the service sends:
    each [create] raises [json.JSONDecodeError]. *)
Definition undecodable_body : list event -> exn + chat_completion :=
  fun _ => inl (JSONDecodeError (lit "Expecting value: line 1 column 1 (char 0)")).

(** A reply of 1000 opening brackets. *)
Definition deep_reply : str := replicate 1000 91.

(** A driver that refuses every update. *)
Definition update_fails : list event -> option failure :=
  fun t =>
    match last t with
    | Some (UsersUpdateOne _ _) =>
        Some (lit "ServerSelectionTimeoutError", lit "No servers found yet")
    | _ => None
    end.

(** A reply that is JSON and not an object, and one whose
    [legal_entities] is [null]. *)
Definition a_list : str := litq "[~Owner is Ramaiah~]".

Definition null_entities : str :=
  litq "{~simplified_summary~: [~Owner is Ramaiah~], ~legal_entities~: null}".

(** A world in which the registered user already has one document, and
    the counter says so. *)
Definition earlier_record : document_record :=
  {| rec_user_id := 1; rec_original_text := lit "Pattadar passbook";
     rec_document_type := Some (lit "land_document");
     rec_analysis_result := PDict []; rec_processed_at := 50;
     rec_simplified_summary := PList []; rec_legal_entities := PDict [] |}.

Definition one_document (service : list event -> exn + chat_completion)
    (driver : list event -> option failure) : world :=
  {| groq := service; mongo_fault := driver;
     users := {[ 1 := inc_document_count 1 Examples.ramaiah ]};
     documents := {[ 0 := earlier_record ]};
     clock := 100; trace := [] |}.

End Scenarios.

(** ** The other endpoints

    [get_current_user], [register], [login], [get_profile],
    [get_document] and [delete_document] run on the same two collections.
    What they call besides is kept apart from the trace of the analysis:
    the calls are recorded in [calls], the driver answers them through
    [faults], which sees both histories, and [hasher] is
    [pwd_context.hash], whose salt is drawn anew at each call. *)

(** [bson], [passlib] and [jwt], with the key and the algorithm of the
    program: [ObjectId(s)] returns an identifier or raises [InvalidId]
    (kept as its [str()]), [oid_str] is [str()] of an identifier,
    [pwd_verify] is [pwd_context.verify], [thirty_days] is
    [timedelta(days=30)] in the unit of the clock, [jwt_encode] signs the
    payload with the subject and the expiry, and [jwt_decode now] is
    [jwt.decode] at the time [now]: it returns the [sub] of the payload,
    if it has one, or nothing when it raises a [PyJWTError] (a token
    that is malformed, signed with another key, or expired). *)
Class Security : Type := {
  ObjectId : str -> str + oid;
  oid_str : oid -> str;
  pwd_verify : str -> str -> failure + bool;
  thirty_days : nat;
  jwt_encode : str -> nat -> str;
  jwt_decode : nat -> str -> option (option str);
}.

Inductive call : Type :=
| UsersFindOneByEmail (mail : str)
| UsersFindOneById (uid : oid)
| UsersInsertOne (u : user)
| DocumentsFindOne (id uid : oid)
| DocumentsDeleteOne (id uid : oid)
| PasswordHash (plain : str).

Record site : Type := {
  base : world;
  calls : list call;
  faults : list event -> list call -> option failure;
  hasher : list call -> failure + str;
}.

Definition record_call (c : call) (s : site) : site :=
  {| base := base s; calls := calls s ++ [c]; faults := faults s;
     hasher := hasher s |}.

Definition set_base (w : world) (s : site) : site :=
  {| base := w; calls := calls s; faults := faults s; hasher := hasher s |}.

Definition Op (A : Type) : Type := site -> (exn + A) * site.

Definition s_ret {A} (a : A) : Op A := fun s => (inr a, s).

Definition s_raise {A} (e : exn) : Op A := fun s => (inl e, s).

Definition s_bind {A B} (m : Op A) (k : A -> Op B) : Op B :=
  fun s =>
    match m s with
    | (inr a, s') => k a s'
    | (inl e, s') => (inl e, s')
    end.

Definition s_try {A} (m : Op A) (h : exn -> Op A) : Op A :=
  fun s =>
    match m s with
    | (inr a, s') => (inr a, s')
    | (inl e, s') => h e s'
    end.

(** A computation of the analysis, run on the collections of the site. *)
Definition of_M {A} (m : M A) : Op A :=
  fun s => let (r, w') := m (base s) in (r, set_base w' s).

Declare Scope site_scope.
Delimit Scope site_scope with site.
Notation "x <- m ;; k" := (s_bind m (fun x => k))
  (at level 100, m at next level, right associativity) : site_scope.
Notation "m ;;; k" := (s_bind m (fun _ => k))
  (at level 100, right associativity) : site_scope.
Local Open Scope site_scope.

(** One call to the driver: recorded, then failed or answered. *)
Definition driver_call {A} (c : call) (answer : site -> A * site) : Op A :=
  fun s =>
    let s' := record_call c s in
    match faults s (trace (base s)) (calls s') with
    | Some (cls, msg) => (inl (Error cls msg), s')
    | None => let (a, s'') := answer s' in (inr a, s'')
    end.

(** [db.users.find_one({"email": mail})]: the first record with the
    address [mail], in the order of the collection. *)
Definition users_find_one_by_email (mail : str) : Op (option (oid * user)) :=
  driver_call (UsersFindOneByEmail mail) (fun s =>
    (snd <$> list_find (fun kv => email kv.2 = mail)
               (map_to_list (users (base s))), s)).

(** [db.users.find_one({"_id": uid})] *)
Definition users_find_one_by_id (uid : oid) : Op (option user) :=
  driver_call (UsersFindOneById uid) (fun s => (users (base s) !! uid, s)).

(** [db.users.insert_one(u)] *)
Definition users_insert_one (u : user) : Op oid :=
  driver_call (UsersInsertOne u) (fun s =>
    let inserted_id := fresh (dom (users (base s))) in
    (inserted_id, set_base (set_users (<[inserted_id := u]> (users (base s))) (base s)) s)).

(** [db.documents.find_one({"_id": id, "user_id": uid})] *)
Definition documents_find_one (id uid : oid) : Op (option document_record) :=
  driver_call (DocumentsFindOne id uid) (fun s =>
    (match documents (base s) !! id with
     | Some rec => if decide (rec_user_id rec = uid) then Some rec else None
     | None => None
     end, s)).

(** [db.documents.delete_one({"_id": id, "user_id": uid})], which
    returns [result.deleted_count]. *)
Definition documents_delete_one (id uid : oid) : Op nat :=
  driver_call (DocumentsDeleteOne id uid) (fun s =>
    match documents (base s) !! id with
    | Some rec =>
        if decide (rec_user_id rec = uid)
        then (1%nat, set_base (set_documents (delete id (documents (base s))) (base s)) s)
        else (0%nat, s)
    | None => (0%nat, s)
    end).

(** [get_password_hash(plain)] *)
Definition get_password_hash (plain : str) : Op str :=
  fun s =>
    let s' := record_call (PasswordHash plain) s in
    match hasher s (calls s') with
    | inl (cls, msg) => (inl (Error cls msg), s')
    | inr hashed => (inr hashed, s')
    end.

Section Accounts.
Context `{Runtime} `{Security}.

(** [ObjectId(s)] *)
Definition make_ObjectId (s : str) : Op oid :=
  match ObjectId s with
  | inl msg => s_raise (Error (lit "InvalidId") msg)
  | inr id => s_ret id
  end.

(** [verify_password(plain, hashed)] *)
Definition verify_password (plain hashed : str) : Op bool :=
  match pwd_verify plain hashed with
  | inl (cls, msg) => s_raise (Error cls msg)
  | inr ok => s_ret ok
  end.

(** [create_access_token(data={"sub": sub})] *)
Definition create_access_token (sub : str) : Op str :=
  now <- of_M utcnow ;;
  s_ret (jwt_encode sub (now + thirty_days)%nat).

(** [get_current_user], from the token of the request; the user is
    returned with its identifier. *)
Definition get_current_user (token : str) : Op (oid * user) :=
  user_id <-
    (fun s =>
       match jwt_decode (clock (base s)) token with
       | None => s_raise (HTTPException 401 (lit "Invalid token")) s
       | Some None => s_raise (HTTPException 401 (lit "Invalid token")) s
       | Some (Some user_id) => s_ret user_id s
       end) ;;
  uid <- make_ObjectId user_id ;;
  found <- users_find_one_by_id uid ;;
  match found with
  | None => s_raise (HTTPException 401 (lit "User not found"))
  | Some u => s_ret (uid, u)
  end.

(** [class RegisterRequest(BaseModel)] and [class LoginRequest(BaseModel)] *)
Record RegisterRequest : Type := {
  reg_name : str;
  reg_email : str;
  reg_password : str;
}.

Record LoginRequest : Type := {
  login_email : str;
  login_password : str;
}.

(** What [register] and [login] return. *)
Record AuthResponse : Type := {
  token : str;
  auth_id : str;
  auth_name : str;
  auth_email : str;
  auth_created_at : nat;
}.

(** [POST /api/auth/register] *)
Definition register (request : RegisterRequest) : Op AuthResponse :=
  existing_user <- users_find_one_by_email (reg_email request) ;;
  match existing_user with
  | Some _ => s_raise (HTTPException 400 (lit "Email already registered"))
  | None =>
      hashed_password <- get_password_hash (reg_password request) ;;
      now <- of_M utcnow ;;
      let user_data :=
        {| name := reg_name request; email := reg_email request;
           password := hashed_password; created_at := now;
           phone := []; address := []; document_count := 0 |} in
      inserted_id <- users_insert_one user_data ;;
      let user_id := oid_str inserted_id in
      token <- create_access_token user_id ;;
      s_ret {| token := token; auth_id := user_id;
               auth_name := reg_name request; auth_email := reg_email request;
               auth_created_at := created_at user_data |}
  end.

(** [POST /api/auth/login] *)
Definition login (request : LoginRequest) : Op AuthResponse :=
  found <- users_find_one_by_email (login_email request) ;;
  match found with
  | None => s_raise (HTTPException 401 (lit "Invalid email or password"))
  | Some (uid, u) =>
      ok <- verify_password (login_password request) (password u) ;;
      if ok : bool then
        token <- create_access_token (oid_str uid) ;;
        s_ret {| token := token; auth_id := oid_str uid;
                 auth_name := name u; auth_email := email u;
                 auth_created_at := created_at u |}
      else s_raise (HTTPException 401 (lit "Invalid email or password"))
  end.



(** [GET /api/documents/{document_id}]; the record is returned with its
    identifier. *)
Definition get_document (document_id : str) (current_user : oid)
    : Op (oid * document_record) :=
  s_try
    (id <- make_ObjectId document_id ;;
     document <- documents_find_one id current_user ;;
     match document with
     | None => s_raise (HTTPException 404 (lit "Document not found"))
     | Some rec => s_ret (id, rec)
     end)
    (fun e =>
       s_raise (HTTPException 500 (lit "Failed to retrieve document: " ++ exn_str e))).

(** [DELETE /api/documents/{document_id}] *)
Definition delete_document (document_id : str) (current_user : oid) : Op str :=
  s_try
    (id <- make_ObjectId document_id ;;
     deleted_count <- documents_delete_one id current_user ;;
     if Nat.eqb deleted_count 0
     then s_raise (HTTPException 404 (lit "Document not found"))
     else
       of_M (users_update_one current_user (-1)) ;;;
       s_ret (lit "Document deleted successfully"))
    (fun e =>
       s_raise (HTTPException 500 (lit "Failed to delete document: " ++ exn_str e))).

(** [register] from the answer of its first [await] on (lines 350 to
    379): what the coroutine does once the search is answered. *)
Definition register_continue (request : RegisterRequest)
    (existing_user : option (oid * user)) : Op AuthResponse :=
  match existing_user with
  | Some _ => s_raise (HTTPException 400 (lit "Email already registered"))
  | None =>
      hashed_password <- get_password_hash (reg_password request) ;;
      now <- of_M utcnow ;;
      let user_data :=
        {| name := reg_name request; email := reg_email request;
           password := hashed_password; created_at := now;
           phone := []; address := []; document_count := 0 |} in
      inserted_id <- users_insert_one user_data ;;
      let user_id := oid_str inserted_id in
      token <- create_access_token user_id ;;
      s_ret {| token := token; auth_id := user_id;
               auth_name := reg_name request; auth_email := reg_email request;
               auth_created_at := created_at user_data |}
  end.

(** Two requests to [register] on one event loop, the second arriving
    while the first waits for its search: both searches are answered
    before either coroutine goes on. *)
Definition two_registrations (request_a request_b : RegisterRequest)
    : Op (AuthResponse * AuthResponse) :=
  found_a <- users_find_one_by_email (reg_email request_a) ;;
  found_b <- users_find_one_by_email (reg_email request_b) ;;
  response_a <- register_continue request_a found_a ;;
  response_b <- register_continue request_b found_b ;;
  s_ret (response_a, response_b).

(** [POST /api/analyze] on the site. *)
Definition analyze (request : DocumentRequest) (current_user : oid)
    : Op DocumentResponse :=
  of_M (analyze_document request current_user).

End Accounts.

(** The vocabulary of the statements about the other endpoints. *)

(** No two users have the same address. *)
Definition emails_unique (w : world) : Prop :=
  forall i j u v,
    users w !! i = Some u -> users w !! j = Some v -> email u = email v -> i = j.

(** The driver answers the next call [c] of the site. *)
Definition answers_call (s : site) (c : call) : Prop :=
  faults s (trace (base s)) (calls s ++ [c]) = None.

(** The record that [register] builds (lines 355 to 363) from the
    request, the hash of the password and the time. *)
Definition user_data_of (request : RegisterRequest) (hashed_password : str)
    (now : nat) : user :=
  {| name := reg_name request; email := reg_email request;
     password := hashed_password; created_at := now;
     phone := []; address := []; document_count := 0 |}.

(** Some user has the address [mail]. *)
Definition email_taken (w : world) (mail : str) : Prop :=
  exists i u, users w !! i = Some u /\ email u = mail.

(** A small [Security], to run the endpoints: identifiers are written as
    24 hexadecimal digits, as [bson] writes them; a hash is the password
    after a fixed prefix, and a token is its subject and its expiry
    after a fixed prefix, good until the expiry; the clock counts days. *)
Module MiniSecurity.

Definition hex_value (c : N) : option N :=
  if N.leb 48 c && N.leb c 57 then Some (c - 48)
  else if N.leb 97 c && N.leb c 102 then Some (c - 87)
  else if N.leb 65 c && N.leb c 70 then Some (c - 55)
  else None.

Fixpoint hex_number (s : str) (acc : N) : option N :=
  match s with
  | [] => Some acc
  | c :: s' =>
      match hex_value c with
      | Some v => hex_number s' (16 * acc + v)
      | None => None
      end
  end.

Definition object_id (s : str) : str + oid :=
  match (if Nat.eqb (length s) 24 then hex_number s 0 else None) with
  | Some n => inr n
  | None =>
      inl (lit "'" ++ s
           ++ lit "' is not a valid ObjectId, it must be a 12-byte input or a 24-character hex string")
  end.

Definition hex_digit (v : N) : N := if N.ltb v 10 then 48 + v else 87 + v.

Fixpoint hex_digits (n : nat) (v : N) (acc : str) : str :=
  match n with
  | O => acc
  | Datatypes.S n' => hex_digits n' (v / 16) (hex_digit (v mod 16) :: acc)
  end.

Definition to_str (id : oid) : str := hex_digits 24 id [].

Definition verify (plain hashed : str) : failure + bool :=
  inr (bool_decide (hashed = lit "$mini$" ++ plain)).

Fixpoint until_dot (s : str) (acc : str) : option (str * str) :=
  match s with
  | [] => None
  | c :: s' => if N.eqb c 46 then Some (rev acc, s') else until_dot s' (c :: acc)
  end.

Definition encode (sub : str) (exp : nat) : str :=
  lit "mini." ++ sub ++ lit "." ++ MiniRuntime.decimal (Z.of_nat exp).

Definition decode (now : nat) (token : str) : option (option str) :=
  if startswith token (lit "mini.")
  then match until_dot (drop 5 token) [] with
       | Some (sub, exp) =>
           if N.ltb (N.of_nat now) (MiniRuntime.digits exp 0).1
           then Some (Some sub) else None
       | None => Some None
       end
  else None.

Definition security : Security := {|
  ObjectId := object_id;
  oid_str := to_str;
  pwd_verify := verify;
  thirty_days := 30;
  jwt_encode := encode;
  jwt_decode := decode;
|}.

(** [pwd_context.hash] of the small runtime. *)
Definition hash : list call -> failure + str :=
  fun t =>
    match last t with
    | Some (PasswordHash plain) => inr (lit "$mini$" ++ plain)
    | _ => inl (lit "ValueError", lit "no password")
    end.

(** A site over a world, with a driver that answers every call. *)
Definition site_of (w : world) : site :=
  {| base := w; calls := []; faults := fun _ _ => None; hasher := hash |}.

(** The same, with a driver that loses the server at the calls of the
    kind [lost]. *)
Definition site_losing (lost : call -> bool) (w : world) : site :=
  {| base := w; calls := [];
     faults := fun _ t =>
       match last t with
       | Some c =>
           if lost c
           then Some (lit "ServerSelectionTimeoutError", lit "No servers found yet")
           else None
       | None => None
       end;
     hasher := hash |}.

Definition first_id : str := lit "000000000000000000000000".

Definition second_id : str := lit "000000000000000000000001".

Definition ramaiah_registers : RegisterRequest :=
  {| reg_name := lit "Ramaiah"; reg_email := lit "ramaiah@example.com";
     reg_password := lit "secret" |}.

Definition sita_registers : RegisterRequest :=
  {| reg_name := lit "Sita"; reg_email := lit "sita@example.com";
     reg_password := lit "secret" |}.

Definition sita_logs_in : LoginRequest :=
  {| login_email := lit "sita@example.com"; login_password := lit "secret" |}.

End MiniSecurity.

(** * Properties *)

(** ** The string operations *)

Lemma startswith_app (p s : str) : startswith (p ++ s) p = true.
Proof.
  induction p as [|c p IH]; [done|].
  cbn. by rewrite N.eqb_refl, IH.
Qed.

Lemma startswith_inv (s p : str) :
  startswith s p = true -> exists t, s = p ++ t.
Proof.
  revert s. induction p as [|c p IH]; intros s Hs.
  - by exists s.
  - destruct s as [|d s]; [done|]. cbn in Hs.
    apply andb_true_iff in Hs as [Hc Hs].
    apply N.eqb_eq in Hc as ->.
    destruct (IH _ Hs) as [t ->]. by exists t.
Qed.

(** A string that starts with [p ++ q] starts with [p]. *)
Lemma startswith_shorter (s p q : str) :
  startswith s (p ++ q) = true -> startswith s p = true.
Proof.
  intros Hs. destruct (startswith_inv _ _ Hs) as [t ->].
  rewrite <- app_assoc. apply startswith_app.
Qed.

Lemma endswith_app (s p : str) : endswith (s ++ p) p = true.
Proof.
  unfold endswith. rewrite rev_app_distr. apply startswith_app.
Qed.

Lemma drop_last_app (s p : str) : drop_last (length p) (s ++ p) = s.
Proof.
  unfold drop_last. rewrite length_app.
  replace (length s + length p - length p)%nat with (length s) by lia.
  by rewrite take_app_length.
Qed.

Lemma lstrip_idemp (s : str) : lstrip (lstrip s) = lstrip s.
Proof.
  induction s as [|c s IH]; [done|].
  cbn. destruct (isspace c) eqn:E; [done|]. cbn. by rewrite E.
Qed.

(** What [lstrip] leaves is empty or starts with a character that is not
    white space. *)
Lemma lstrip_head (s : str) :
  lstrip s = [] \/ exists c t, lstrip s = c :: t /\ isspace c = false.
Proof.
  induction s as [|c s IH]; [by left|].
  cbn. destruct (isspace c) eqn:E; [done|]. right. by exists c, s.
Qed.

Lemma lstrip_snoc (s : str) (c : N) :
  isspace c = false -> lstrip (s ++ [c]) = lstrip s ++ [c].
Proof.
  intros Hc. induction s as [|d s IH]; cbn.
  - by rewrite Hc.
  - by destruct (isspace d).
Qed.

(** [rstrip] looks at the end only. *)
Lemma rstrip_cons (c : N) (s : str) :
  isspace c = false -> rstrip (c :: s) = c :: rstrip s.
Proof.
  intros Hc. unfold rstrip. cbn [rev].
  rewrite lstrip_snoc by done. rewrite rev_app_distr. done.
Qed.

Lemma rstrip_snoc (s : str) (c : N) :
  isspace c = false -> rstrip (s ++ [c]) = s ++ [c].
Proof.
  intros Hc. unfold rstrip. rewrite rev_app_distr. cbn.
  rewrite Hc. cbn. by rewrite rev_involutive.
Qed.

Lemma rstrip_idemp (s : str) : rstrip (rstrip s) = rstrip s.
Proof.
  unfold rstrip. by rewrite rev_involutive, lstrip_idemp.
Qed.

(** A string between two characters that are not white space is left
    alone by [strip]. *)
Lemma strip_enclosed (c : N) (s : str) (d : N) :
  isspace c = false -> isspace d = false ->
  strip (c :: s ++ [d]) = c :: s ++ [d].
Proof.
  intros Hc Hd. unfold strip. cbn [lstrip]. rewrite Hc.
  exact (rstrip_snoc (c :: s) d Hd).
Qed.

Lemma strip_idemp (s : str) : strip (strip s) = strip s.
Proof.
  unfold strip. destruct (lstrip_head s) as [->|(c & t & -> & Hc)]; [done|].
  rewrite rstrip_cons by done. cbn [lstrip]. rewrite Hc.
  rewrite <- rstrip_cons by done. apply rstrip_idemp.
Qed.

(** [strip] keeps a leading fence marker. *)
Lemma strip_keeps_marker (s : str) :
  startswith s (lit "```") = true -> startswith (strip s) (lit "```") = true.
Proof.
  intros Hs. destruct (startswith_inv _ _ Hs) as [t ->].
  unfold strip. change (lit "```" ++ t) with (96 :: 96 :: 96 :: t).
  assert (lstrip (96 :: 96 :: 96 :: t) = 96 :: 96 :: 96 :: t) as -> by done.
  by rewrite !rstrip_cons.
Qed.

(** ** The template *)

Lemma parse_ANALYSIS_PROMPT :
  parse_format InText ANALYSIS_PROMPT
  = Some [Literal prompt_head; Field (lit "text"); Literal prompt_tail].
Proof. vm_compute. reflexivity. Qed.

Lemma str_format_ANALYSIS_PROMPT (x : str) :
  str_format ANALYSIS_PROMPT x = inr (prompt_head ++ x ++ prompt_tail).
Proof.
  unfold str_format. rewrite parse_ANALYSIS_PROMPT.
  cbn [render]. rewrite decide_True by done.
  cbn [fmap option_fmap option_map].
  by rewrite app_nil_r.
Qed.

Lemma build_prompt_eq (text : str) : build_prompt text = inr (prompt_of text).
Proof. apply str_format_ANALYSIS_PROMPT. Qed.

(** ** The analysis, attempt by attempt *)

Lemma trace_log (ev : event) (w : world) : trace (log ev w) = trace w ++ [ev].
Proof. reflexivity. Qed.

Lemma users_log (ev : event) (w : world) : users (log ev w) = users w.
Proof. reflexivity. Qed.

Lemma documents_log (ev : event) (w : world) : documents (log ev w) = documents w.
Proof. reflexivity. Qed.

Lemma groq_log (ev : event) (w : world) : groq (log ev w) = groq w.
Proof. reflexivity. Qed.

Lemma mongo_fault_log (ev : event) (w : world) :
  mongo_fault (log ev w) = mongo_fault w.
Proof. reflexivity. Qed.

Section Analysis.
Context `{Runtime}.

(** One run of [analyze_document_with_ai] makes one call when the first
    attempt answers and two otherwise, and touches nothing else. *)
Lemma analyze_run (text : str) (w : world) :
  analyze_document_with_ai text w =
    let w1 := log (GroqCreate (first_request text)) w in
    match first_attempt w text with
    | inr c => (read_reply c, w1)
    | inl _ =>
        let w2 := log (GroqCreate (second_request text)) w1 in
        match second_attempt w text with
        | inr c => (read_reply c, w2)
        | inl e2 => (inl (ai_failure e2), w2)
        end
    end.
Proof.
  unfold analyze_document_with_ai, try_except, bind, lift, raise.
  rewrite build_prompt_eq. unfold groq_create, first_attempt, second_attempt.
  fold (first_request text). fold (second_request text).
  rewrite trace_log.
  destruct (groq w (trace w ++ [GroqCreate (first_request text)]))
    as [e1|c] eqn:E1.
  - rewrite groq_log, !trace_log.
    destruct (groq w ((trace w ++ [GroqCreate (first_request text)])
                      ++ [GroqCreate (second_request text)]))
      as [e2|c] eqn:E2.
    + reflexivity.
    + unfold read_reply.
      destruct (first_choice_content c) as [e|content]; [reflexivity|].
      by destruct (loads_response content).
  - unfold read_reply.
    destruct (first_choice_content c) as [e|content]; [reflexivity|].
    by destruct (loads_response content).
Qed.

(** The analysis leaves the collections, the clock and the oracles as
    they are, and adds calls to the generation service only. *)
Lemma analyze_frame (text : str) (w : world) :
  let w' := (analyze_document_with_ai text w).2 in
  users w' = users w /\ documents w' = documents w /\ clock w' = clock w
  /\ groq w' = groq w /\ mongo_fault w' = mongo_fault w
  /\ exists calls, trace w' = trace w ++ calls
       /\ forallb is_groq calls = true
       /\ (1 <= length calls <= 2)%nat.
Proof.
  rewrite analyze_run. cbn zeta.
  destruct (first_attempt w text) as [f1|c1].
  - destruct (second_attempt w text) as [e2|c2]; cbn;
      repeat split; try done;
      exists [GroqCreate (first_request text); GroqCreate (second_request text)];
      rewrite <- app_assoc; repeat split; cbn; done || lia.
  - cbn. repeat split; try done.
    exists [GroqCreate (first_request text)]. repeat split; cbn; done || lia.
Qed.

End Analysis.

(** ** Fences *)

Lemma strip_fenced (s : str) : strip (96 :: s ++ [96]) = 96 :: s ++ [96].
Proof. by apply strip_enclosed. Qed.

Lemma fence_json_shape (payload : str) :
  fence_json payload = 96 :: ([96; 96; 106; 115; 111; 110] ++ payload ++ [96; 96]) ++ [96].
Proof.
  unfold fence_json. change (lit "```") with ([96; 96] ++ [96]).
  change (lit "```json") with (96 :: [96; 96; 106; 115; 111; 110]).
  cbn [app]. by rewrite <- !app_assoc.
Qed.

Lemma fence_bare_shape (payload : str) :
  fence_bare payload = 96 :: ([96; 96] ++ payload ++ [96; 96]) ++ [96].
Proof.
  unfold fence_bare. change (lit "```") with ([96; 96] ++ [96]) at 2.
  change (lit "```") with (96 :: [96; 96]).
  cbn [app]. by rewrite <- !app_assoc.
Qed.

(** A payload that does not start with the marker, followed by the
    marker, starts with the marker only if it is made of at most two
    backquotes. *)
Lemma marker_after_short_payload (payload : str) :
  startswith payload (lit "```") = false ->
  startswith (payload ++ lit "```") (lit "```") = true ->
  payload = [] \/ payload = [96] \/ payload = [96; 96].
Proof.
  change (lit "```") with [96; 96; 96]. intros Hno Hyes.
  destruct payload as [|a [|b [|c rest]]]; cbn -[N.eqb] in Hno, Hyes.
  - by left.
  - right; left. destruct (N.eqb_spec 96 a) as [Ha|Ha]; [by subst a|done].
  - right; right.
    destruct (N.eqb_spec 96 a) as [Ha|Ha]; [subst a|done].
    destruct (N.eqb_spec 96 b) as [Hb|Hb]; [by subst b|done].
  - congruence.
Qed.

(** The letters [json] start a payload followed by the marker only if
    they start the payload. *)
Lemma json_before_marker (payload : str) :
  startswith payload (lit "json") = false ->
  startswith (payload ++ lit "```") (lit "json") = false.
Proof.
  change (lit "```") with [96; 96; 96].
  change (lit "json") with [106; 115; 111; 110]. intros Hno.
  destruct payload as [|a [|b [|c [|d rest]]]]; cbn -[N.eqb] in Hno |- *;
    try done; rewrite ?andb_false_r; done.
Qed.

(** A reply without a fence is trimmed, and nothing else. *)
Lemma clean_unfenced (content : str) :
  startswith (strip content) (lit "```") = false ->
  endswith (strip content) (lit "```") = false ->
  clean_response_text content = strip content.
Proof.
  intros Hstart Hend. unfold clean_response_text.
  assert (startswith (strip content) (lit "```json") = false) as ->.
  { destruct (startswith (strip content) (lit "```json")) eqn:E; [|done].
    apply (startswith_shorter _ (lit "```") (lit "json")) in E. congruence. }
  rewrite Hstart, Hend. apply strip_idemp.
Qed.

(** The payload of a [```json] fence is what is left, trimmed, unless the
    payload starts with another marker. *)
Lemma clean_fence_json (payload : str) :
  startswith payload (lit "```") = false ->
  clean_response_text (fence_json payload) = strip payload.
Proof.
  intros Hno. unfold clean_response_text. cbv zeta.
  rewrite fence_json_shape, strip_fenced, <- fence_json_shape.
  assert (startswith (fence_json payload) (lit "```json") = true) as ->
    by apply startswith_app.
  assert (drop 7 (fence_json payload) = payload ++ lit "```") as ->
    by reflexivity.
  destruct (startswith (payload ++ lit "```") (lit "```")) eqn:E.
  - destruct (marker_after_short_payload payload Hno E) as [->|[->| ->]];
      vm_compute; reflexivity.
  - rewrite endswith_app.
    change 3%nat with (length (lit "```")). by rewrite drop_last_app.
Qed.

(** The payload of a bare fence is what is left, trimmed, unless the
    payload starts with the letters [json]. *)
Lemma clean_fence_bare (payload : str) :
  startswith payload (lit "json") = false ->
  clean_response_text (fence_bare payload) = strip payload.
Proof.
  intros Hno. unfold clean_response_text. cbv zeta.
  rewrite fence_bare_shape, strip_fenced, <- fence_bare_shape.
  assert (startswith (fence_bare payload) (lit "```json") = false) as ->
    by exact (json_before_marker payload Hno).
  assert (startswith (fence_bare payload) (lit "```") = true) as ->
    by apply startswith_app.
  assert (drop 3 (fence_bare payload) = payload ++ lit "```") as ->
    by reflexivity.
  rewrite endswith_app.
  change 3%nat with (length (lit "```")). by rewrite drop_last_app.
Qed.

(** ** The two endpoints *)


Section Endpoints.
Context `{Runtime}.


(** [analyze_document] when the analysis fails: the handler of line 284
    raises its own failure around the [str()] of the one it caught. *)
Lemma analyze_document_after_failure (request : DocumentRequest)
    (current_user : oid) (w w1 : world) (e : exn) :
  analyze_document_with_ai (text request) w = (inl e, w1) ->
  analyze_document request current_user w
  = (inl (HTTPException 500 (lit "Document processing failed: " ++ exn_str e)), w1).
Proof.
  intros Hfail. unfold analyze_document, try_except. unfold bind at 1.
  by rewrite Hfail.
Qed.

(** [analyze_document] when the analysis returns a [dict], the update
    succeeds and the insert fails. *)
Lemma analyze_document_insert_failure (request : DocumentRequest)
    (current_user : oid) (w w1 : world) (d : pydict) (cls msg : str) :
  let rec := record_of request current_user d (clock w1) in
  analyze_document_with_ai (text request) w = (inr (PDict d), w1) ->
  mongo_fault w1 (trace w1 ++ [UsersUpdateOne current_user 1]) = None ->
  mongo_fault w1 ((trace w1 ++ [UsersUpdateOne current_user 1])
                  ++ [DocumentsInsertOne rec]) = Some (cls, msg) ->
  exists w',
    analyze_document request current_user w
    = (inl (HTTPException 500 (lit "Document processing failed: " ++ msg)), w')
    /\ trace w' = (trace w1 ++ [UsersUpdateOne current_user 1])
                  ++ [DocumentsInsertOne rec]
    /\ users w' = alter (inc_document_count 1) current_user (users w1)
    /\ documents w' = documents w1.
Proof.
  intros rec Hok Hupdate Hinsert.
  unfold analyze_document, try_except. unfold bind at 1. rewrite Hok.
  unfold bind, lift, utcnow, users_update_one, documents_insert_one, raise.
  cbn [py_get]. fold (record_of request current_user d (clock w1)). fold rec.
  change (mongo_fault (tick w1) (trace (log (UsersUpdateOne current_user 1) (tick w1))))
    with (mongo_fault w1 (trace w1 ++ [UsersUpdateOne current_user 1])).
  rewrite Hupdate.
  change (mongo_fault
            (set_users (alter (inc_document_count 1) current_user (users (tick w1)))
               (log (UsersUpdateOne current_user 1) (tick w1)))
            (trace
               (log (DocumentsInsertOne rec)
                  (set_users
                     (alter (inc_document_count 1) current_user (users (tick w1)))
                     (log (UsersUpdateOne current_user 1) (tick w1))))))
    with (mongo_fault w1 ((trace w1 ++ [UsersUpdateOne current_user 1])
                          ++ [DocumentsInsertOne rec])).
  rewrite Hinsert.
  eexists. split; [reflexivity|]. done.
Qed.

(** The seven progress steps, run. *)
Lemma simulate_progress_run (w : world) :
  (simulate_progress w).1 = inr tt
  /\ trace (simulate_progress w).2 = trace w ++ progress_events
  /\ users (simulate_progress w).2 = users w
  /\ documents (simulate_progress w).2 = documents w.
Proof.
  repeat split; cbn; by rewrite <- ?app_assoc.
Qed.

(** The stream: the progress steps, the analysis, one last frame. *)
Lemma generate_run (text : str) (w : world) :
  let outcome := analyze_document_with_ai text (simulate_progress w).2 in
  generate text w = (inr tt, log (Yield (terminal_frame outcome.1)) outcome.2).
Proof.
  cbn zeta. unfold generate. unfold bind at 1.
  destruct (simulate_progress w) as [r w1] eqn:Ew.
  pose proof (simulate_progress_run w) as [Hr _]. rewrite Ew in Hr.
  cbn [fst snd] in *. subst r.
  unfold try_except. unfold bind at 1.
  destruct (analyze_document_with_ai text w1) as [[e|v] w2]; reflexivity.
Qed.

(** The detail of the failure that the two handlers of lines 216 to 219
    raise for an exception, written out. *)
Lemma ai_failure_detail (e : exn) :
  ai_failure e
  = HTTPException 500
      match e with
      | JSONDecodeError msg => lit "Failed to parse AI response as JSON: " ++ msg
      | _ => lit "AI analysis failed: " ++ exn_str e
      end.
Proof. by destruct e. Qed.

(** [analyze_document_with_ai] when both attempts fail. *)
Lemma analysis_after_two_failures (text : str) (w : world) (e1 e2 : exn) :
  first_attempt w text = inl e1 ->
  second_attempt w text = inl e2 ->
  analyze_document_with_ai text w
  = (inl (ai_failure e2),
     log (GroqCreate (second_request text)) (log (GroqCreate (first_request text)) w)).
Proof.
  intros H1 H2. rewrite analyze_run, H1. cbn zeta. by rewrite H2.
Qed.

End Endpoints.

Lemma frames_app (t1 t2 : list event) : frames (t1 ++ t2) = frames t1 ++ frames t2.
Proof. unfold frames. apply omap_app. Qed.

Lemma frames_of_calls (calls : list event) :
  forallb is_groq calls = true -> frames calls = [].
Proof.
  induction calls as [|ev calls IH]; [done|].
  cbn. destruct ev; done.
Qed.

Lemma frames_snoc (t : list event) (frame : str) :
  frames (t ++ [Yield frame]) = frames t ++ [frame].
Proof. by rewrite frames_app. Qed.

Lemma persistence_of_calls (calls : list event) :
  forallb is_groq calls = true -> List.filter is_persistence calls = [].
Proof.
  induction calls as [|ev calls IH]; [done|].
  cbn. destruct ev; done.
Qed.

(** What a stream adds to the trace: the progress events, the calls of
    the analysis, the last frame; and what it leaves alone. *)
Lemma generate_trace `{Runtime} (text : str) (w : world) :
  (generate text w).1 = inr tt
  /\ users (generate text w).2 = users w
  /\ documents (generate text w).2 = documents w
  /\ exists calls,
       forallb is_groq calls = true
       /\ trace (generate text w).2
          = ((trace w ++ progress_events) ++ calls)
            ++ [Yield (terminal_frame
                         (analyze_document_with_ai text (simulate_progress w).2).1)].
Proof.
  pose proof (generate_run text w) as Hrun. cbv zeta in Hrun. rewrite Hrun.
  pose proof (analyze_frame text (simulate_progress w).2)
    as (Hu & Hd & _ & _ & _ & calls & Htrace & Hcalls & _).
  cbv zeta in Hu, Hd, Htrace.
  pose proof (simulate_progress_run w) as (_ & Hprogress & Hu0 & Hd0).
  cbn [fst snd]. rewrite users_log, documents_log, trace_log.
  split; [reflexivity|]. split; [by rewrite Hu|]. split; [by rewrite Hd|].
  exists calls. split; [exact Hcalls|].
  rewrite Htrace, Hprogress. reflexivity.
Qed.

Lemma frames_progress_events `{Runtime} :
  frames progress_events = List.map sse_frame progress_steps.
Proof. reflexivity. Qed.

Lemma persistence_progress_events `{Runtime} :
  List.filter is_persistence progress_events = [].
Proof. reflexivity. Qed.

Section Backfill.
Context `{Runtime}.

(** [analyze_document] when the analysis returns a [dict] whose
    [legal_entities], if any, is a [dict], and the driver works: the
    seven fields of the response are read from [legal_entities] with
    their empty defaults. *)
Lemma analyze_document_success (request : DocumentRequest)
    (current_user : oid) (w w1 : world) (d l : pydict)
    (entity : LegalEntity) (summary : list str) :
  let update := UsersUpdateOne current_user 1 in
  let insert := DocumentsInsertOne (record_of request current_user d (clock w1)) in
  analyze_document_with_ai (text request) w = (inr (PDict d), w1) ->
  default (PDict []) (dict_get d (lit "legal_entities")) = PDict l ->
  mongo_fault w1 (trace w1 ++ [update]) = None ->
  mongo_fault w1 ((trace w1 ++ [update]) ++ [insert]) = None ->
  make_LegalEntity
    (entity_field l "survey_numbers" (PList [])) (entity_field l "ownership_details" (PDict []))
    (entity_field l "land_extents" (PDict [])) (entity_field l "encumbrances" (PList []))
    (entity_field l "risks" (PList [])) (entity_field l "missing_data" (PList []))
    (entity_field l "notable_clauses" (PList [])) = inr entity ->
  validate_List_str (default (PList []) (dict_get d (lit "simplified_summary")))
  = Some summary ->
  (analyze_document request current_user w).1
  = inr {| document_id := fresh (dom (documents w1));
           simplified_summary := summary;
           legal_entities := entity;
           processed_at := S (clock w1) |}.
Proof.
  intros update insert Hok Hl Hupdate Hinsert Hentity Hsummary.
  unfold analyze_document, try_except. unfold bind at 1. rewrite Hok.
  unfold bind, lift, utcnow, users_update_one, documents_insert_one, raise.
  cbn [py_get]. fold (record_of request current_user d (clock w1)).
  change (mongo_fault (tick w1) (trace (log (UsersUpdateOne current_user 1) (tick w1))))
    with (mongo_fault w1 (trace w1 ++ [update])).
  rewrite Hupdate.
  change (mongo_fault
            (set_users (alter (inc_document_count 1) current_user (users (tick w1)))
               (log (UsersUpdateOne current_user 1) (tick w1)))
            (trace
               (log (DocumentsInsertOne (record_of request current_user d (clock w1)))
                  (set_users
                     (alter (inc_document_count 1) current_user (users (tick w1)))
                     (log (UsersUpdateOne current_user 1) (tick w1))))))
    with (mongo_fault w1 ((trace w1 ++ [update]) ++ [insert])).
  rewrite Hinsert, Hl. cbn [py_get].
  fold (entity_field l "survey_numbers" (PList [])). fold (entity_field l "ownership_details" (PDict [])).
  fold (entity_field l "land_extents" (PDict [])). fold (entity_field l "encumbrances" (PList [])).
  fold (entity_field l "risks" (PList [])). fold (entity_field l "missing_data" (PList [])).
  fold (entity_field l "notable_clauses" (PList [])).
  rewrite Hentity. unfold make_DocumentResponse. rewrite Hsummary.
  reflexivity.
Qed.

(** With no field at all, the entity is the empty one. *)
Lemma make_LegalEntity_defaults :
  validate_List_str (PList []) = Some [] ->
  validate_Dict (PDict []) = Some [] ->
  make_LegalEntity (PList []) (PDict []) (PDict []) (PList []) (PList [])
    (PList []) (PList [])
  = inr {| survey_numbers := []; ownership_details := []; land_extents := [];
           encumbrances := []; risks := []; missing_data := [];
           notable_clauses := [] |}.
Proof. intros Hl Hd. unfold make_LegalEntity. by rewrite Hl, Hd. Qed.

End Backfill.

(** * The claims *)

(** ** The prompt *)

(** C6. A text of at most 8000 characters is in the rendered prompt as
    it is, between the two parts of the template; of a longer text the
    prompt has the first 8000 characters there, and nothing of the rest;
    rendering returns a prompt for every text, it raises nothing. *)
Theorem prompt_embeds_bounded_text (text : str) :
  build_prompt text = inr (prompt_head ++ take 8000 text ++ prompt_tail)
  /\ ((length text <= 8000)%nat ->
      build_prompt text = inr (prompt_head ++ text ++ prompt_tail))
  /\ ((8000 < length text)%nat ->
      length (take 8000 text) = 8000%nat
      /\ text = take 8000 text ++ drop 8000 text
      /\ drop 8000 text <> []).
Proof.
  split; [apply build_prompt_eq|]. split.
  - intros Hlen. rewrite build_prompt_eq. unfold prompt_of.
    by rewrite take_ge.
  - intros Hlen. split; [|split].
    + rewrite length_take. lia.
    + by rewrite take_drop.
    + intros Hnil.
      assert (length (drop 8000 text) = 0%nat) as Hl by (by rewrite Hnil).
      rewrite length_drop in Hl. lia.
Qed.

Lemma prompt_embeds_bounded_text_witness :
  build_prompt Examples.survey_text
  = inr (prompt_head ++ Examples.survey_text ++ prompt_tail)
  /\ length (take 8000 Examples.long_text) = 8000%nat.
Proof.
  split.
  - refine (proj1 (proj2 (prompt_embeds_bounded_text Examples.survey_text)) _).
    apply Nat.leb_le. vm_compute. reflexivity.
  - refine (proj1 (proj2 (proj2 (prompt_embeds_bounded_text Examples.long_text)) _)).
    apply Nat.ltb_lt. vm_compute. reflexivity.
Defined.

(** ** The two attempts *)




(** ** Replies that are not JSON *)

(** C5, as the code has it.  When [json.loads] fails on what is left of
    a reply after trimming and removing the fence markers, the analysis
    returns no value, empty, partial or null: it fails with a status
    500 failure.  Its detail is [Failed to parse AI response as JSON: ]
    followed by the diagnostic of the parser when the parser raised
    [json.JSONDecodeError], and [AI analysis failed: ] followed by the
    [str()] of what the parser raised otherwise. *)
Theorem unparsable_reply_is_reported `{Runtime} (text : str) (w : world)
    (content : str) (rest : chat_completion) (e : exn) :
  service_reply w text = inr (Some content :: rest) ->
  json_loads (clean_response_text content) = inl e ->
  (analyze_document_with_ai text w).1
  = inl (HTTPException 500
           match e with
           | JSONDecodeError diagnostic =>
               lit "Failed to parse AI response as JSON: " ++ diagnostic
           | _ => lit "AI analysis failed: " ++ exn_str e
           end).
Proof.
  intros Hreply Hloads.
  assert (read_reply (Some content :: rest) = inl (ai_failure e)) as Hread.
  { unfold read_reply, loads_response. cbn [first_choice_content].
    by rewrite Hloads. }
  rewrite <- ai_failure_detail.
  rewrite analyze_run. cbn zeta. unfold service_reply in Hreply.
  destruct (first_attempt w text) as [e1|c1].
  - rewrite Hreply. exact Hread.
  - injection Hreply as ->. exact Hread.
Qed.

Lemma unparsable_reply_is_reported_witness :
  (analyze_document_with_ai (H := MiniRuntime.runtime) Examples.survey_text
     (Examples.start (Examples.answers Examples.garbage) Examples.driver_ok)).1
  = inl (HTTPException 500
           (lit "Failed to parse AI response as JSON: Expecting value")).
Proof.
  exact (unparsable_reply_is_reported (H := MiniRuntime.runtime)
    Examples.survey_text
    (Examples.start (Examples.answers Examples.garbage) Examples.driver_ok)
    Examples.garbage [] (JSONDecodeError (lit "Expecting value")) eq_refl eq_refl).
Defined.

(** C5, as it is stated, fails on a reply that is nested too deep:
    1000 opening brackets are not JSON, [json.loads] gives up on them
    with a [RecursionError], which is not a [json.JSONDecodeError], and
    the handler of line 218 reports [AI analysis failed: ...], not a
    reply that could not be parsed. *)
Lemma deep_reply_is_not_reported_as_unparsable :
  let w := Examples.start (Examples.answers Scenarios.deep_reply)
             Examples.driver_ok in
  json_loads (Runtime := MiniRuntime.runtime)
    (clean_response_text Scenarios.deep_reply)
  = inl (Error (lit "RecursionError")
           (lit "maximum recursion depth exceeded while decoding a JSON array from a unicode string"))
  /\ (analyze_document_with_ai (H := MiniRuntime.runtime) Examples.survey_text w).1
     = inl (HTTPException 500
              (lit "AI analysis failed: maximum recursion depth exceeded while decoding a JSON array from a unicode string"))
  /\ ~ (exists diagnostic,
          (analyze_document_with_ai (H := MiniRuntime.runtime)
             Examples.survey_text w).1
          = inl (HTTPException 500
                   (lit "Failed to parse AI response as JSON: " ++ diagnostic))).
Proof.
  cbv zeta.
  assert ((analyze_document_with_ai (H := MiniRuntime.runtime) Examples.survey_text
             (Examples.start (Examples.answers Scenarios.deep_reply)
                Examples.driver_ok)).1
          = inl (HTTPException 500
                   (lit "AI analysis failed: maximum recursion depth exceeded while decoding a JSON array from a unicode string")))
    as Hrun by (vm_compute; reflexivity).
  split; [vm_compute; reflexivity|]. split; [exact Hrun|].
  intros (diagnostic & Hd). rewrite Hrun in Hd. discriminate Hd.
Qed.

(** ** Fenced replies *)

(** C8, as the code has it. For a payload that, once trimmed, neither
    starts nor ends with the marker [```], the payload between [```json]
    and [```] is read as the payload alone is: the same value, or the
    same failure.  So is the payload between [```] and [```], when it
    does not start with the letters [json]. *)
Theorem fence_is_transparent `{Runtime} (payload : str) :
  startswith (strip payload) (lit "```") = false ->
  endswith (strip payload) (lit "```") = false ->
  loads_response (fence_json payload) = loads_response payload
  /\ (startswith payload (lit "json") = false ->
      loads_response (fence_bare payload) = loads_response payload).
Proof.
  intros Hstart Hend.
  assert (startswith payload (lit "```") = false) as Hno.
  { destruct (startswith payload (lit "```")) eqn:E; [|done].
    apply strip_keeps_marker in E. congruence. }
  unfold loads_response. rewrite (clean_unfenced payload Hstart Hend).
  split.
  - by rewrite clean_fence_json.
  - intros Hjson. by rewrite clean_fence_bare.
Qed.

Lemma fence_is_transparent_witness :
  loads_response (H := MiniRuntime.runtime) (fence_json Examples.summary_only)
  = loads_response (H := MiniRuntime.runtime) Examples.summary_only
  /\ loads_response (H := MiniRuntime.runtime) (fence_bare Examples.summary_only)
     = loads_response (H := MiniRuntime.runtime) Examples.summary_only.
Proof.
  pose proof (fence_is_transparent (H := MiniRuntime.runtime)
                Examples.summary_only eq_refl eq_refl) as [Hjson Hbare].
  split; [exact Hjson | exact (Hbare eq_refl)].
Defined.

(** C8, as it is stated, fails for a payload that is itself fenced, and
    for a payload that starts with the letters [json] in a bare fence:
    the first is read as a list when alone and is not JSON when fenced,
    the second the other way round. *)
Lemma fence_is_not_transparent :
  loads_response (H := MiniRuntime.runtime) (fence_json (lit "```json[]```"))
  <> loads_response (H := MiniRuntime.runtime) (lit "```json[]```")
  /\ loads_response (H := MiniRuntime.runtime) (fence_bare (lit "json[]"))
     <> loads_response (H := MiniRuntime.runtime) (lit "json[]").
Proof. vm_compute. split; discriminate. Qed.

(** ** Failures at the boundary of [POST /api/analyze] *)




(** C7, as the code has it.  When both attempts fail, [analyze_document]
    fails with the status 500 failure raised around the failure of the
    analysis, whose detail carries the message of the second failure
    after [AI analysis failed: ], or after
    [Failed to parse AI response as JSON: ] when the second failure is a
    [json.JSONDecodeError]; the only calls of the run are the two to the
    generation service, so no call is made to the persistence
    collaborator, and the two collections are as they were. *)
Theorem no_persistence_when_service_fails `{Runtime} (request : DocumentRequest)
    (current_user : oid) (w : world) (e1 e2 : exn) :
  first_attempt w (text request) = inl e1 ->
  second_attempt w (text request) = inl e2 ->
  exists w',
    analyze_document request current_user w
    = (inl (HTTPException 500
              (lit "Document processing failed: "
               ++ http_str 500
                    match e2 with
                    | JSONDecodeError msg =>
                        lit "Failed to parse AI response as JSON: " ++ msg
                    | _ => lit "AI analysis failed: " ++ exn_str e2
                    end)), w')
    /\ trace w' = trace w ++ [GroqCreate (first_request (text request));
                              GroqCreate (second_request (text request))]
    /\ List.filter is_persistence (trace w') = List.filter is_persistence (trace w)
    /\ users w' = users w /\ documents w' = documents w.
Proof.
  intros H1 H2.
  pose proof (analysis_after_two_failures (text request) w e1 e2 H1 H2)
    as Hfail.
  rewrite ai_failure_detail in Hfail.
  eexists. split; [exact (analyze_document_after_failure _ _ _ _ _ Hfail)|].
  cbn [trace log users documents].
  split; [by rewrite <- app_assoc|]. split; [|done].
  rewrite <- app_assoc, List.filter_app. cbn. by rewrite app_nil_r.
Qed.

Lemma no_persistence_when_service_fails_witness :
  exists w',
    analyze_document (H := MiniRuntime.runtime) Examples.survey_request 1
      (Examples.start Examples.service_down Examples.driver_ok)
    = (inl (HTTPException 500
              (lit "Document processing failed: 500: AI analysis failed: Connection error.")),
       w')
    /\ List.filter is_persistence (trace w') = []
    /\ users w' = {[ 1 := Examples.ramaiah ]} /\ documents w' = ∅.
Proof.
  destruct (no_persistence_when_service_fails (H := MiniRuntime.runtime)
    Examples.survey_request 1
    (Examples.start Examples.service_down Examples.driver_ok)
    (Error (lit "APIConnectionError") (lit "Connection error."))
    (Error (lit "APIConnectionError") (lit "Connection error."))
    eq_refl eq_refl)
    as (w' & Hrun & _ & Hp & Hu & Hd).
  exists w'. split; [exact Hrun|]. split; [exact Hp|]. split; [exact Hu|exact Hd].
Defined.

(** C7, as it is stated, fails in its first part: when the client
    raises [json.JSONDecodeError] at both attempts, the failure that
    [analyze_document] raises is not around [AI analysis failed: ...]
    but around [Failed to parse AI response as JSON: ...].  Nothing is
    stored in that run either. *)
Lemma upstream_failure_is_not_always_named :
  let run :=
    analyze_document (H := MiniRuntime.runtime) Examples.survey_request 1
      (Examples.start Scenarios.undecodable_body Examples.driver_ok) in
  run.1
  = inl (HTTPException 500
           (lit "Document processing failed: 500: Failed to parse AI response as JSON: Expecting value: line 1 column 1 (char 0)"))
  /\ ~ (exists msg,
          run.1
          = inl (HTTPException 500
                   (lit "Document processing failed: "
                    ++ http_str (Runtime := MiniRuntime.runtime) 500
                         (lit "AI analysis failed: " ++ msg))))
  /\ List.filter is_persistence (trace run.2) = []
  /\ users run.2 = {[ 1 := Examples.ramaiah ]} /\ documents run.2 = ∅.
Proof.
  cbv zeta.
  assert ((analyze_document (H := MiniRuntime.runtime) Examples.survey_request 1
             (Examples.start Scenarios.undecodable_body Examples.driver_ok)).1
          = inl (HTTPException 500
                   (lit "Document processing failed: 500: Failed to parse AI response as JSON: Expecting value: line 1 column 1 (char 0)")))
    as Hrun by (vm_compute; reflexivity).
  split; [exact Hrun|]. split.
  - intros (msg & Hmsg). rewrite Hrun in Hmsg. discriminate Hmsg.
  - repeat split; vm_compute; reflexivity.
Qed.

(** C10. [analyze_document] increments the [document_count] of the user
    before it inserts the record.  When the analysis has returned an
    object, the update succeeds and the insert fails, the endpoint raises
    its status 500 failure, the update and the insert were called in
    that order, the counter stays incremented and no record is stored:
    a counter that was not below the number of the user's records is
    now above it. *)
Theorem count_incremented_before_failed_insert `{Runtime}
    (request : DocumentRequest) (current_user : oid) (w w1 : world)
    (d : pydict) (u : user) (cls msg : str) :
  let update := UsersUpdateOne current_user 1 in
  let insert := DocumentsInsertOne (record_of request current_user d (clock w)) in
  analyze_document_with_ai (text request) w = (inr (PDict d), w1) ->
  users w !! current_user = Some u ->
  mongo_fault w (trace w1 ++ [update]) = None ->
  mongo_fault w ((trace w1 ++ [update]) ++ [insert]) = Some (cls, msg) ->
  exists w',
    analyze_document request current_user w
    = (inl (HTTPException 500 (lit "Document processing failed: " ++ msg)), w')
    /\ trace w' = (trace w1 ++ [update]) ++ [insert]
    /\ users w' !! current_user = Some (inc_document_count 1 u)
    /\ document_count (inc_document_count 1 u) = (document_count u + 1)%Z
    /\ documents w' = documents w
    /\ ((Z.of_nat (stored_documents current_user (documents w)) <= document_count u)%Z ->
        (Z.of_nat (stored_documents current_user (documents w'))
         < document_count (inc_document_count 1 u))%Z).
Proof.
  intros update insert Hok Hu Hupdate Hinsert.
  pose proof (analyze_frame (text request) w) as (Hu1 & Hd1 & Hc1 & _ & Hm1 & _).
  rewrite Hok in Hu1, Hd1, Hc1, Hm1. cbn [snd] in Hu1, Hd1, Hc1, Hm1.
  destruct (analyze_document_insert_failure request current_user w w1 d cls msg Hok)
    as (w' & Hrun & Htrace & Husers & Hdocs).
  { by rewrite Hm1. }
  { by rewrite Hm1, Hc1. }
  rewrite Hc1 in Htrace.
  exists w'. split; [exact Hrun|]. split; [exact Htrace|].
  split; [|split; [reflexivity|split]].
  - rewrite Husers, Hu1, lookup_alter_eq, Hu. reflexivity.
  - by rewrite Hdocs, Hd1.
  - rewrite Hdocs, Hd1. cbn [document_count inc_document_count]. lia.
Qed.

Lemma count_incremented_before_failed_insert_witness :
  exists rec w',
    analyze_document (H := MiniRuntime.runtime) Examples.survey_request 1
      (Examples.start (Examples.answers Examples.summary_and_survey)
         Examples.insert_fails)
    = (inl (HTTPException 500
              (lit "Document processing failed: No servers found yet")), w')
    /\ List.filter is_persistence (trace w')
       = [UsersUpdateOne 1 1; DocumentsInsertOne rec]
    /\ document_count <$> users w' !! 1 = Some 1%Z
    /\ stored_documents 1 (documents w') = 0%nat.
Proof.
  destruct (count_incremented_before_failed_insert (H := MiniRuntime.runtime)
    Examples.survey_request 1
    (Examples.start (Examples.answers Examples.summary_and_survey)
       Examples.insert_fails)
    _ _ Examples.ramaiah
    (lit "ServerSelectionTimeoutError") (lit "No servers found yet")
    eq_refl eq_refl eq_refl eq_refl)
    as (w' & Hrun & Htrace & Hu & _ & Hd & _).
  eexists _, w'. split; [exact Hrun|]. split; [|split].
  - rewrite Htrace. reflexivity.
  - exact (f_equal (fmap document_count) Hu).
  - rewrite Hd. reflexivity.
Defined.

(** ** The stream *)

(** C3. Whatever the analysis does, a stream sends the seven progress
    frames, [reading] 10, [extracting] 25, [analyzing] 40, [identifying]
    55, [checking] 70, [assessing] 85, [generating] 95, in this order,
    each the object with its step, its message and its percentage, and
    then one more frame, which is the last event of the run: the
    [complete] frame with the value of the analysis when it returned
    one, the [error] frame with the [str()] of its failure when it
    failed.  The generator itself raises nothing. *)
Theorem stream_is_progress_then_one_terminal `{Runtime} (text : str) (w : world) :
  let outcome := (analyze_document_with_ai text (simulate_progress w).2).1 in
  let w' := (analyze_document_stream text w).2 in
  let terminal :=
    match outcome with
    | inr analysis_result =>
        sse_frame (PDict [(lit "step", PStr (lit "complete"));
                          (lit "result", analysis_result)])
    | inl e =>
        sse_frame (PDict [(lit "step", PStr (lit "error"));
                          (lit "message", PStr (exn_str e))])
    end in
  (analyze_document_stream text w).1 = inr tt
  /\ frames (trace w')
     = frames (trace w)
       ++ [ sse_frame (PDict [(lit "step", PStr (lit "reading"));
                              (lit "message", PStr (lit "Reading document..."));
                              (lit "progress", PInt 10)]);
            sse_frame (PDict [(lit "step", PStr (lit "extracting"));
                              (lit "message", PStr (lit "Extracting legal entities..."));
                              (lit "progress", PInt 25)]);
            sse_frame (PDict [(lit "step", PStr (lit "analyzing"));
                              (lit "message", PStr (lit "Analyzing ownership details..."));
                              (lit "progress", PInt 40)]);
            sse_frame (PDict [(lit "step", PStr (lit "identifying"));
                              (lit "message", PStr (lit "Identifying survey numbers..."));
                              (lit "progress", PInt 55)]);
            sse_frame (PDict [(lit "step", PStr (lit "checking"));
                              (lit "message", PStr (lit "Checking for encumbrances..."));
                              (lit "progress", PInt 70)]);
            sse_frame (PDict [(lit "step", PStr (lit "assessing"));
                              (lit "message", PStr (lit "Assessing potential risks..."));
                              (lit "progress", PInt 85)]);
            sse_frame (PDict [(lit "step", PStr (lit "generating"));
                              (lit "message", PStr (lit "Generating simplified summary..."));
                              (lit "progress", PInt 95)]) ]
       ++ [ terminal ]
  /\ last (trace w') = Some (Yield terminal).
Proof.
  cbn zeta. unfold analyze_document_stream.
  destruct (generate_trace text w) as (Hres & _ & _ & calls & Hcalls & Htrace).
  split; [exact Hres|]. rewrite Htrace. split; [|apply last_snoc].
  rewrite frames_snoc, !frames_app, (frames_of_calls calls Hcalls), app_nil_r,
    frames_progress_events.
  rewrite <- app_assoc. reflexivity.
Qed.

(** The frames of C3 as they are sent, for a reply that is read and
    with the service down, from a world that has sent none. *)
Lemma stream_is_progress_then_one_terminal_witness :
  let progress :=
    [ litq "data: {~step~: ~reading~, ~message~: ~Reading document...~, ~progress~: 10}" ++ [10; 10];
      litq "data: {~step~: ~extracting~, ~message~: ~Extracting legal entities...~, ~progress~: 25}" ++ [10; 10];
      litq "data: {~step~: ~analyzing~, ~message~: ~Analyzing ownership details...~, ~progress~: 40}" ++ [10; 10];
      litq "data: {~step~: ~identifying~, ~message~: ~Identifying survey numbers...~, ~progress~: 55}" ++ [10; 10];
      litq "data: {~step~: ~checking~, ~message~: ~Checking for encumbrances...~, ~progress~: 70}" ++ [10; 10];
      litq "data: {~step~: ~assessing~, ~message~: ~Assessing potential risks...~, ~progress~: 85}" ++ [10; 10];
      litq "data: {~step~: ~generating~, ~message~: ~Generating simplified summary...~, ~progress~: 95}" ++ [10; 10] ] in
  frames (trace
    (analyze_document_stream (H := MiniRuntime.runtime) Examples.survey_text
       (Examples.start (Examples.answers Examples.summary_only)
          Examples.driver_ok)).2)
  = progress
    ++ [ litq "data: {~step~: ~complete~, ~result~: {~simplified_summary~: [~Owner is Ramaiah~]}}"
         ++ [10; 10] ]
  /\ frames (trace
       (analyze_document_stream (H := MiniRuntime.runtime) Examples.survey_text
          (Examples.start Examples.service_down Examples.driver_ok)).2)
     = progress
       ++ [ litq "data: {~step~: ~error~, ~message~: ~500: AI analysis failed: Connection error.~}"
            ++ [10; 10] ].
Proof.
  cbv zeta. split.
  - rewrite (proj1 (proj2 (stream_is_progress_then_one_terminal
               (H := MiniRuntime.runtime) Examples.survey_text
               (Examples.start (Examples.answers Examples.summary_only)
                  Examples.driver_ok)))).
    vm_compute. reflexivity.
  - rewrite (proj1 (proj2 (stream_is_progress_then_one_terminal
               (H := MiniRuntime.runtime) Examples.survey_text
               (Examples.start Examples.service_down Examples.driver_ok)))).
    vm_compute. reflexivity.
Defined.

(** C9. A stream calls the persistence collaborator not once: the two
    collections are as they were, whether the analysis succeeds or
    fails, and the [complete] frame carries the value of the analysis as
    it is, not a stored document. *)
Theorem stream_writes_nothing `{Runtime} (text : str) (w : world) :
  let outcome := (analyze_document_with_ai text (simulate_progress w).2).1 in
  let w' := (analyze_document_stream text w).2 in
  users w' = users w
  /\ documents w' = documents w
  /\ List.filter is_persistence (trace w') = List.filter is_persistence (trace w)
  /\ match outcome with
     | inr analysis_result =>
         last (frames (trace w'))
         = Some (sse_frame (PDict [(lit "step", PStr (lit "complete"));
                                   (lit "result", analysis_result)]))
     | inl _ => True
     end.
Proof.
  cbn zeta. unfold analyze_document_stream.
  destruct (generate_trace text w) as (_ & Hu & Hd & calls & Hcalls & Htrace).
  split; [exact Hu|]. split; [exact Hd|]. rewrite Htrace. split.
  - rewrite !List.filter_app, (persistence_of_calls calls Hcalls),
      persistence_progress_events.
    cbn [List.filter is_persistence]. by rewrite !app_nil_r.
  - rewrite frames_snoc.
    destruct ((analyze_document_with_ai text (simulate_progress w).2).1)
      as [e|v]; [done|].
    apply last_snoc.
Qed.

(** ** Missing keys *)

(** C1, on a reply that has a summary and no [legal_entities].  The
    response of [POST /api/analyze] has the seven fields, each empty;
    the [complete] frame of the stream for the same reply carries the
    parsed object as it is, in which [legal_entities] is absent. *)
Theorem stream_delivers_result_without_backfill :
  (analyze_document (H := MiniRuntime.runtime) Examples.survey_request 1
     (Examples.start (Examples.answers Examples.summary_only) Examples.driver_ok)).1
  = inr {| document_id := 0;
           simplified_summary := [lit "Owner is Ramaiah"];
           legal_entities :=
             {| survey_numbers := []; ownership_details := [];
                land_extents := []; encumbrances := []; risks := [];
                missing_data := []; notable_clauses := [] |};
           processed_at := 101 |}
  /\ last (frames (trace
       (analyze_document_stream (H := MiniRuntime.runtime) Examples.survey_text
          (Examples.start (Examples.answers Examples.summary_only)
             Examples.driver_ok)).2))
     = Some (sse_frame (H := MiniRuntime.runtime)
               (PDict [(lit "step", PStr (lit "complete"));
                       (lit "result",
                        PDict [(lit "simplified_summary",
                                PList [PStr (lit "Owner is Ramaiah")])])]))
  /\ sse_frame (H := MiniRuntime.runtime)
       (PDict [(lit "step", PStr (lit "complete"));
               (lit "result",
                PDict [(lit "simplified_summary",
                        PList [PStr (lit "Owner is Ramaiah")])])])
     = litq "data: {~step~: ~complete~, ~result~: {~simplified_summary~: [~Owner is Ramaiah~]}}"
       ++ [10; 10]
  /\ dict_get [(lit "simplified_summary", PList [PStr (lit "Owner is Ramaiah")])]
       (lit "legal_entities") = None.
Proof. vm_compute. done. Qed.

(** * Further properties *)

(** ** Size and cleanup of texts *)

Lemma lstrip_all_space (s : str) : forallb isspace s = true -> lstrip s = [].
Proof.
  induction s as [|c s IH]; [done|].
  cbn. destruct (isspace c); [exact IH|done].
Qed.

Lemma lstrip_app_space (pre s : str) :
  forallb isspace pre = true -> lstrip (pre ++ s) = lstrip s.
Proof.
  induction pre as [|c pre IH]; [done|].
  cbn. destruct (isspace c); [exact IH|done].
Qed.

Lemma rstrip_app_space (s post : str) :
  forallb isspace post = true -> rstrip (s ++ post) = rstrip s.
Proof.
  intros Hpost. unfold rstrip. rewrite rev_app_distr, lstrip_app_space; [done|].
  rewrite forallb_forall in Hpost |- *. intros c Hc. apply Hpost.
  by apply in_rev.
Qed.

Lemma strip_app_space (pre s post : str) :
  forallb isspace pre = true -> forallb isspace post = true ->
  strip (pre ++ s ++ post) = strip s.
Proof.
  intros Hpre Hpost. unfold strip. rewrite lstrip_app_space by done.
  clear pre Hpre. induction s as [|c s IH].
  - cbn [app]. by rewrite lstrip_all_space.
  - cbn [app lstrip]. destruct (isspace c) eqn:E; [exact IH|].
    change (c :: s ++ post) with ((c :: s) ++ post).
    by rewrite rstrip_app_space.
Qed.

(** What [lstrip] removes is a prefix, what [rstrip] removes a suffix. *)
Lemma lstrip_prefix (s : str) : exists w, s = w ++ lstrip s.
Proof.
  induction s as [|c s [w Hw]]; [by exists []|].
  cbn. destruct (isspace c).
  - exists (c :: w). cbn. by rewrite <- Hw.
  - by exists [].
Qed.

Lemma rstrip_suffix (s : str) : exists w, s = rstrip s ++ w.
Proof.
  unfold rstrip. destruct (lstrip_prefix (rev s)) as [w Hw].
  exists (rev w). rewrite <- rev_app_distr, <- Hw. by rewrite rev_involutive.
Qed.

Lemma part_of_refl (s : str) : part_of s s.
Proof. exists [], []. by rewrite app_nil_r. Qed.

Lemma part_of_trans (r t s : str) : part_of r t -> part_of t s -> part_of r s.
Proof.
  intros (a & b & ->) (a' & b' & ->). exists (a' ++ a), (b ++ b').
  by rewrite <- !app_assoc.
Qed.

Lemma part_of_strip (s : str) : part_of (strip s) s.
Proof.
  unfold strip. destruct (lstrip_prefix s) as [w Hw].
  destruct (rstrip_suffix (lstrip s)) as [w' Hw'].
  exists w, w'. by rewrite <- Hw', <- Hw.
Qed.

Lemma part_of_drop (n : nat) (s : str) : part_of (drop n s) s.
Proof. exists (take n s), []. by rewrite app_nil_r, take_drop. Qed.

Lemma part_of_drop_last (n : nat) (s : str) : part_of (drop_last n s) s.
Proof.
  unfold drop_last. exists [], (drop (length s - n) s). cbn [app].
  by rewrite take_drop.
Qed.

Lemma part_of_length (t s : str) : part_of t s -> (length t <= length s)%nat.
Proof. intros (a & b & ->). rewrite !length_app. lia. Qed.

(** X1. The rendered prompt is as long as the template outside its field,
    1742 characters, plus the length of the text or 8000, whichever is
    smaller: no prompt is longer than 9742 characters, whatever the
    text. *)
Theorem prompt_length_is_bounded (text : str) :
  exists prompt,
    build_prompt text = inr prompt
    /\ template_length = 1742%nat
    /\ length prompt = (template_length + Nat.min 8000 (length text))%nat
    /\ (length prompt <= 9742)%nat.
Proof.
  exists (prompt_of text). split; [apply build_prompt_eq|].
  split; [reflexivity|].
  assert (length (prompt_of text)
          = (template_length + Nat.min 8000 (length text))%nat) as Hlen.
  { unfold prompt_of. rewrite !length_app, length_take.
    change template_length with (length prompt_head + length prompt_tail)%nat.
    generalize (Nat.min 8000 (length text)). intros m. lia. }
  split; [exact Hlen|]. rewrite Hlen.
  pose proof (Nat.le_min_l 8000 (length text)) as Hmin.
  revert Hmin. generalize (Nat.min 8000 (length text)). intros m Hm.
  change template_length with 1742%nat.
  change 9742%nat with (1742 + 8000)%nat. by apply Nat.add_le_mono_l.
Qed.

(** X2. What is given to [json.loads] is a contiguous part of the reply:
    the cleanup only removes characters at the two ends, it adds none and
    changes none inside, so the cleaned text is never longer than the
    reply; and it is trimmed, a second [strip] would change nothing. *)
Theorem cleanup_keeps_a_part_of_the_reply (content : str) :
  part_of (clean_response_text content) content
  /\ (length (clean_response_text content) <= length content)%nat
  /\ strip (clean_response_text content) = clean_response_text content.
Proof.
  assert (part_of (clean_response_text content) content) as Hpart.
  { unfold clean_response_text. cbv zeta.
    eapply part_of_trans; [apply part_of_strip|].
    eapply part_of_trans; [|apply (part_of_strip content)].
    set (s0 := strip content).
    set (s1 := if startswith s0 (lit "```json") then drop 7 s0 else s0).
    set (s2 := if startswith s1 (lit "```") then drop 3 s1 else s1).
    assert (part_of s1 s0) as H1.
    { unfold s1. destruct (startswith s0 (lit "```json"));
        [apply part_of_drop|apply part_of_refl]. }
    assert (part_of s2 s1) as H2.
    { unfold s2. destruct (startswith s1 (lit "```"));
        [apply part_of_drop|apply part_of_refl]. }
    destruct (endswith s2 (lit "```")).
    - eapply part_of_trans; [apply part_of_drop_last|].
      by eapply part_of_trans.
    - by eapply part_of_trans. }
  split; [exact Hpart|]. split; [by apply part_of_length|].
  unfold clean_response_text. cbv zeta. apply strip_idemp.
Qed.

(** X3. White space around the reply does not matter: a reply and the
    same reply between two runs of white space are cleaned to the same
    text. *)
Theorem cleanup_ignores_surrounding_space (pre content post : str) :
  forallb isspace pre = true ->
  forallb isspace post = true ->
  clean_response_text (pre ++ content ++ post) = clean_response_text content.
Proof.
  intros Hpre Hpost. unfold clean_response_text.
  by rewrite strip_app_space.
Qed.

Lemma cleanup_ignores_surrounding_space_witness :
  clean_response_text ([10; 32] ++ fence_json (lit "[1]") ++ [13; 10])
  = clean_response_text (fence_json (lit "[1]")).
Proof.
  apply (cleanup_ignores_surrounding_space [10; 32] (fence_json (lit "[1]")) [13; 10]);
    reflexivity.
Defined.

(** ** Fences that are not closed, or not opened *)

Lemma lstrip_nil_all_space (s : str) : lstrip s = [] -> forallb isspace s = true.
Proof.
  induction s as [|c s IH]; [done|].
  cbn. destruct (isspace c); [exact IH|done].
Qed.

Lemma lstrip_app_nonblank (s t : str) :
  lstrip s <> [] -> lstrip (s ++ t) = lstrip s ++ t.
Proof.
  induction s as [|c s IH]; [done|].
  cbn. destruct (isspace c); [exact IH|done].
Qed.

Lemma rstrip_app_nonblank (w s : str) :
  rstrip s <> [] -> rstrip (w ++ s) = w ++ rstrip s.
Proof.
  unfold rstrip. intros Hs. rewrite rev_app_distr, lstrip_app_nonblank.
  - by rewrite rev_app_distr, rev_involutive.
  - intros Hnil. apply Hs. by rewrite Hnil.
Qed.

Lemma rstrip_all_space (s : str) : forallb isspace s = true -> rstrip s = [].
Proof.
  intros Hs. unfold rstrip. rewrite lstrip_all_space; [done|].
  rewrite forallb_forall in Hs |- *. intros c Hc. apply Hs. by apply in_rev.
Qed.

(** [rstrip] leaves the white space at the start, and then what [strip]
    leaves, unless the text is white space only. *)
Lemma rstrip_decompose (s : str) :
  (rstrip s = [] /\ strip s = [])
  \/ exists w, forallb isspace w = true /\ rstrip s = w ++ strip s.
Proof.
  unfold strip. destruct (lstrip_prefix s) as [w Hw].
  assert (forallb isspace w = true) as Hspace.
  { clear -Hw. revert w Hw. induction s as [|c s IH]; intros w Hw.
    - by destruct w.
    - cbn in Hw. destruct (isspace c) eqn:E.
      + destruct w as [|d w]; [done|]. injection Hw as <- Hw.
        cbn. rewrite E. by apply IH.
      + destruct w as [|d w]; [done|]. injection Hw as <- Hw.
        apply (f_equal length) in Hw. rewrite length_app in Hw.
        cbn in Hw. lia. }
  destruct (rstrip (lstrip s)) as [|q Q] eqn:EQ.
  - left. split; [|done]. rewrite Hw.
    destruct (lstrip_head s) as [Hnil|(c & t & Hct & Hc)].
    + rewrite Hnil, app_nil_r. by apply rstrip_all_space.
    + rewrite Hct, rstrip_cons in EQ by done. done.
  - right. exists w. split; [done|]. rewrite <- EQ.
    rewrite Hw at 1. apply rstrip_app_nonblank. by rewrite EQ.
Qed.

(** White space before a text is not the start of a marker, and white
    space after it is not the end of one. *)
Lemma marker_after_space (w s : str) :
  forallb isspace w = true ->
  startswith (w ++ s) (lit "```") = true -> startswith s (lit "```") = true.
Proof.
  change (lit "```") with [96; 96; 96].
  destruct w as [|c w]; [done|]. cbn -[N.eqb]. intros Hw Hs.
  destruct (N.eqb_spec 96 c) as [<-|]; done.
Qed.

Lemma marker_before_space (s w : str) :
  forallb isspace w = true ->
  endswith (s ++ w) (lit "```") = true -> endswith s (lit "```") = true.
Proof.
  unfold endswith. rewrite rev_app_distr. intros Hw.
  apply marker_after_space.
  rewrite forallb_forall in Hw |- *. intros c Hc. apply Hw. by apply in_rev.
Qed.

Lemma space_is_not_backquote (c : N) : isspace c = true -> N.eqb 96 c = false.
Proof. intros Hc. destruct (N.eqb_spec 96 c) as [<-|]; done. Qed.

Lemma marker_across_space (a b : str) :
  forallb isspace b = true ->
  startswith (a ++ b) [96; 96; 96] = true -> startswith a [96; 96; 96] = true.
Proof.
  intros Hb.
  destruct a as [|x [|y [|z a]]]; [| | |done];
    (destruct b as [|p b]; [done|]);
    cbn -[N.eqb] in Hb |- *; apply andb_true_iff in Hb as [Hp _];
    rewrite (space_is_not_backquote p Hp), ?andb_false_r; done.
Qed.

Lemma endswith_after_space (w s : str) :
  forallb isspace w = true ->
  endswith (w ++ s) (lit "```") = true -> endswith s (lit "```") = true.
Proof.
  intros Hw. unfold endswith. rewrite rev_app_distr.
  apply marker_across_space.
  rewrite forallb_forall in Hw |- *. intros c Hc. apply Hw. by apply in_rev.
Qed.

Lemma lstrip_app_marker (s : str) :
  lstrip (s ++ lit "```") = lstrip s ++ lit "```".
Proof.
  induction s as [|c s IH]; [done|].
  cbn [app lstrip]. by destruct (isspace c).
Qed.

Lemma rstrip_app_marker (s : str) : rstrip (s ++ lit "```") = s ++ lit "```".
Proof.
  change (lit "```") with ([96; 96] ++ [96]). rewrite app_assoc.
  by apply rstrip_snoc.
Qed.

Lemma rstrip_json_marker (s : str) :
  rstrip (lit "```json" ++ s) = lit "```json" ++ rstrip s.
Proof.
  change (lit "```json" ++ s) with (96 :: 96 :: 96 :: 106 :: 115 :: 111 :: 110 :: s).
  by rewrite !rstrip_cons.
Qed.

(** An opening [```json] without its closing marker. *)
Lemma clean_open_fence (payload : str) :
  startswith (strip payload) (lit "```") = false ->
  endswith (strip payload) (lit "```") = false ->
  clean_response_text (lit "```json" ++ payload) = strip payload.
Proof.
  intros Hstart Hend. unfold clean_response_text. cbv zeta.
  assert (strip (lit "```json" ++ payload) = lit "```json" ++ rstrip payload) as ->.
  { unfold strip.
    assert (lstrip (lit "```json" ++ payload) = lit "```json" ++ payload) as ->
      by reflexivity.
    apply rstrip_json_marker. }
  rewrite startswith_app.
  assert (drop 7 (lit "```json" ++ rstrip payload) = rstrip payload) as ->
    by reflexivity.
  destruct (rstrip_decompose payload) as [[Hr Hs]|(w & Hw & Hr)].
  - rewrite Hr, Hs. reflexivity.
  - rewrite Hr.
    assert (startswith (w ++ strip payload) (lit "```") = false) as ->.
    { destruct (startswith (w ++ strip payload) (lit "```")) eqn:E; [|done].
      apply marker_after_space in E; [congruence|done]. }
    destruct (decide (strip payload = [])) as [Hnil|Hne].
    + rewrite Hnil, app_nil_r.
      assert (endswith w (lit "```") = false) as ->.
      { destruct (endswith w (lit "```")) eqn:E; [|done].
        apply (marker_before_space [] w Hw) in E. done. }
      unfold strip. by rewrite lstrip_all_space.
    + assert (endswith (w ++ strip payload) (lit "```") = false) as ->.
      { destruct (endswith (w ++ strip payload) (lit "```")) eqn:E; [|done].
        apply endswith_after_space in E; [congruence|done]. }
      rewrite <- (app_nil_r (strip payload)) at 1.
      rewrite strip_app_space by done. apply strip_idemp.
Qed.

(** A closing marker without an opening one. *)
Lemma clean_close_fence (payload : str) :
  startswith (strip payload) (lit "```") = false ->
  clean_response_text (payload ++ lit "```") = strip payload.
Proof.
  intros Hstart. unfold clean_response_text. cbv zeta.
  assert (strip (payload ++ lit "```") = lstrip payload ++ lit "```") as ->.
  { unfold strip. rewrite lstrip_app_marker. apply rstrip_app_marker. }
  assert (startswith (lstrip payload) (lit "```") = false) as Hl.
  { destruct (startswith (lstrip payload) (lit "```")) eqn:E; [|done].
    apply strip_keeps_marker in E. unfold strip in E.
    rewrite lstrip_idemp in E. unfold strip in Hstart. congruence. }
  assert (strip (lstrip payload) = strip payload) as Hstrip.
  { unfold strip. by rewrite lstrip_idemp. }
  destruct (startswith (lstrip payload ++ lit "```") (lit "```")) eqn:E.
  - destruct (marker_after_short_payload _ Hl E) as [Hp|[Hp|Hp]];
      rewrite <- Hstrip, Hp; reflexivity.
  - assert (startswith (lstrip payload ++ lit "```") (lit "```json") = false) as ->.
    { destruct (startswith (lstrip payload ++ lit "```") (lit "```json")) eqn:E7;
        [|done].
      apply (startswith_shorter _ (lit "```") (lit "json")) in E7. congruence. }
    rewrite E, endswith_app.
    change 3%nat with (length (lit "```")). by rewrite drop_last_app.
Qed.

(** X4. The three removals are independent of each other: for a payload
    that, once trimmed, neither starts nor ends with the marker, a reply
    that opens a [```json] fence and never closes it, and a reply that
    closes a fence it never opened, are read as the payload alone is. *)
Theorem half_fence_is_transparent `{Runtime} (payload : str) :
  startswith (strip payload) (lit "```") = false ->
  endswith (strip payload) (lit "```") = false ->
  loads_response (lit "```json" ++ payload) = loads_response payload
  /\ loads_response (payload ++ lit "```") = loads_response payload.
Proof.
  intros Hstart Hend. unfold loads_response.
  rewrite (clean_unfenced payload Hstart Hend).
  by rewrite clean_open_fence, clean_close_fence.
Qed.

Lemma half_fence_is_transparent_witness :
  loads_response (H := MiniRuntime.runtime)
    (lit "```json" ++ [10] ++ Examples.summary_only)
  = inr (PDict [(lit "simplified_summary", PList [PStr (lit "Owner is Ramaiah")])])
  /\ loads_response (H := MiniRuntime.runtime)
       (([10] ++ Examples.summary_only) ++ lit "```")
     = loads_response (H := MiniRuntime.runtime) ([10] ++ Examples.summary_only).
Proof.
  destruct (half_fence_is_transparent (H := MiniRuntime.runtime)
              ([10] ++ Examples.summary_only) eq_refl eq_refl) as [Hopen Hclose].
  split; [|exact Hclose]. rewrite Hopen. reflexivity.
Defined.

(** ** [analyze_document], case by case *)

Section Cases.
Context `{Runtime}.

Lemma users_tick (w : world) : users (tick w) = users w.
Proof. reflexivity. Qed.

Lemma documents_tick (w : world) : documents (tick w) = documents w.
Proof. reflexivity. Qed.

Lemma trace_tick (w : world) : trace (tick w) = trace w.
Proof. reflexivity. Qed.

(** The analysis returned a value that is not an object: line 254 raises
    before any call to the driver. *)
Lemma analyze_document_not_object (request : DocumentRequest)
    (current_user : oid) (w w1 : world) (v : pyval) :
  analyze_document_with_ai (text request) w = (inr v, w1) ->
  (forall d, v <> PDict d) ->
  analyze_document request current_user w
  = (inl (processing_failure
            (Error (lit "AttributeError")
               (lit "'" ++ type_name v ++ lit "' object has no attribute 'get'"))),
     tick w1).
Proof.
  intros Hok Hv.
  unfold analyze_document, try_except. unfold bind at 1. rewrite Hok.
  unfold bind, lift, utcnow, raise.
  destruct v; try reflexivity. by destruct (Hv d).
Qed.

(** The analysis returned an object and the update fails. *)
Lemma analyze_document_update_failure (request : DocumentRequest)
    (current_user : oid) (w w1 : world) (d : pydict) (cls msg : str) :
  analyze_document_with_ai (text request) w = (inr (PDict d), w1) ->
  mongo_fault w1 (trace w1 ++ [update_call current_user]) = Some (cls, msg) ->
  analyze_document request current_user w
  = (inl (processing_failure (Error cls msg)),
     log (update_call current_user) (tick w1)).
Proof.
  intros Hok Hupdate.
  unfold analyze_document, try_except. unfold bind at 1. rewrite Hok.
  unfold bind, lift, utcnow, users_update_one, raise.
  cbn [py_get].
  change (mongo_fault (tick w1) (trace (log (UsersUpdateOne current_user 1) (tick w1))))
    with (mongo_fault w1 (trace w1 ++ [update_call current_user])).
  rewrite Hupdate. reflexivity.
Qed.

(** The analysis returned an object and the two driver calls succeed:
    the record is stored and the counter incremented, whatever building
    the response does afterwards. *)
Lemma analyze_document_stored (request : DocumentRequest)
    (current_user : oid) (w w1 : world) (d : pydict) :
  let update := update_call current_user in
  let insert := insert_call request current_user d w1 in
  let id := fresh (dom (documents w1)) in
  analyze_document_with_ai (text request) w = (inr (PDict d), w1) ->
  mongo_fault w1 (trace w1 ++ [update]) = None ->
  mongo_fault w1 ((trace w1 ++ [update]) ++ [insert]) = None ->
  exists w',
    analyze_document request current_user w
    = (outcome_of (response_of (PDict d) id (S (clock w1))), w')
    /\ trace w' = (trace w1 ++ [update]) ++ [insert]
    /\ users w' = alter (inc_document_count 1) current_user (users w1)
    /\ documents w'
       = <[id := record_of request current_user d (clock w1)]> (documents w1).
Proof.
  intros update insert id Hok Hupdate Hinsert.
  unfold analyze_document, try_except. unfold bind at 1. rewrite Hok.
  unfold bind, lift, utcnow, users_update_one, documents_insert_one, raise.
  cbn [py_get]. fold (record_of request current_user d (clock w1)).
  change (mongo_fault (tick w1) (trace (log (UsersUpdateOne current_user 1) (tick w1))))
    with (mongo_fault w1 (trace w1 ++ [update])).
  rewrite Hupdate.
  change (mongo_fault
            (set_users (alter (inc_document_count 1) current_user (users (tick w1)))
               (log (UsersUpdateOne current_user 1) (tick w1)))
            (trace
               (log (DocumentsInsertOne (record_of request current_user d (clock w1)))
                  (set_users
                     (alter (inc_document_count 1) current_user (users (tick w1)))
                     (log (UsersUpdateOne current_user 1) (tick w1))))))
    with (mongo_fault w1 ((trace w1 ++ [update]) ++ [insert])).
  rewrite Hinsert.
  unfold outcome_of, response_of, and_then. cbn [py_get].
  change (fresh (dom (documents
            (set_users (alter (inc_document_count 1) current_user (users (tick w1)))
               (log (UsersUpdateOne current_user 1) (tick w1))))))
    with id.
  destruct (py_get (default (PDict []) (dict_get d (lit "legal_entities")))
              (lit "survey_numbers") (PList [])) as [e|sn];
    [eexists; split; [reflexivity|repeat split]|].
  destruct (py_get (default (PDict []) (dict_get d (lit "legal_entities")))
              (lit "ownership_details") (PDict [])) as [e|od];
    [eexists; split; [reflexivity|repeat split]|].
  destruct (py_get (default (PDict []) (dict_get d (lit "legal_entities")))
              (lit "land_extents") (PDict [])) as [e|le];
    [eexists; split; [reflexivity|repeat split]|].
  destruct (py_get (default (PDict []) (dict_get d (lit "legal_entities")))
              (lit "encumbrances") (PList [])) as [e|en];
    [eexists; split; [reflexivity|repeat split]|].
  destruct (py_get (default (PDict []) (dict_get d (lit "legal_entities")))
              (lit "risks") (PList [])) as [e|ri];
    [eexists; split; [reflexivity|repeat split]|].
  destruct (py_get (default (PDict []) (dict_get d (lit "legal_entities")))
              (lit "missing_data") (PList [])) as [e|md];
    [eexists; split; [reflexivity|repeat split]|].
  destruct (py_get (default (PDict []) (dict_get d (lit "legal_entities")))
              (lit "notable_clauses") (PList [])) as [e|nc];
    [eexists; split; [reflexivity|repeat split]|].
  destruct (make_LegalEntity sn od le en ri md nc) as [e|entity];
    [eexists; split; [reflexivity|repeat split]|].
  destruct (make_DocumentResponse id
              (default (PList []) (dict_get d (lit "simplified_summary")))
              entity (S (clock w1))) as [e|response] eqn:E;
    eexists; (split; [cbn [clock tick set_documents set_users log]; rewrite E;
                      reflexivity|repeat split]).
Qed.

End Cases.

Section Inversion.
Context `{Runtime}.

(** The outcome of the analysis, from the reply the service ends up
    giving. *)
Lemma analyze_result (text : str) (w : world) :
  (analyze_document_with_ai text w).1
  = match service_reply w text with
    | inr c => read_reply c
    | inl e => inl (ai_failure e)
    end.
Proof.
  rewrite analyze_run. cbv zeta. unfold service_reply.
  destruct (first_attempt w text) as [f1|c1]; [|reflexivity].
  by destruct (second_attempt w text) as [e2|c2].
Qed.

(** A response is built with the identifier and the time it is given. *)
Lemma response_of_fields (v : pyval) (id : oid) (now : nat)
    (response : DocumentResponse) :
  response_of v id now = inr response ->
  document_id response = id /\ processed_at response = now.
Proof.
  unfold response_of, and_then.
  repeat match goal with
         | |- context [match ?x with inl _ => _ | inr _ => _ end] =>
             destruct x; [done|]
         end.
  unfold make_DocumentResponse.
  destruct (validate_List_str _); [|done].
  by intros [= <-].
Qed.

(** Every run of [analyze_document] is of one of three kinds: nothing
    was written; the counter was incremented and the insert failed; the
    counter was incremented and the record stored. *)
Lemma analyze_document_cases (request : DocumentRequest) (current_user : oid)
    (w : world) :
  let w1 := (analyze_document_with_ai (text request) w).2 in
  let run := analyze_document request current_user w in
  let update := update_call current_user in
  (exists e, run.1 = inl e
     /\ users run.2 = users w /\ documents run.2 = documents w
     /\ (trace run.2 = trace w1 \/ trace run.2 = trace w1 ++ [update]))
  \/ (exists d e, (analyze_document_with_ai (text request) w).1 = inr (PDict d)
        /\ run.1 = inl e
        /\ mongo_fault w ((trace w1 ++ [update])
                          ++ [insert_call request current_user d w]) <> None
        /\ users run.2 = alter (inc_document_count 1) current_user (users w)
        /\ documents run.2 = documents w
        /\ trace run.2
           = (trace w1 ++ [update]) ++ [insert_call request current_user d w])
  \/ (exists d, (analyze_document_with_ai (text request) w).1 = inr (PDict d)
        /\ run.1 = outcome_of (response_of (PDict d) (fresh (dom (documents w)))
                                 (S (clock w)))
        /\ users run.2 = alter (inc_document_count 1) current_user (users w)
        /\ documents run.2
           = <[fresh (dom (documents w))
               := record_of request current_user d (clock w)]> (documents w)
        /\ trace run.2
           = (trace w1 ++ [update]) ++ [insert_call request current_user d w]).
Proof.
  cbv zeta.
  pose proof (analyze_frame (text request) w) as (Hu & Hd & Hc & _ & Hm & _).
  cbv zeta in Hu, Hd, Hc, Hm.
  destruct (analyze_document_with_ai (text request) w) as [[e|v] w1] eqn:Hrun;
    cbn [fst snd] in *.
  - left. rewrite (analyze_document_after_failure request current_user w w1 e Hrun).
    cbn [fst snd]. eexists. split; [reflexivity|]. by auto.
  - assert ((exists d, v = PDict d) \/ (forall d, v <> PDict d)) as [[d ->]|Hv].
    { destruct v; try (right; intros d' [=]; fail). left. by eexists. }
    + destruct (mongo_fault w1 (trace w1 ++ [update_call current_user]))
        as [[cls msg]|] eqn:Hupdate.
      * left.
        rewrite (analyze_document_update_failure request current_user w w1 d
                   cls msg Hrun Hupdate).
        cbn [fst snd]. rewrite users_log, documents_log, trace_log.
        rewrite users_tick, documents_tick, trace_tick.
        eexists. split; [reflexivity|]. by auto.
      * destruct (mongo_fault w1 ((trace w1 ++ [update_call current_user])
                    ++ [insert_call request current_user d w1]))
          as [[cls msg]|] eqn:Hinsert.
        -- right; left.
           destruct (analyze_document_insert_failure request current_user w w1 d
                       cls msg Hrun Hupdate Hinsert)
             as (w' & -> & Htrace & Husers & Hdocs).
           cbn [fst snd]. exists d. eexists. split; [reflexivity|].
           split; [reflexivity|]. rewrite Husers, Hdocs, Htrace, Hu, Hd.
           unfold insert_call in *. rewrite <- Hm, <- Hc.
           split; [rewrite Hinsert; discriminate|repeat split].
        -- right; right.
           destruct (analyze_document_stored request current_user w w1 d
                       Hrun Hupdate Hinsert)
             as (w' & -> & Htrace & Husers & Hdocs).
           cbn [fst snd]. exists d. split; [reflexivity|].
           rewrite Husers, Hdocs, Htrace, Hu, Hd, Hc.
           unfold insert_call. rewrite Hc. repeat split.
    + left. rewrite (analyze_document_not_object request current_user w w1 v Hrun Hv).
      cbn [fst snd]. rewrite users_tick, documents_tick, trace_tick.
      eexists. split; [reflexivity|]. by auto.
Qed.

End Inversion.

(** The number of a user's records after a record is stored under a new
    identifier. *)
Lemma stored_documents_insert (uid : oid) (docs : gmap oid document_record)
    (i : oid) (rec : document_record) :
  docs !! i = None ->
  stored_documents uid (<[i := rec]> docs)
  = if decide (rec_user_id rec = uid)
    then S (stored_documents uid docs)
    else stored_documents uid docs.
Proof.
  intros Hi. unfold stored_documents. case_decide as Huid.
  - rewrite map_filter_insert_True by done.
    rewrite map_size_insert_None; [done|].
    apply map_lookup_filter_None. by left.
  - rewrite map_filter_insert_not' by (done || by rewrite Hi).
    done.
Qed.

Lemma fresh_document_id (docs : gmap oid document_record) :
  docs !! fresh (dom docs) = None.
Proof. apply not_elem_of_dom, is_fresh. Qed.

(** ** The analysis: replies that cannot be used *)



(** X6. Of a completion the analysis reads the content of the first
    choice and nothing else.  A completion without choices fails the
    analysis with [AI analysis failed: list index out of range], a first
    choice without content with [AI analysis failed: 'NoneType' object
    has no attribute 'strip'], and the later choices never change the
    outcome. *)
Theorem only_the_first_choice_is_read `{Runtime} (text : str) (w : world) :
  (service_reply w text = inr [] ->
   (analyze_document_with_ai text w).1
   = inl (HTTPException 500 (lit "AI analysis failed: list index out of range")))
  /\ (forall rest,
        service_reply w text = inr (None :: rest) ->
        (analyze_document_with_ai text w).1
        = inl (HTTPException 500
                 (lit "AI analysis failed: 'NoneType' object has no attribute 'strip'")))
  /\ (forall content rest,
        service_reply w text = inr (Some content :: rest) ->
        (analyze_document_with_ai text w).1 = read_reply [Some content]).
Proof.
  rewrite analyze_result. repeat split.
  - by intros ->.
  - by intros rest ->.
  - by intros content rest ->.
Qed.

Lemma only_the_first_choice_is_read_witness :
  (analyze_document_with_ai (H := MiniRuntime.runtime) Examples.survey_text
     (Examples.start Scenarios.no_choice Examples.driver_ok)).1
  = inl (HTTPException 500 (lit "AI analysis failed: list index out of range"))
  /\ (analyze_document_with_ai (H := MiniRuntime.runtime) Examples.survey_text
        (Examples.start Scenarios.no_content Examples.driver_ok)).1
     = inl (HTTPException 500
              (lit "AI analysis failed: 'NoneType' object has no attribute 'strip'"))
  /\ (analyze_document_with_ai (H := MiniRuntime.runtime) Examples.survey_text
        (Examples.start (Examples.answers Examples.summary_only) Examples.driver_ok)).1
     = read_reply (H := MiniRuntime.runtime) [Some Examples.summary_only].
Proof.
  split; [|split].
  - exact (proj1 (only_the_first_choice_is_read (H := MiniRuntime.runtime)
      Examples.survey_text (Examples.start Scenarios.no_choice Examples.driver_ok))
      eq_refl).
  - exact (proj1 (proj2 (only_the_first_choice_is_read (H := MiniRuntime.runtime)
      Examples.survey_text (Examples.start Scenarios.no_content Examples.driver_ok)))
      [Some Examples.summary_only] eq_refl).
  - exact (proj2 (proj2 (only_the_first_choice_is_read (H := MiniRuntime.runtime)
      Examples.survey_text
      (Examples.start (Examples.answers Examples.summary_only) Examples.driver_ok)))
      Examples.summary_only [] eq_refl).
Defined.

(** ** [POST /api/analyze]: what is written, and when *)

(** X7. JSON that is not an object is rejected before anything is
    written.  When the analysis returns a list, a string, a number, a
    boolean or [null], [analyze_document] fails with the status 500
    failure around the [AttributeError] of line 254, and no call is made
    to the driver: the trace and the two collections are those the
    analysis left. *)
Theorem non_object_result_is_rejected_unstored `{Runtime}
    (request : DocumentRequest) (current_user : oid) (w w1 : world) (v : pyval) :
  analyze_document_with_ai (text request) w = (inr v, w1) ->
  (forall d, v <> PDict d) ->
  (analyze_document request current_user w).1
  = inl (HTTPException 500
           (lit "Document processing failed: '" ++ type_name v
            ++ lit "' object has no attribute 'get'"))
  /\ trace (analyze_document request current_user w).2 = trace w1
  /\ users (analyze_document request current_user w).2 = users w
  /\ documents (analyze_document request current_user w).2 = documents w.
Proof.
  intros Hok Hv.
  rewrite (analyze_document_not_object request current_user w w1 v Hok Hv).
  pose proof (analyze_frame (text request) w) as (Hu & Hd & _).
  rewrite Hok in Hu, Hd. cbn [fst snd] in *.
  rewrite users_tick, documents_tick, trace_tick.
  split; [|by auto]. unfold processing_failure. cbn [exn_str].
  change (lit "Document processing failed: '")
    with (lit "Document processing failed: " ++ lit "'").
  by rewrite <- app_assoc.
Qed.

Lemma non_object_result_is_rejected_unstored_witness :
  (analyze_document (H := MiniRuntime.runtime) Examples.survey_request 1
     (Examples.start (Examples.answers Scenarios.a_list) Examples.driver_ok)).1
  = inl (HTTPException 500
           (lit "Document processing failed: 'list' object has no attribute 'get'"))
  /\ List.filter is_persistence
       (trace (analyze_document (H := MiniRuntime.runtime) Examples.survey_request 1
                 (Examples.start (Examples.answers Scenarios.a_list)
                    Examples.driver_ok)).2)
     = [].
Proof.
  destruct (non_object_result_is_rejected_unstored (H := MiniRuntime.runtime)
    Examples.survey_request 1
    (Examples.start (Examples.answers Scenarios.a_list) Examples.driver_ok)
    _ (PList [PStr (lit "Owner is Ramaiah")]) eq_refl)
    as (Hrun & Htrace & _); [done|].
  split; [rewrite Hrun; reflexivity|]. rewrite Htrace. reflexivity.
Defined.

(** X8. When the update of the counter fails, nothing is written and the
    insert is not attempted: the run ends with the status 500 failure
    around the failure of the driver, the update is its only call to the
    driver, and the two collections are unchanged. *)
Theorem failed_update_writes_nothing `{Runtime} (request : DocumentRequest)
    (current_user : oid) (w w1 : world) (d : pydict) (cls msg : str) :
  analyze_document_with_ai (text request) w = (inr (PDict d), w1) ->
  mongo_fault w (trace w1 ++ [UsersUpdateOne current_user 1]) = Some (cls, msg) ->
  (analyze_document request current_user w).1
  = inl (HTTPException 500 (lit "Document processing failed: " ++ msg))
  /\ trace (analyze_document request current_user w).2
     = trace w1 ++ [UsersUpdateOne current_user 1]
  /\ users (analyze_document request current_user w).2 = users w
  /\ documents (analyze_document request current_user w).2 = documents w.
Proof.
  intros Hok Hupdate.
  pose proof (analyze_frame (text request) w) as (Hu & Hd & _ & _ & Hm & _).
  rewrite Hok in Hu, Hd, Hm. cbn [fst snd] in *.
  rewrite (analyze_document_update_failure request current_user w w1 d cls msg Hok)
    by (by rewrite Hm).
  cbn [fst snd]. rewrite users_log, documents_log, trace_log.
  rewrite users_tick, documents_tick, trace_tick. by auto.
Qed.

Lemma failed_update_writes_nothing_witness :
  (analyze_document (H := MiniRuntime.runtime) Examples.survey_request 1
     (Examples.start (Examples.answers Examples.summary_only)
        Scenarios.update_fails)).1
  = inl (HTTPException 500
           (lit "Document processing failed: No servers found yet"))
  /\ List.filter is_persistence
       (trace (analyze_document (H := MiniRuntime.runtime) Examples.survey_request 1
                 (Examples.start (Examples.answers Examples.summary_only)
                    Scenarios.update_fails)).2)
     = [UsersUpdateOne 1 1].
Proof.
  destruct (failed_update_writes_nothing (H := MiniRuntime.runtime)
    Examples.survey_request 1
    (Examples.start (Examples.answers Examples.summary_only) Scenarios.update_fails)
    _ _ (lit "ServerSelectionTimeoutError") (lit "No servers found yet")
    eq_refl eq_refl) as (Hrun & Htrace & _).
  split; [exact Hrun|]. rewrite Htrace. reflexivity.
Defined.

Lemma py_get_not_object (v : pyval) (k : str) (dflt : pyval) :
  (forall l, v <> PDict l) ->
  py_get v k dflt
  = inl (Error (lit "AttributeError")
           (lit "'" ++ type_name v ++ lit "' object has no attribute 'get'")).
Proof. intros Hv. destruct v; try reflexivity. by destruct (Hv d). Qed.

(** X9. The record is stored before the response is built, and stays
    stored when building it fails.  When the reply is an object whose
    [legal_entities] is present and is not an object ([null], which the
    prompt allows, or a list), the update and the insert are done, the
    record holds that value, and only then does the run fail, with the
    status 500 failure around the [AttributeError] of line 274. *)
Theorem record_is_stored_before_the_response_fails `{Runtime}
    (request : DocumentRequest) (current_user : oid) (w w1 : world)
    (d : pydict) (v : pyval) :
  let rec := record_of request current_user d (clock w) in
  analyze_document_with_ai (text request) w = (inr (PDict d), w1) ->
  dict_get d (lit "legal_entities") = Some v ->
  (forall l, v <> PDict l) ->
  mongo_fault w (trace w1 ++ [UsersUpdateOne current_user 1]) = None ->
  mongo_fault w ((trace w1 ++ [UsersUpdateOne current_user 1])
                 ++ [DocumentsInsertOne rec]) = None ->
  (analyze_document request current_user w).1
  = inl (HTTPException 500
           (lit "Document processing failed: '" ++ type_name v
            ++ lit "' object has no attribute 'get'"))
  /\ documents (analyze_document request current_user w).2
     = <[fresh (dom (documents w)) := rec]> (documents w)
  /\ rec_legal_entities rec = v
  /\ users (analyze_document request current_user w).2
     = alter (inc_document_count 1) current_user (users w).
Proof.
  intros rec Hok Hentities Hv Hupdate Hinsert.
  pose proof (analyze_frame (text request) w) as (Hu & Hd & Hc & _ & Hm & _).
  rewrite Hok in Hu, Hd, Hc, Hm. cbn [fst snd] in *.
  destruct (analyze_document_stored request current_user w w1 d Hok)
    as (w' & -> & _ & Husers & Hdocs).
  { by rewrite Hm. }
  { unfold insert_call. by rewrite Hm, Hc. }
  cbn [fst snd]. rewrite Husers, Hdocs, Hu, Hd, Hc.
  split; [|split; [done|split; [|done]]].
  - unfold response_of. cbn [py_get and_then]. rewrite Hentities. cbn [default].
    rewrite (py_get_not_object v _ _ Hv). cbn [and_then outcome_of].
    unfold processing_failure. cbn [exn_str].
    change (lit "Document processing failed: '")
      with (lit "Document processing failed: " ++ lit "'").
    by rewrite <- app_assoc.
  - unfold rec, record_of. cbn [rec_legal_entities]. by rewrite Hentities.
Qed.

Lemma record_is_stored_before_the_response_fails_witness :
  (analyze_document (H := MiniRuntime.runtime) Examples.survey_request 1
     (Examples.start (Examples.answers Scenarios.null_entities) Examples.driver_ok)).1
  = inl (HTTPException 500
           (lit "Document processing failed: 'NoneType' object has no attribute 'get'"))
  /\ stored_documents 1
       (documents
          (analyze_document (H := MiniRuntime.runtime) Examples.survey_request 1
             (Examples.start (Examples.answers Scenarios.null_entities)
                Examples.driver_ok)).2)
     = 1%nat.
Proof.
  destruct (record_is_stored_before_the_response_fails (H := MiniRuntime.runtime)
    Examples.survey_request 1
    (Examples.start (Examples.answers Scenarios.null_entities) Examples.driver_ok)
    _ _ PNone eq_refl eq_refl) as (Hrun & Hdocs & _); [done|reflexivity..|].
  split; [exact Hrun|]. rewrite Hdocs. reflexivity.
Defined.

(** X10. The identifier in a response is the key of the record that the
    run stored.  Whenever [analyze_document] returns a response, its
    [document_id] was not in use before, the [documents] collection now
    holds under it a record of the current user with the text and the
    type of the request and the object that the analysis returned, every
    earlier record is still there under its key, and the counter of the
    user is one more. *)
Theorem response_names_the_stored_record `{Runtime} (request : DocumentRequest)
    (current_user : oid) (w w' : world) (response : DocumentResponse) :
  analyze_document request current_user w = (inr response, w') ->
  documents w !! document_id response = None
  /\ (exists d,
        (analyze_document_with_ai (text request) w).1 = inr (PDict d)
        /\ documents w' !! document_id response
           = Some (record_of request current_user d (clock w)))
  /\ (forall i rec, documents w !! i = Some rec -> documents w' !! i = Some rec)
  /\ users w' !! current_user
     = inc_document_count 1 <$> users w !! current_user.
Proof.
  intros Hrun.
  pose proof (analyze_document_cases request current_user w) as Hcases.
  cbv zeta in Hcases. rewrite Hrun in Hcases. cbn [fst snd] in Hcases.
  destruct Hcases
    as [(e & He & _)|[(d & e & _ & He & _)|(d & Hd & Hres & Husers & Hdocs & _)]];
    [discriminate He|discriminate He|].
  destruct (response_of (PDict d) (fresh (dom (documents w))) (S (clock w)))
    as [e|r] eqn:Er; [discriminate Hres|].
  injection Hres as ->. destruct (response_of_fields _ _ _ _ Er) as [-> _].
  pose proof (fresh_document_id (documents w)) as Hfresh.
  split; [exact Hfresh|]. split; [|split].
  - exists d. split; [done|]. rewrite Hdocs. apply lookup_insert_eq.
  - intros i rec Hi. rewrite Hdocs, lookup_insert_ne; [done|].
    intros <-. by rewrite Hfresh in Hi.
  - rewrite Husers. apply lookup_alter_eq.
Qed.

Lemma response_names_the_stored_record_witness :
  exists response w',
    analyze_document (H := MiniRuntime.runtime) Examples.survey_request 1
      (Scenarios.one_document (Examples.answers Examples.summary_and_survey)
         Examples.driver_ok)
    = (inr response, w')
    /\ document_id response = 1
    /\ rec_original_text <$> documents w' !! 1 = Some Examples.survey_text
    /\ documents w' !! 0 = Some Scenarios.earlier_record
    /\ document_count <$> users w' !! 1 = Some 2%Z.
Proof.
  eexists _, _. split; [vm_compute; reflexivity|].
  split; [reflexivity|].
  match goal with
  | |- context [documents ?w'] =>
      destruct (response_names_the_stored_record (H := MiniRuntime.runtime)
        Examples.survey_request 1
        (Scenarios.one_document (Examples.answers Examples.summary_and_survey)
           Examples.driver_ok) w' _ ltac:(vm_compute; reflexivity))
        as (_ & (d & _ & Hrec) & Hkeep & Hcount)
  end.
  split; [|split].
  - exact (f_equal (fmap rec_original_text) Hrec).
  - apply Hkeep. reflexivity.
  - exact (f_equal (fmap document_count) Hcount).
Defined.

(** X11. Whatever the service and the driver do, one run of
    [analyze_document] calls the generation service once or twice, and
    after that the driver at most twice: nothing, or the update alone, or
    the update and then the insert.  It never inserts without having
    updated, and never calls the service again after touching the
    driver. *)
Theorem calls_are_bounded_and_ordered `{Runtime} (request : DocumentRequest)
    (current_user : oid) (w : world) :
  exists calls db,
    trace (analyze_document request current_user w).2 = (trace w ++ calls) ++ db
    /\ forallb is_groq calls = true
    /\ (1 <= length calls <= 2)%nat
    /\ (db = []
        \/ db = [UsersUpdateOne current_user 1]
        \/ exists rec, db = [UsersUpdateOne current_user 1; DocumentsInsertOne rec]).
Proof.
  pose proof (analyze_frame (text request) w)
    as (_ & _ & _ & _ & _ & calls & Htrace & Hcalls & Hlen).
  cbv zeta in Htrace.
  exists calls.
  destruct (analyze_document_cases request current_user w)
    as [(e & _ & _ & _ & [Ht|Ht])
       |[(d & e & _ & _ & _ & _ & _ & Ht)|(d & _ & _ & _ & _ & Ht)]];
    cbv zeta in Ht; rewrite Ht, Htrace.
  - exists []. rewrite app_nil_r.
    split; [done|]. split; [done|]. split; [done|]. by left.
  - exists [UsersUpdateOne current_user 1].
    split; [done|]. split; [done|]. split; [done|]. right; by left.
  - eexists. rewrite <- (app_assoc (trace w ++ calls)).
    split; [reflexivity|]. split; [done|]. split; [done|].
    right; right. by eexists.
  - eexists. rewrite <- (app_assoc (trace w ++ calls)).
    split; [reflexivity|]. split; [done|]. split; [done|].
    right; right. by eexists.
Qed.

(** X12. What a run of [analyze_document] never touches, whatever
    happens in it: no user is added or removed, the record of every other
    user is as it was, the name, the email and the password of the
    current user are as they were and the counter is the same or one
    more; no document is removed or replaced, and at most one is
    added. *)
Theorem analyze_document_touches_little_else `{Runtime}
    (request : DocumentRequest) (current_user : oid) (w : world) :
  let w' := (analyze_document request current_user w).2 in
  dom (users w') = dom (users w)
  /\ (forall uid, uid <> current_user -> users w' !! uid = users w !! uid)
  /\ (forall u, users w !! current_user = Some u ->
        exists u', users w' !! current_user = Some u'
          /\ name u' = name u /\ email u' = email u /\ password u' = password u
          /\ (document_count u' = document_count u
              \/ document_count u' = (document_count u + 1)%Z))
  /\ (forall i rec, documents w !! i = Some rec -> documents w' !! i = Some rec)
  /\ (size (documents w') <= S (size (documents w)))%nat.
Proof.
  cbv zeta.
  pose proof (fresh_document_id (documents w)) as Hfresh.
  assert (forall users', users' = alter (inc_document_count 1) current_user (users w) ->
    dom users' = dom (users w)
    /\ (forall uid, uid <> current_user -> users' !! uid = users w !! uid)
    /\ (forall u, users w !! current_user = Some u ->
          exists u', users' !! current_user = Some u'
            /\ name u' = name u /\ email u' = email u /\ password u' = password u
            /\ (document_count u' = document_count u
                \/ document_count u' = (document_count u + 1)%Z))) as Halter.
  { intros users' ->. split; [apply dom_alter_L|]. split.
    - intros uid Hne. by apply lookup_alter_ne.
    - intros u Hu. exists (inc_document_count 1 u).
      rewrite lookup_alter_eq, Hu.
      split; [reflexivity|]. split; [reflexivity|]. split; [reflexivity|].
      split; [reflexivity|]. by right. }
  destruct (analyze_document_cases request current_user w)
    as [(e & _ & Hu & Hd & _)
       |[(d & e & _ & _ & _ & Hu & Hd & _)|(d & _ & _ & Hu & Hd & _)]];
    cbv zeta in Hu, Hd.
  - rewrite Hu, Hd. split; [done|]. split; [done|]. split; [|split; [done|lia]].
    intros u Hlookup. exists u.
    split; [done|]. split; [done|]. split; [done|]. split; [done|]. by left.
  - destruct (Halter _ Hu) as (H1 & H2 & H3). rewrite Hd.
    split; [done|]. split; [done|]. split; [done|]. split; [done|lia].
  - destruct (Halter _ Hu) as (H1 & H2 & H3). rewrite Hd.
    split; [done|]. split; [done|]. split; [done|]. split.
    + intros i rec Hi. rewrite lookup_insert_ne; [done|].
      intros <-. by rewrite Hfresh in Hi.
    + by rewrite map_size_insert_None.
Qed.

(** X13. With a driver that never fails an insert, the counters stay
    right.  If the counter of every user is the number of the user's
    records before a run of [analyze_document], it is so after the run,
    whatever the service answers and whether or not the update fails. *)
Theorem counters_stay_consistent `{Runtime} (request : DocumentRequest)
    (current_user : oid) (w : world) :
  (forall t rec, mongo_fault w (t ++ [DocumentsInsertOne rec]) = None) ->
  counters_consistent w ->
  counters_consistent (analyze_document request current_user w).2.
Proof.
  intros Hdriver Hcons.
  destruct (analyze_document_cases request current_user w)
    as [(e & _ & Hu & Hd & _)
       |[(d & e & _ & _ & Hfault & _)|(d & _ & _ & Hu & Hd & _)]];
    cbv zeta in *.
  - unfold counters_consistent. by rewrite Hu, Hd.
  - destruct Hfault. apply Hdriver.
  - intros uid u. rewrite Hu, Hd.
    rewrite stored_documents_insert by apply fresh_document_id.
    cbn [rec_user_id record_of].
    destruct (decide (current_user = uid)) as [<-|Hne].
    + rewrite lookup_alter_eq.
      destruct (users w !! current_user) as [u0|] eqn:Hu0; [|done].
      intros [= <-]. cbn [document_count inc_document_count].
      rewrite (Hcons _ _ Hu0). lia.
    + rewrite lookup_alter_ne by done. apply Hcons.
Qed.

Lemma counters_stay_consistent_witness :
  counters_consistent
    (analyze_document (H := MiniRuntime.runtime) Examples.survey_request 1
       (Scenarios.one_document (Examples.answers Examples.summary_and_survey)
          Examples.driver_ok)).2.
Proof.
  apply (counters_stay_consistent (H := MiniRuntime.runtime)).
  - reflexivity.
  - intros uid u Hu. cbn [users documents Scenarios.one_document] in *.
    apply lookup_singleton_Some in Hu as [<- <-]. vm_compute. reflexivity.
Defined.

(** ** The stream: what happens when *)

(** X14. The progress of a stream is not the progress of the analysis.
    The seven frames and the seven delays come first, then the calls to
    the generation service, one or two, and then the last frame: the
    service is not called before the frame of 95 per cent is sent, and no
    frame is sent while it is called. *)
Theorem service_is_called_after_the_progress `{Runtime} (text : str) (w : world) :
  exists calls,
    trace (analyze_document_stream text w).2
    = ((trace w ++ progress_events) ++ calls)
      ++ [Yield (terminal_frame
                   (analyze_document_with_ai text (simulate_progress w).2).1)]
    /\ forallb is_groq calls = true
    /\ (1 <= length calls <= 2)%nat
    /\ List.map (fun ev => match ev with Yield _ => true | _ => false end)
         progress_events
       = [true; false; true; false; true; false; true; false; true; false;
          true; false; true; false]
    /\ last (frames progress_events)
       = Some (sse_frame (progress_step "generating"
                            "Generating simplified summary..." 95)).
Proof.
  unfold analyze_document_stream.
  pose proof (generate_run text w) as Hrun. cbv zeta in Hrun. rewrite Hrun.
  pose proof (analyze_frame text (simulate_progress w).2)
    as (_ & _ & _ & _ & _ & calls & Htrace & Hcalls & Hlen).
  cbv zeta in Htrace.
  pose proof (simulate_progress_run w) as (_ & Hprogress & _).
  exists calls. cbn [fst snd]. rewrite trace_log, Htrace, Hprogress.
  split; [reflexivity|]. split; [done|]. split; [done|].
  split; reflexivity.
Qed.

(** * The other endpoints *)

Lemma inc_document_count_back (u : user) :
  inc_document_count (-1) (inc_document_count 1 u) = u.
Proof.
  destruct u as [n e p c ph a k]. unfold inc_document_count. cbn.
  f_equal. lia.
Qed.

Lemma stored_documents_delete (uid : oid) (docs : gmap oid document_record)
    (i : oid) (rec : document_record) :
  docs !! i = Some rec ->
  stored_documents uid docs
  = if decide (rec_user_id rec = uid)
    then Datatypes.S (stored_documents uid (delete i docs))
    else stored_documents uid (delete i docs).
Proof.
  intros Hi. rewrite <- (insert_delete_id docs i rec Hi) at 1.
  rewrite stored_documents_insert by apply lookup_delete_eq. done.
Qed.

Section Documents.
Context `{Runtime} `{Security}.

(** [get_document], case by case. *)
Lemma get_document_run (document_id : str) (current_user : oid) (s : site) :
  get_document document_id current_user s
  = match ObjectId document_id with
    | inl msg =>
        (inl (HTTPException 500 (lit "Failed to retrieve document: " ++ msg)), s)
    | inr id =>
        let s' := record_call (DocumentsFindOne id current_user) s in
        match faults s (trace (base s)) (calls s ++ [DocumentsFindOne id current_user]) with
        | Some (cls, msg) =>
            (inl (HTTPException 500 (lit "Failed to retrieve document: " ++ msg)), s')
        | None =>
            match documents (base s) !! id with
            | Some rec =>
                if decide (rec_user_id rec = current_user)
                then (inr (id, rec), s')
                else (inl (HTTPException 500
                             (lit "Failed to retrieve document: "
                              ++ http_str 404 (lit "Document not found"))), s')
            | None =>
                (inl (HTTPException 500
                        (lit "Failed to retrieve document: "
                         ++ http_str 404 (lit "Document not found"))), s')
            end
        end
    end.
Proof.
  unfold get_document, s_try, make_ObjectId. unfold s_bind at 1.
  destruct (ObjectId document_id) as [msg|id]; [reflexivity|].
  unfold s_ret at 1. unfold s_bind, documents_find_one, driver_call.
  cbn [calls record_call base].
  destruct (faults s (trace (base s)) (calls s ++ [DocumentsFindOne id current_user]))
    as [[cls msg]|]; [reflexivity|].
  destruct (documents (base s) !! id) as [rec|]; [|reflexivity].
  by destruct (decide (rec_user_id rec = current_user)).
Qed.

(** [delete_document], case by case. *)
Lemma delete_document_run (document_id : str) (current_user : oid) (s : site) :
  delete_document document_id current_user s
  = match ObjectId document_id with
    | inl msg =>
        (inl (HTTPException 500 (lit "Failed to delete document: " ++ msg)), s)
    | inr id =>
        let s' := record_call (DocumentsDeleteOne id current_user) s in
        let not_found :=
          (inl (HTTPException 500
                  (lit "Failed to delete document: "
                   ++ http_str 404 (lit "Document not found"))), s') in
        match faults s (trace (base s)) (calls s ++ [DocumentsDeleteOne id current_user]) with
        | Some (cls, msg) =>
            (inl (HTTPException 500 (lit "Failed to delete document: " ++ msg)), s')
        | None =>
            match documents (base s) !! id with
            | Some rec =>
                if decide (rec_user_id rec = current_user)
                then
                  let w1 := set_documents (delete id (documents (base s))) (base s) in
                  let w2 := log (UsersUpdateOne current_user (-1)) w1 in
                  match mongo_fault (base s)
                          (trace (base s) ++ [UsersUpdateOne current_user (-1)]) with
                  | Some (cls, msg) =>
                      (inl (HTTPException 500
                              (lit "Failed to delete document: " ++ msg)),
                       set_base w2 s')
                  | None =>
                      (inr (lit "Document deleted successfully"),
                       set_base
                         (set_users
                            (alter (inc_document_count (-1)) current_user
                               (users (base s))) w2) s')
                  end
                else not_found
            | None => not_found
            end
        end
    end.
Proof.
  unfold delete_document, s_try, make_ObjectId. unfold s_bind at 1.
  destruct (ObjectId document_id) as [msg|id]; [reflexivity|].
  unfold s_ret at 1. unfold s_bind, documents_delete_one, driver_call.
  cbn [calls record_call base].
  destruct (faults s (trace (base s)) (calls s ++ [DocumentsDeleteOne id current_user]))
    as [[cls msg]|]; [reflexivity|].
  destruct (documents (base s) !! id) as [rec|]; [|reflexivity].
  destruct (decide (rec_user_id rec = current_user)); [|reflexivity].
  cbn [Nat.eqb]. unfold of_M, users_update_one.
  cbn [base set_base mongo_fault set_documents trace log users].
  by destruct (mongo_fault (base s)
                 (trace (base s) ++ [UsersUpdateOne current_user (-1)]))
    as [[cls msg]|].
Qed.

End Documents.

(** ** [get_document] and [delete_document] *)

(** X15. A document that is not there, or that belongs to another user,
    is answered with status 500, not 404: the [HTTPException] of status
    404 is raised inside the [try] and caught by its handler, which
    raises a status 500 failure around the [str()] of it.  This is so for
    [get_document] and for [delete_document], and neither changes
    anything. *)
Theorem missing_document_is_answered_500 `{Runtime} `{Security}
    (document_id : str) (current_user : oid) (s : site) (id : oid) :
  ObjectId document_id = inr id ->
  answers_call s (DocumentsFindOne id current_user) ->
  answers_call s (DocumentsDeleteOne id current_user) ->
  (forall rec, documents (base s) !! id = Some rec -> rec_user_id rec <> current_user) ->
  (get_document document_id current_user s).1
  = inl (HTTPException 500
           (lit "Failed to retrieve document: " ++ http_str 404 (lit "Document not found")))
  /\ (delete_document document_id current_user s).1
     = inl (HTTPException 500
              (lit "Failed to delete document: " ++ http_str 404 (lit "Document not found")))
  /\ base (get_document document_id current_user s).2 = base s
  /\ base (delete_document document_id current_user s).2 = base s.
Proof.
  unfold answers_call. intros Hid Hfind Hdelete Hforeign.
  rewrite get_document_run, delete_document_run, Hid. cbv zeta.
  rewrite Hfind, Hdelete.
  destruct (documents (base s) !! id) as [rec|] eqn:Hrec; [|by repeat split].
  destruct (decide (rec_user_id rec = current_user)) as [Hown|_]; [|by repeat split].
  by destruct (Hforeign rec).
Qed.

Lemma missing_document_is_answered_500_witness :
  (get_document (H := MiniRuntime.runtime) (H0 := MiniSecurity.security)
     MiniSecurity.first_id 2
     (MiniSecurity.site_of
        (Scenarios.one_document Examples.service_down Examples.driver_ok))).1
  = inl (HTTPException 500
           (lit "Failed to retrieve document: 404: Document not found"))
  /\ (delete_document (H := MiniRuntime.runtime) (H0 := MiniSecurity.security)
        MiniSecurity.second_id 1
        (MiniSecurity.site_of
           (Scenarios.one_document Examples.service_down Examples.driver_ok))).1
     = inl (HTTPException 500
              (lit "Failed to delete document: 404: Document not found")).
Proof.
  split.
  - refine (proj1 (missing_document_is_answered_500
      (H := MiniRuntime.runtime) (H0 := MiniSecurity.security)
      MiniSecurity.first_id 2
      (MiniSecurity.site_of
         (Scenarios.one_document Examples.service_down Examples.driver_ok))
      0 eq_refl eq_refl eq_refl _)).
    intros rec Hrec. vm_compute in Hrec. injection Hrec as <-. discriminate.
  - refine (proj1 (proj2 (missing_document_is_answered_500
      (H := MiniRuntime.runtime) (H0 := MiniSecurity.security)
      MiniSecurity.second_id 1
      (MiniSecurity.site_of
         (Scenarios.one_document Examples.service_down Examples.driver_ok))
      1 eq_refl eq_refl eq_refl _))).
    intros rec Hrec. vm_compute in Hrec. discriminate.
Defined.

(** X16. A successful [delete_document] removes the named record of the
    current user and nothing else, and takes one off the counter: the
    other records are there under their keys, and the user has one
    stored document fewer. *)
Theorem delete_document_removes_one_record `{Runtime} `{Security}
    (document_id : str) (current_user : oid) (s : site) (id : oid)
    (rec : document_record) :
  ObjectId document_id = inr id ->
  documents (base s) !! id = Some rec ->
  rec_user_id rec = current_user ->
  answers_call s (DocumentsDeleteOne id current_user) ->
  mongo_fault (base s) (trace (base s) ++ [UsersUpdateOne current_user (-1)]) = None ->
  let s' := (delete_document document_id current_user s).2 in
  (delete_document document_id current_user s).1
  = inr (lit "Document deleted successfully")
  /\ documents (base s') = delete id (documents (base s))
  /\ (forall j, j <> id -> documents (base s') !! j = documents (base s) !! j)
  /\ users (base s') = alter (inc_document_count (-1)) current_user (users (base s))
  /\ stored_documents current_user (documents (base s))
     = Datatypes.S (stored_documents current_user (documents (base s'))).
Proof.
  unfold answers_call. intros Hid Hrec Hown Hdelete Hupdate. cbv zeta.
  rewrite delete_document_run, Hid. cbv zeta.
  rewrite Hdelete, Hrec, decide_True, Hupdate by done.
  cbn [fst snd base set_base documents users set_users log set_documents].
  split; [done|]. split; [done|]. split; [|split; [done|]].
  - intros j Hj. by apply lookup_delete_ne.
  - rewrite (stored_documents_delete current_user _ id rec Hrec).
    by rewrite decide_True.
Qed.

Lemma delete_document_removes_one_record_witness :
  (delete_document (H := MiniRuntime.runtime) (H0 := MiniSecurity.security)
     MiniSecurity.first_id 1
     (MiniSecurity.site_of
        (Scenarios.one_document Examples.service_down Examples.driver_ok))).1
  = inr (lit "Document deleted successfully")
  /\ stored_documents 1
       (documents (Scenarios.one_document Examples.service_down Examples.driver_ok))
     = 1%nat.
Proof.
  destruct (delete_document_removes_one_record
    (H := MiniRuntime.runtime) (H0 := MiniSecurity.security)
    MiniSecurity.first_id 1
    (MiniSecurity.site_of
       (Scenarios.one_document Examples.service_down Examples.driver_ok))
    0 Scenarios.earlier_record eq_refl eq_refl eq_refl eq_refl eq_refl)
    as (Hrun & _ & _ & _ & Hcount).
  split; [exact Hrun|]. reflexivity.
Defined.

(** X17. [delete_document] cannot remove the document of another user,
    nor more than the one it names, whatever the driver does: every
    record that is gone after a run is the one the identifier names and
    belongs to the current user; no record is added or changed, and the
    records of the other users in [users] are as they were. *)
Theorem delete_document_spares_the_others `{Runtime} `{Security}
    (document_id : str) (current_user : oid) (s : site) :
  let s' := (delete_document document_id current_user s).2 in
  (forall j rec,
      documents (base s) !! j = Some rec ->
      documents (base s') !! j = Some rec
      \/ (documents (base s') !! j = None
          /\ ObjectId document_id = inr j /\ rec_user_id rec = current_user))
  /\ (forall j rec,
        documents (base s') !! j = Some rec -> documents (base s) !! j = Some rec)
  /\ (forall uid, uid <> current_user ->
        users (base s') !! uid = users (base s) !! uid).
Proof.
  cbv zeta. rewrite delete_document_run.
  destruct (ObjectId document_id) as [msg|id]; [by auto|]. cbv zeta.
  destruct (faults s (trace (base s)) (calls s ++ [DocumentsDeleteOne id current_user]))
    as [[cls msg]|]; [by auto|].
  destruct (documents (base s) !! id) as [rec0|] eqn:Hrec; [|by auto].
  destruct (decide (rec_user_id rec0 = current_user)) as [Hown|_]; [|by auto].
  assert (forall j rec,
            documents (base s) !! j = Some rec ->
            delete id (documents (base s)) !! j = Some rec
            \/ (delete id (documents (base s)) !! j = None
                /\ inr id = inr (A := str) j /\ rec_user_id rec = current_user))
    as Hgone.
  { intros j rec Hj. destruct (decide (j = id)) as [->|Hne].
    - right. rewrite lookup_delete_eq. rewrite Hrec in Hj. by injection Hj as <-.
    - left. by rewrite lookup_delete_ne. }
  assert (forall j rec,
            delete id (documents (base s)) !! j = Some rec ->
            documents (base s) !! j = Some rec) as Hkept.
  { intros j rec Hj. by apply lookup_delete_Some in Hj as [_ Hj]. }
  destruct (mongo_fault (base s)
              (trace (base s) ++ [UsersUpdateOne current_user (-1)]))
    as [[cls msg]|];
    cbn [fst snd base set_base documents users set_users log set_documents].
  - by auto.
  - split; [exact Hgone|]. split; [exact Hkept|].
    intros uid Hne. by apply lookup_alter_ne.
Qed.

(** X18. [get_document] only reads, and only for the owner.  Whatever
    happens in a run, the two collections are as they were; and when it
    returns a record, that record is stored under the identifier the
    request names and belongs to the current user. *)
Theorem get_document_reads_the_owners_record `{Runtime} `{Security}
    (document_id : str) (current_user : oid) (s : site) :
  base (get_document document_id current_user s).2 = base s
  /\ (forall id rec,
        (get_document document_id current_user s).1 = inr (id, rec) ->
        ObjectId document_id = inr id
        /\ documents (base s) !! id = Some rec
        /\ rec_user_id rec = current_user).
Proof.
  rewrite get_document_run.
  destruct (ObjectId document_id) as [msg|id]; [by split|]. cbv zeta.
  destruct (faults s (trace (base s)) (calls s ++ [DocumentsFindOne id current_user]))
    as [[cls msg]|]; [by split|].
  destruct (documents (base s) !! id) as [rec0|] eqn:Hrec; [|by split].
  destruct (decide (rec_user_id rec0 = current_user)) as [Hown|_]; [|by split].
  split; [done|]. intros id' rec' [= <- <-]. by auto.
Qed.

(** X19. An identifier that [ObjectId] refuses is answered with status
    500 and the message of [InvalidId], by [get_document] and by
    [delete_document], before any call to the driver: the site is as it
    was. *)
Theorem invalid_identifier_is_answered_500 `{Runtime} `{Security}
    (document_id : str) (current_user : oid) (s : site) (msg : str) :
  ObjectId document_id = inl msg ->
  get_document document_id current_user s
  = (inl (HTTPException 500 (lit "Failed to retrieve document: " ++ msg)), s)
  /\ delete_document document_id current_user s
     = (inl (HTTPException 500 (lit "Failed to delete document: " ++ msg)), s).
Proof.
  intros Hid. by rewrite get_document_run, delete_document_run, Hid.
Qed.

Lemma invalid_identifier_is_answered_500_witness :
  (delete_document (H := MiniRuntime.runtime) (H0 := MiniSecurity.security)
     (lit "42") 1
     (MiniSecurity.site_of
        (Scenarios.one_document Examples.service_down Examples.driver_ok))).1
  = inl (HTTPException 500
           (lit "Failed to delete document: '42' is not a valid ObjectId, it must be a 12-byte input or a 24-character hex string")).
Proof.
  destruct (invalid_identifier_is_answered_500
    (H := MiniRuntime.runtime) (H0 := MiniSecurity.security) (lit "42") 1
    (MiniSecurity.site_of
       (Scenarios.one_document Examples.service_down Examples.driver_ok))
    _ eq_refl) as [_ Hdelete].
  rewrite Hdelete. reflexivity.
Defined.

(** X20. [delete_document] removes the record before it takes one off
    the counter.  When the record is removed and the update then fails,
    the run ends with the status 500 failure around the failure of the
    driver, the record is gone and the counter is as it was: a counter
    that was not below the number of the user's records is now above
    it. *)
Theorem count_kept_after_failed_decrement `{Runtime} `{Security}
    (document_id : str) (current_user : oid) (s : site) (id : oid)
    (rec : document_record) (u : user) (cls msg : str) :
  ObjectId document_id = inr id ->
  documents (base s) !! id = Some rec ->
  rec_user_id rec = current_user ->
  users (base s) !! current_user = Some u ->
  answers_call s (DocumentsDeleteOne id current_user) ->
  mongo_fault (base s) (trace (base s) ++ [UsersUpdateOne current_user (-1)])
  = Some (cls, msg) ->
  let s' := (delete_document document_id current_user s).2 in
  (delete_document document_id current_user s).1
  = inl (HTTPException 500 (lit "Failed to delete document: " ++ msg))
  /\ documents (base s') = delete id (documents (base s))
  /\ users (base s') !! current_user = Some u
  /\ ((Z.of_nat (stored_documents current_user (documents (base s)))
       <= document_count u)%Z ->
      (Z.of_nat (stored_documents current_user (documents (base s')))
       < document_count u)%Z).
Proof.
  unfold answers_call. intros Hid Hrec Hown Hu Hdelete Hupdate. cbv zeta.
  rewrite delete_document_run, Hid. cbv zeta.
  rewrite Hdelete, Hrec, decide_True, Hupdate by done.
  cbn [fst snd base set_base documents users set_users log set_documents].
  split; [done|]. split; [done|]. split; [done|].
  rewrite (stored_documents_delete current_user _ id rec Hrec).
  rewrite decide_True by done. lia.
Qed.

Lemma count_kept_after_failed_decrement_witness :
  (delete_document (H := MiniRuntime.runtime) (H0 := MiniSecurity.security)
     MiniSecurity.first_id 1
     (MiniSecurity.site_of
        (Scenarios.one_document Examples.service_down Scenarios.update_fails))).1
  = inl (HTTPException 500
           (lit "Failed to delete document: No servers found yet"))
  /\ stored_documents 1
       (documents
          (base (delete_document (H := MiniRuntime.runtime)
                   (H0 := MiniSecurity.security) MiniSecurity.first_id 1
                   (MiniSecurity.site_of
                      (Scenarios.one_document Examples.service_down
                         Scenarios.update_fails))).2))
     = 0%nat
  /\ document_count <$>
       users
         (base (delete_document (H := MiniRuntime.runtime)
                  (H0 := MiniSecurity.security) MiniSecurity.first_id 1
                  (MiniSecurity.site_of
                     (Scenarios.one_document Examples.service_down
                        Scenarios.update_fails))).2) !! 1
     = Some 1%Z.
Proof.
  destruct (count_kept_after_failed_decrement
    (H := MiniRuntime.runtime) (H0 := MiniSecurity.security)
    MiniSecurity.first_id 1
    (MiniSecurity.site_of
       (Scenarios.one_document Examples.service_down Scenarios.update_fails))
    0 Scenarios.earlier_record (inc_document_count 1 Examples.ramaiah)
    (lit "ServerSelectionTimeoutError") (lit "No servers found yet")
    eq_refl eq_refl eq_refl eq_refl eq_refl eq_refl)
    as (Hrun & Hdocs & Hu & _).
  split; [exact Hrun|]. split.
  - rewrite Hdocs. reflexivity.
  - exact (f_equal (fmap document_count) Hu).
Defined.

(** X21. Deleting what was just analyzed undoes it.  When
    [analyze_document] has returned a response and [delete_document] is
    then called with the identifier of the response, written as [bson]
    writes it and read back as the same identifier, and the driver
    answers the two calls, the [documents] collection is the one before
    the analysis, and so is the [users] collection, counter included. *)
Theorem delete_undoes_analyze `{Runtime} `{Security}
    (request : DocumentRequest) (current_user : oid) (s s1 : site)
    (response : DocumentResponse) :
  analyze request current_user s = (inr response, s1) ->
  ObjectId (oid_str (document_id response)) = inr (document_id response) ->
  answers_call s1 (DocumentsDeleteOne (document_id response) current_user) ->
  mongo_fault (base s1) (trace (base s1) ++ [UsersUpdateOne current_user (-1)])
  = None ->
  let s2 := (delete_document (oid_str (document_id response)) current_user s1).2 in
  (delete_document (oid_str (document_id response)) current_user s1).1
  = inr (lit "Document deleted successfully")
  /\ documents (base s2) = documents (base s)
  /\ users (base s2) = users (base s).
Proof.
  unfold answers_call, analyze, of_M. intros Hrun Hid Hdelete Hupdate. cbv zeta.
  destruct (analyze_document request current_user (base s)) as [r w1] eqn:Hbase.
  injection Hrun as -> <-. cbn [base set_base] in *.
  pose proof (analyze_document_cases request current_user (base s)) as Hcases.
  cbv zeta in Hcases. rewrite Hbase in Hcases. cbn [fst snd] in Hcases.
  destruct Hcases
    as [(e & He & _)|[(d & e & _ & He & _)|(d & _ & Hres & Husers & Hdocs & _)]];
    [discriminate He|discriminate He|].
  destruct (response_of (PDict d) (fresh (dom (documents (base s))))
              (Datatypes.S (clock (base s)))) as [e|r] eqn:Er; [discriminate Hres|].
  injection Hres as ->. destruct (response_of_fields _ _ _ _ Er) as [Hfresh _].
  rewrite Hfresh in *.
  pose proof (fresh_document_id (documents (base s))) as Hnew.
  rewrite delete_document_run, Hid. cbv zeta.
  cbn [base set_base calls faults record_call] in Hdelete, Hupdate |- *.
  rewrite Hdelete, Hdocs, lookup_insert_eq. cbn [rec_user_id record_of].
  rewrite decide_True, Hupdate by done.
  cbn [fst snd base set_base documents users set_users log set_documents].
  split; [done|]. split.
  - by apply delete_insert_id.
  - rewrite Husers, alter_alter_eq. apply alter_id.
    intros u _. apply inc_document_count_back.
Qed.

Lemma delete_undoes_analyze_witness :
  exists response s1,
    analyze (H := MiniRuntime.runtime) Examples.survey_request 1
      (MiniSecurity.site_of
         (Scenarios.one_document (Examples.answers Examples.summary_and_survey)
            Examples.driver_ok))
    = (inr response, s1)
    /\ MiniSecurity.to_str (document_id response) = MiniSecurity.second_id
    /\ documents
         (base (delete_document (H := MiniRuntime.runtime)
                  (H0 := MiniSecurity.security)
                  (MiniSecurity.to_str (document_id response)) 1 s1).2)
       = {[ 0 := Scenarios.earlier_record ]}.
Proof.
  eexists _, _. split; [vm_compute; reflexivity|]. split; [reflexivity|].
  match goal with
  | |- context [delete_document ?doc _ ?s1] =>
      destruct (delete_undoes_analyze
        (H := MiniRuntime.runtime) (H0 := MiniSecurity.security)
        Examples.survey_request 1
        (MiniSecurity.site_of
           (Scenarios.one_document (Examples.answers Examples.summary_and_survey)
              Examples.driver_ok))
        s1 _ ltac:(vm_compute; reflexivity) eq_refl eq_refl eq_refl)
        as (_ & Hdocs & _)
  end.
  exact Hdocs.
Defined.

(** X22. With a driver that never fails an update, [delete_document]
    keeps the counters right: if the counter of every user is the number
    of the user's records before a run, it is so after it, whether the
    identifier is refused, the delete fails, the record is not found, or
    it is removed. *)
Theorem delete_keeps_counters_consistent `{Runtime} `{Security}
    (document_id : str) (current_user : oid) (s : site) :
  (forall t, mongo_fault (base s) (t ++ [UsersUpdateOne current_user (-1)]) = None) ->
  counters_consistent (base s) ->
  counters_consistent (base (delete_document document_id current_user s).2).
Proof.
  intros Hdriver Hcons. rewrite delete_document_run.
  destruct (ObjectId document_id) as [msg|id]; [done|]. cbv zeta.
  destruct (faults s (trace (base s)) (calls s ++ [DocumentsDeleteOne id current_user]))
    as [[cls msg]|]; [done|].
  destruct (documents (base s) !! id) as [rec|] eqn:Hrec; [|done].
  destruct (decide (rec_user_id rec = current_user)) as [Hown|_]; [|done].
  rewrite Hdriver.
  cbn [fst snd base set_base documents users set_users log set_documents].
  intros uid u. cbn [users documents set_users log set_documents].
  pose proof (stored_documents_delete uid _ id rec Hrec) as Hstored.
  destruct (decide (current_user = uid)) as [<-|Hne].
  - rewrite lookup_alter_eq.
    destruct (users (base s) !! current_user) as [u0|] eqn:Hu0; [|done].
    intros [= <-]. cbn [document_count inc_document_count].
    rewrite (Hcons _ _ Hu0), Hstored, decide_True by done. lia.
  - rewrite lookup_alter_ne by done. intros Hu.
    rewrite (Hcons _ _ Hu), Hstored, decide_False; [done|].
    by rewrite Hown.
Qed.

Lemma delete_keeps_counters_consistent_witness :
  counters_consistent
    (base (delete_document (H := MiniRuntime.runtime)
             (H0 := MiniSecurity.security) MiniSecurity.first_id 1
             (MiniSecurity.site_of
                (Scenarios.one_document Examples.service_down
                   Examples.driver_ok))).2).
Proof.
  apply (delete_keeps_counters_consistent
           (H := MiniRuntime.runtime) (H0 := MiniSecurity.security)).
  - reflexivity.
  - intros uid u Hu. cbn [base MiniSecurity.site_of users documents
                          Scenarios.one_document] in *.
    apply lookup_singleton_Some in Hu as [<- <-]. vm_compute. reflexivity.
Defined.

(** * Accounts *)

(** [find_one({"email": mail})] finds nothing exactly when no record has
    the address. *)
Lemma find_by_email_None (m : gmap oid user) (mail : str) :
  list_find (fun kv : oid * user => email kv.2 = mail) (map_to_list m) = None
  <-> forall i u, m !! i = Some u -> email u <> mail.
Proof.
  rewrite list_find_None, Forall_forall. split.
  - intros Hall i u Hi. apply (Hall (i, u)). by apply elem_of_map_to_list.
  - intros Hall [i u] Hi. apply (Hall i u). by apply elem_of_map_to_list.
Qed.

(** What it finds is a record of the collection with the address. *)
Lemma find_by_email_Some (m : gmap oid user) (mail : str) (n : nat)
    (i : oid) (u : user) :
  list_find (fun kv : oid * user => email kv.2 = mail) (map_to_list m)
  = Some (n, (i, u)) ->
  m !! i = Some u /\ email u = mail.
Proof.
  intros (Hn & Hmail & _)%list_find_Some. split; [|done].
  apply elem_of_map_to_list. by eapply list_elem_of_lookup_2.
Qed.


Section Auth.
Context `{Runtime} `{Security}.

(** [register], case by case. *)
Lemma register_run (request : RegisterRequest) (s : site) :
  register request s
  = let find := UsersFindOneByEmail (reg_email request) in
    let s1 := record_call find s in
    match faults s (trace (base s)) (calls s ++ [find]) with
    | Some (cls, msg) => (inl (Error cls msg), s1)
    | None =>
        match list_find (fun kv : oid * user => email kv.2 = reg_email request)
                (map_to_list (users (base s))) with
        | Some _ => (inl (HTTPException 400 (lit "Email already registered")), s1)
        | None =>
            let s2 := record_call (PasswordHash (reg_password request)) s1 in
            match hasher s (calls s2) with
            | inl (cls, msg) => (inl (Error cls msg), s2)
            | inr hashed_password =>
                let user_data :=
                  user_data_of request hashed_password (clock (base s)) in
                let s3 := record_call (UsersInsertOne user_data)
                            (set_base (tick (base s)) s2) in
                match faults s (trace (base s)) (calls s3) with
                | Some (cls, msg) => (inl (Error cls msg), s3)
                | None =>
                    let inserted_id := fresh (dom (users (base s))) in
                    (inr {| token :=
                              jwt_encode (oid_str inserted_id)
                                (Datatypes.S (clock (base s)) + thirty_days)%nat;
                            auth_id := oid_str inserted_id;
                            auth_name := reg_name request;
                            auth_email := reg_email request;
                            auth_created_at := clock (base s) |},
                     set_base
                       (tick (set_users (<[inserted_id := user_data]> (users (base s)))
                                (tick (base s)))) s3)
                end
            end
        end
    end.
Proof.
  unfold register. unfold s_bind at 1. unfold users_find_one_by_email, driver_call.
  cbv zeta. cbn [calls record_call base].
  destruct (faults s (trace (base s)) (calls s ++ [UsersFindOneByEmail (reg_email request)]))
    as [[cls msg]|]; [reflexivity|].
  destruct (list_find _ (map_to_list (users (base s)))) as [found|]; [reflexivity|].
  cbn [fmap option_fmap option_map].
  unfold s_bind at 1. unfold get_password_hash. cbv zeta.
  cbn [calls record_call base hasher].
  destruct (hasher s _) as [[cls msg]|hashed_password]; [reflexivity|].
  unfold s_bind at 1. unfold of_M at 1, utcnow at 1. cbn [base record_call].
  unfold s_bind at 1. unfold users_insert_one, driver_call. cbv zeta.
  cbn [calls record_call base set_base faults trace tick].
  destruct (faults s (trace (base s)) _) as [[cls msg]|]; [reflexivity|].
  reflexivity.
Qed.

(** [login], case by case. *)
Lemma login_run (request : LoginRequest) (s : site) :
  login request s
  = let find := UsersFindOneByEmail (login_email request) in
    let s1 := record_call find s in
    let refused :=
      (inl (HTTPException 401 (lit "Invalid email or password")), s1) in
    match faults s (trace (base s)) (calls s ++ [find]) with
    | Some (cls, msg) => (inl (Error cls msg), s1)
    | None =>
        match snd <$> list_find (fun kv : oid * user => email kv.2 = login_email request)
                        (map_to_list (users (base s))) with
        | None => refused
        | Some (uid, u) =>
            match pwd_verify (login_password request) (password u) with
            | inl (cls, msg) => (inl (Error cls msg), s1)
            | inr false => refused
            | inr true =>
                (inr {| token :=
                          jwt_encode (oid_str uid) (clock (base s) + thirty_days)%nat;
                        auth_id := oid_str uid;
                        auth_name := name u;
                        auth_email := email u;
                        auth_created_at := created_at u |},
                 set_base (tick (base s)) s1)
            end
        end
    end.
Proof.
  unfold login. unfold s_bind at 1. unfold users_find_one_by_email, driver_call.
  cbv zeta. cbn [calls record_call base].
  destruct (faults s (trace (base s)) (calls s ++ [UsersFindOneByEmail (login_email request)]))
    as [[cls msg]|]; [reflexivity|].
  destruct (snd <$> list_find _ (map_to_list (users (base s)))) as [[uid u]|];
    [|reflexivity].
  unfold s_bind at 1. unfold verify_password.
  destruct (pwd_verify (login_password request) (password u)) as [[cls msg]|[|]];
    reflexivity.
Qed.

(** [get_current_user], case by case. *)
Lemma get_current_user_run (token : str) (s : site) :
  get_current_user token s
  = match jwt_decode (clock (base s)) token with
    | Some (Some user_id) =>
        match ObjectId user_id with
        | inl msg => (inl (Error (lit "InvalidId") msg), s)
        | inr uid =>
            let s1 := record_call (UsersFindOneById uid) s in
            match faults s (trace (base s)) (calls s ++ [UsersFindOneById uid]) with
            | Some (cls, msg) => (inl (Error cls msg), s1)
            | None =>
                match users (base s) !! uid with
                | Some u => (inr (uid, u), s1)
                | None => (inl (HTTPException 401 (lit "User not found")), s1)
                end
            end
        end
    | _ => (inl (HTTPException 401 (lit "Invalid token")), s)
    end.
Proof.
  unfold get_current_user. unfold s_bind at 1.
  destruct (jwt_decode (clock (base s)) token) as [[user_id|]|]; [|reflexivity..].
  unfold s_ret at 1. unfold s_bind at 1. unfold make_ObjectId.
  destruct (ObjectId user_id) as [msg|uid]; [reflexivity|].
  unfold s_ret at 1. unfold s_bind, users_find_one_by_id, driver_call.
  cbv zeta. cbn [calls record_call base].
  destruct (faults s (trace (base s)) (calls s ++ [UsersFindOneById uid]))
    as [[cls msg]|]; [reflexivity|].
  by destruct (users (base s) !! uid).
Qed.

(** [register] is its search followed by [register_continue]. *)
Lemma register_unfolds (request : RegisterRequest) :
  register request
  = s_bind (users_find_one_by_email (reg_email request))
      (register_continue request).
Proof. reflexivity. Qed.

(** [register_continue] for an address that the search did not find,
    when the password is hashed and the driver answers the insert. *)
Lemma register_continue_stores (request : RegisterRequest) (s : site)
    (hashed_password : str) :
  let s1 := record_call (PasswordHash (reg_password request)) s in
  let user_data := user_data_of request hashed_password (clock (base s)) in
  let s2 := record_call (UsersInsertOne user_data) (set_base (tick (base s)) s1) in
  let inserted_id := fresh (dom (users (base s))) in
  hasher s (calls s1) = inr hashed_password ->
  faults s (trace (base s)) (calls s2) = None ->
  register_continue request None s
  = (inr {| token :=
              jwt_encode (oid_str inserted_id)
                (Datatypes.S (clock (base s)) + thirty_days)%nat;
            auth_id := oid_str inserted_id;
            auth_name := reg_name request;
            auth_email := reg_email request;
            auth_created_at := clock (base s) |},
     set_base
       (tick (set_users (<[inserted_id := user_data]> (users (base s)))
                (tick (base s)))) s2).
Proof.
  cbv zeta. intros Hhash Hinsert.
  unfold register_continue. unfold s_bind at 1. unfold get_password_hash.
  cbv zeta. cbn [calls record_call base hasher] in Hhash |- *. rewrite Hhash.
  unfold s_bind at 1. unfold of_M at 1, utcnow at 1. cbn [base record_call].
  unfold s_bind at 1. unfold users_insert_one, driver_call. cbv zeta.
  cbn [calls record_call base set_base faults trace tick] in Hinsert |- *.
  unfold user_data_of in Hinsert. rewrite Hinsert. reflexivity.
Qed.

End Auth.

(** X23. [register] refuses an address that a user already has, with
    the status 400 and [Email already registered], once the driver has
    answered the search: the collections, the clock and the trace are
    as before, and the search is the only call made, so that no
    password is hashed and no record inserted. *)
Theorem taken_email_is_refused_unwritten `{Security}
    (request : RegisterRequest) (s : site) :
  email_taken (base s) (reg_email request) ->
  answers_call s (UsersFindOneByEmail (reg_email request)) ->
  (register request s).1
  = inl (HTTPException 400 (lit "Email already registered"))
  /\ base (register request s).2 = base s
  /\ calls (register request s).2
     = calls s ++ [UsersFindOneByEmail (reg_email request)].
Proof.
  unfold answers_call. intros (i & u & Hi & Hmail) Hfind.
  rewrite register_run. cbv zeta. rewrite Hfind.
  destruct (list_find _ (map_to_list (users (base s)))) as [found|] eqn:Hnone.
  - repeat split.
  - exfalso. by eapply find_by_email_None.
Qed.

Lemma taken_email_is_refused_unwritten_witness :
  (register (H0 := MiniSecurity.security) MiniSecurity.ramaiah_registers
     (MiniSecurity.site_of (Examples.start Examples.service_down Examples.driver_ok))).1
  = inl (HTTPException 400 (lit "Email already registered"))
  /\ users
       (base (register (H0 := MiniSecurity.security) MiniSecurity.ramaiah_registers
                (MiniSecurity.site_of
                   (Examples.start Examples.service_down Examples.driver_ok))).2)
     = {[ 1 := Examples.ramaiah ]}.
Proof.
  destruct (taken_email_is_refused_unwritten
    (H := MiniSecurity.security)
    MiniSecurity.ramaiah_registers
    (MiniSecurity.site_of (Examples.start Examples.service_down Examples.driver_ok)))
    as (Hrun & Hbase & _).
  - exists 1, Examples.ramaiah. split; reflexivity.
  - reflexivity.
  - split; [exact Hrun|]. rewrite Hbase. reflexivity.
Defined.

(** X24. What a response of [register] means.  When [register]
    returns, no user had the address, [pwd_context.hash] returned a
    hash, and the [users] collection is the one before with one record
    more, under an identifier that was not in use: the record of lines
    355 to 363, with the hash as its password, empty [phone] and
    [address], and no document counted.  The [documents] collection is
    as before.  The response carries the [str()] of the new identifier,
    the time of the record, and a token for the identifier that expires
    thirty days after the time read next. *)
Theorem register_stores_one_user `{Security}
    (request : RegisterRequest) (s s' : site) (response : AuthResponse) :
  register request s = (inr response, s') ->
  let inserted_id := fresh (dom (users (base s))) in
  exists hashed_password,
    hasher s ((calls s ++ [UsersFindOneByEmail (reg_email request)])
              ++ [PasswordHash (reg_password request)])
    = inr hashed_password
    /\ ~ email_taken (base s) (reg_email request)
    /\ users (base s) !! inserted_id = None
    /\ users (base s')
       = <[inserted_id := user_data_of request hashed_password (clock (base s))]>
           (users (base s))
    /\ documents (base s') = documents (base s)
    /\ response
       = {| token := jwt_encode (oid_str inserted_id)
                       (Datatypes.S (clock (base s)) + thirty_days)%nat;
            auth_id := oid_str inserted_id;
            auth_name := reg_name request;
            auth_email := reg_email request;
            auth_created_at := clock (base s) |}.
Proof.
  rewrite register_run. cbv zeta.
  destruct (faults s (trace (base s)) (calls s ++ [UsersFindOneByEmail (reg_email request)]))
    as [[cls msg]|]; [discriminate|].
  destruct (list_find _ (map_to_list (users (base s)))) as [found|] eqn:Hnone;
    [discriminate|].
  cbn [calls record_call].
  destruct (hasher s _) as [[cls msg]|hashed_password]; [discriminate|].
  cbn [calls record_call set_base faults].
  destruct (faults s (trace (base s)) _) as [[cls msg]|]; [discriminate|].
  intros [= <- <-]. exists hashed_password.
  cbn [base set_base record_call users documents tick set_users].
  split; [reflexivity|]. split.
  { intros (i & u & Hi & Hmail). by eapply find_by_email_None. }
  split.
  { apply not_elem_of_dom. apply is_fresh. }
  repeat split.
Qed.

Lemma register_stores_one_user_witness :
  users
    (base (register (H0 := MiniSecurity.security) MiniSecurity.sita_registers
             (MiniSecurity.site_of
                (Examples.start Examples.service_down Examples.driver_ok))).2)
  = <[ 2 := user_data_of MiniSecurity.sita_registers (lit "$mini$secret") 100 ]>
      {[ 1 := Examples.ramaiah ]}.
Proof.
  destruct (register_stores_one_user
    (H := MiniSecurity.security)
    MiniSecurity.sita_registers
    (MiniSecurity.site_of (Examples.start Examples.service_down Examples.driver_ok))
    _ _ ltac:(vm_compute; reflexivity))
    as (h & Hh & _ & _ & Husers & _).
  injection Hh as <-. exact Husers.
Defined.

(** X25. [register] does not keep the addresses apart when two
    requests overlap.  The search and the insert are two [await]s with
    nothing between them that holds the address: when a second request
    for the same address has its search answered before the first has
    inserted, and the driver answers and the passwords are hashed, both
    requests are answered with a response, each for an identifier of its
    own, and the [users] collection ends with two records that have the
    address. *)
Theorem interleaved_registrations_share_an_address `{Security}
    (request_a request_b : RegisterRequest) (s : site) :
  reg_email request_b = reg_email request_a ->
  ~ email_taken (base s) (reg_email request_a) ->
  (forall t c, faults s t c = None) ->
  (forall c plain,
     exists hashed_password,
       hasher s (c ++ [PasswordHash plain]) = inr hashed_password) ->
  exists response_a response_b s' i j u v,
    two_registrations request_a request_b s = (inr (response_a, response_b), s')
    /\ auth_id response_a = oid_str i /\ auth_id response_b = oid_str j
    /\ i <> j
    /\ users (base s) !! i = None /\ users (base s) !! j = None
    /\ users (base s') !! i = Some u /\ users (base s') !! j = Some v
    /\ email u = reg_email request_a /\ email v = reg_email request_a
    /\ ~ emails_unique (base s').
Proof.
  intros Hsame Hfree Hdriver Hhash.
  assert (list_find (fun kv : oid * user => email kv.2 = reg_email request_a)
            (map_to_list (users (base s))) = None) as Hnone.
  { apply find_by_email_None. intros i u Hi Hmail. apply Hfree. by exists i, u. }
  unfold two_registrations.
  unfold s_bind at 1. unfold users_find_one_by_email at 1, driver_call.
  cbv zeta. rewrite Hdriver. cbn [base record_call]. rewrite Hnone.
  cbn [fmap option_fmap option_map].
  unfold s_bind at 1. unfold users_find_one_by_email at 1, driver_call.
  cbv zeta. cbn [faults record_call]. rewrite Hdriver. cbn [base record_call].
  rewrite Hsame, Hnone. cbn [fmap option_fmap option_map].
  set (s1 := record_call (UsersFindOneByEmail (reg_email request_a))
               (record_call (UsersFindOneByEmail (reg_email request_a)) s)).
  destruct (Hhash (calls s1) (reg_password request_a)) as [hashed_a Ha].
  unfold s_bind at 1.
  rewrite (register_continue_stores request_a s1 hashed_a Ha (Hdriver _ _)).
  cbv zeta.
  set (i := fresh (dom (users (base s1)))).
  set (u := user_data_of request_a hashed_a (clock (base s1))).
  set (s2 := set_base _ _).
  destruct (Hhash (calls s2) (reg_password request_b)) as [hashed_b Hb].
  unfold s_bind at 1.
  rewrite (register_continue_stores request_b s2 hashed_b Hb (Hdriver _ _)).
  cbv zeta. unfold s_ret.
  set (j := fresh (dom (users (base s2)))).
  set (v := user_data_of request_b hashed_b (clock (base s2))).
  assert (users (base s2) = <[i := u]> (users (base s))) as Hs2 by reflexivity.
  assert (users (base s) !! i = None) as Hi.
  { apply not_elem_of_dom. apply is_fresh. }
  assert (users (base s2) !! j = None) as Hj.
  { apply not_elem_of_dom. apply is_fresh. }
  assert (i <> j) as Hij.
  { intros E. rewrite Hs2, <- E, lookup_insert_eq in Hj. discriminate Hj. }
  eexists _, _, _, i, j, u, v. split; [reflexivity|].
  cbn [auth_id base set_base users tick set_users].
  split; [reflexivity|]. split; [reflexivity|]. split; [exact Hij|].
  split; [exact Hi|]. split.
  { rewrite Hs2, lookup_insert_ne in Hj by done. exact Hj. }
  rewrite Hs2.
  assert (<[j := v]> (<[i := u]> (users (base s))) !! i = Some u) as Hu.
  { rewrite (lookup_insert_ne _ j i v (not_eq_sym Hij)). apply lookup_insert_eq. }
  assert (<[j := v]> (<[i := u]> (users (base s))) !! j = Some v) as Hv
    by apply lookup_insert_eq.
  split; [exact Hu|]. split; [exact Hv|]. split; [reflexivity|].
  split; [exact Hsame|].
  intros Huniq. apply Hij. apply (Huniq i j u v); [exact Hu|exact Hv|].
  unfold u, v, user_data_of. cbn [email]. by rewrite Hsame.
Qed.

Lemma interleaved_registrations_share_an_address_witness :
  exists response_a response_b s',
    two_registrations (H0 := MiniSecurity.security)
      MiniSecurity.sita_registers MiniSecurity.sita_registers
      (MiniSecurity.site_of (Examples.start Examples.service_down Examples.driver_ok))
    = (inr (response_a, response_b), s')
    /\ ~ emails_unique (base s').
Proof.
  destruct (interleaved_registrations_share_an_address (H := MiniSecurity.security)
    MiniSecurity.sita_registers MiniSecurity.sita_registers
    (MiniSecurity.site_of (Examples.start Examples.service_down Examples.driver_ok))
    eq_refl)
    as (ra & rb & s' & i & j & u & v & Hrun & _ & _ & _ & _ & _ & _ & _ & _ & _ & Hdup).
  - intros (i & u & Hi & Hmail).
    cbn [base MiniSecurity.site_of users Examples.start] in Hi.
    apply lookup_singleton_Some in Hi as [_ <-]. discriminate Hmail.
  - reflexivity.
  - intros c plain. exists (lit "$mini$" ++ plain).
    unfold MiniSecurity.site_of, hasher, MiniSecurity.hash.
    by rewrite last_snoc.
  - exists ra, rb, s'. split; [exact Hrun|exact Hdup].
Defined.

(** X26. [login] answers an unknown address and a wrong password
    alike.  When the driver answers the search and the password matches
    the hash of no user with the address (there may be none), the
    failure is the status 401 with [Invalid email or password], the
    search is the only call, and nothing is written. *)
Theorem login_refusals_are_alike `{Security}
    (request : LoginRequest) (s : site) :
  answers_call s (UsersFindOneByEmail (login_email request)) ->
  (forall i u,
     users (base s) !! i = Some u -> email u = login_email request ->
     pwd_verify (login_password request) (password u) = inr false) ->
  login request s
  = (inl (HTTPException 401 (lit "Invalid email or password")),
     record_call (UsersFindOneByEmail (login_email request)) s).
Proof.
  unfold answers_call. intros Hfind Hwrong.
  rewrite login_run. cbv zeta. rewrite Hfind.
  destruct (list_find _ (map_to_list (users (base s)))) as [[n [uid u]]|] eqn:Hfound;
    [|reflexivity].
  cbn [fmap option_fmap option_map snd].
  apply find_by_email_Some in Hfound as [Hu Hmail].
  by rewrite (Hwrong uid u Hu Hmail).
Qed.

Lemma login_refusals_are_alike_witness :
  (login (H0 := MiniSecurity.security)
     {| login_email := lit "ramaiah@example.com"; login_password := lit "guess" |}
     (MiniSecurity.site_of (Examples.start Examples.service_down Examples.driver_ok))).1
  = (login (H0 := MiniSecurity.security) MiniSecurity.sita_logs_in
       (MiniSecurity.site_of (Examples.start Examples.service_down Examples.driver_ok))).1.
Proof.
  rewrite (login_refusals_are_alike
             (H := MiniSecurity.security)
             {| login_email := lit "ramaiah@example.com";
                login_password := lit "guess" |}).
  - rewrite (login_refusals_are_alike
               (H := MiniSecurity.security)
               MiniSecurity.sita_logs_in).
    + reflexivity.
    + reflexivity.
    + intros i u Hu Hmail.
      cbn [base MiniSecurity.site_of users Examples.start] in Hu.
      apply lookup_singleton_Some in Hu as [_ <-]. discriminate Hmail.
  - reflexivity.
  - intros i u Hu _.
    cbn [base MiniSecurity.site_of users Examples.start] in Hu.
    apply lookup_singleton_Some in Hu as [_ <-]. reflexivity.
Defined.



(** X28. [get_current_user] settles a token that gives no identifier
    before it calls the driver.  A token that [jwt.decode] refuses, or
    whose payload has no [sub], is answered with the status 401 and
    [Invalid token].  A token whose [sub] is not an identifier is not:
    [ObjectId] is called outside the [try], and its [InvalidId]
    leaves the function as it is.  In every such run the site is as
    before, no call made. *)
Theorem token_is_settled_before_the_driver `{Security}
    (token : str) (s : site) :
  (forall sub uid,
     jwt_decode (clock (base s)) token = Some (Some sub) ->
     ObjectId sub <> inr uid) ->
  (get_current_user token s).2 = s
  /\ match jwt_decode (clock (base s)) token with
     | Some (Some sub) =>
         exists msg,
           ObjectId sub = inl msg
           /\ (get_current_user token s).1 = inl (Error (lit "InvalidId") msg)
     | _ =>
         (get_current_user token s).1
         = inl (HTTPException 401 (lit "Invalid token"))
     end.
Proof.
  intros Hno. rewrite get_current_user_run.
  destruct (jwt_decode (clock (base s)) token) as [[sub|]|]; [|done..].
  destruct (ObjectId sub) as [msg|uid] eqn:Hid.
  - split; [done|]. by exists msg.
  - by destruct (Hno sub uid eq_refl).
Qed.

Lemma token_is_settled_before_the_driver_witness :
  get_current_user (H0 := MiniSecurity.security) (lit "mini.ramaiah.200")
    (MiniSecurity.site_of (Examples.start Examples.service_down Examples.driver_ok))
  = (inl (Error (lit "InvalidId")
            (lit "'ramaiah' is not a valid ObjectId, it must be a 12-byte input or a 24-character hex string")),
     MiniSecurity.site_of (Examples.start Examples.service_down Examples.driver_ok)).
Proof.
  destruct (token_is_settled_before_the_driver (H := MiniSecurity.security)
    (lit "mini.ramaiah.200")
    (MiniSecurity.site_of (Examples.start Examples.service_down Examples.driver_ok)))
    as [Hsite Hrun].
  - intros sub uid [= <-]. discriminate.
  - destruct Hrun as (msg & [= <-] & Hrun).
    apply injective_projections; [exact Hrun|exact Hsite].
Defined.

(** X29. Checking a token and logging in write nothing.  Whatever the
    token, the request and the answers of the driver and of the
    libraries, a run of [get_current_user] or of [login] leaves the
    [users] collection, the [documents] collection and the trace of the
    analysis as they were. *)
Theorem sessions_write_nothing `{Security}
    (token : str) (request : LoginRequest) (s : site) :
  let unchanged (s' : site) :=
    users (base s') = users (base s)
    /\ documents (base s') = documents (base s)
    /\ trace (base s') = trace (base s) in
  unchanged (get_current_user token s).2
  /\ unchanged (login request s).2.
Proof.
  cbv zeta. split.
  - rewrite get_current_user_run.
    destruct (jwt_decode (clock (base s)) token) as [[sub|]|]; [|done..].
    destruct (ObjectId sub) as [msg|uid]; [done|]. cbv zeta.
    destruct (faults s _ _) as [[cls msg]|]; [done|].
    by destruct (users (base s) !! uid).
  - rewrite login_run. cbv zeta.
    destruct (faults s _ _) as [[cls msg]|]; [done|].
    destruct (snd <$> list_find _ _) as [[uid u]|]; [|done].
    by destruct (pwd_verify _ _) as [[cls msg]|[|]].
Qed.


